(** * mmmm: the broadcast pipeline

    A shallow embedding of the Python package [mmmm] (modules
    [platform], [platforms], [platforms/slack], [platforms/email],
    [contact_db], [basic] and [templated]) and the properties of its
    broadcast pipeline and of the command line interfaces in front of it.

    Python code that raises is embedded in a state-and-exception monad:
    the state survives a raised exception, as a mutated object survives it
    in Python.  Every call that leaves the process (the SMTP session, the
    Slack client, the MySQL cursor) and the builtin [str.format] are fields
    of a record [World]; the theorems hold for every world. *)

From Stdlib Require Import String Ascii ZArith List Bool Lia DecimalString.
From stdpp Require Import base option list gmap strings.

Local Open Scope string_scope.
Local Open Scope list_scope.

(** ** Exceptions and results *)

(** The subclasses of [Exception] the pipeline can meet.  [OtherError]
    stands for the exceptions of the external libraries
    ([smtplib.SMTPException], [mysql.connector.Error], ...). *)
Inductive exn : Type :=
| KeyError (key : string)
| IndexError
| TypeError (msg : string)
| ValueError (msg : string)
| AttributeError (attr : string)
| OtherError (detail : string).

Inductive result (A : Type) : Type :=
| Ok (a : A)
| Raise (e : exn).
Arguments Ok {A} a.
Arguments Raise {A} e.

Definition is_ok {A} (r : result A) : bool :=
  match r with Ok _ => true | Raise _ => false end.

(** ** Python values *)

(** Values a template is filled with. *)
Inductive atom : Type :=
| ANone
| AInt (n : Z)
| AStr (s : string).

(** What a [template_input_builder] can return: [None], a number, a
    string, a tuple, a list or a dict. *)
Inductive pyval : Type :=
| PNone
| PInt (n : Z)
| PStr (s : string)
| PTuple (items : list atom)
| PList (items : list atom)
| PDict (items : list (atom * atom)).

(** A decoded JSON field of the sender data: a string, or a nested
    object of strings (the [smtp] keyword arguments). *)
Inductive field : Type :=
| FStr (s : string)
| FDict (d : gmap string string).

(** A decoded recipient: bare text, or an object of strings. *)
Inductive rdata : Type :=
| RBare (s : string)
| RDict (d : gmap string string).

(** ** platform.py, the objects of the adapters *)

(** [slack.SlackUser] and [email.EmailUser]. *)
Inductive User : Type :=
| SlackUser (username : string)
| EmailUser (address : string).

(** [slack.SlackClientUser] and [email.EmailClientUser]; [server] names
    the [smtplib.SMTP] object the sender holds. *)
Inductive ClientUser : Type :=
| SlackClientUser (username token : field)
| EmailClientUser (server : nat) (address : string) (password : field).

(** [User.get_id] *)
Definition get_id (u : User) : string :=
  match u with
  | SlackUser username => username
  | EmailUser address => address
  end.

(** [basic.Message] *)
Record Message : Type := mkMessage {
  sender : ClientUser;
  recipient : User;
  content : string
}.

(** ** Observable events *)

Inductive logline : Type :=
| LogNoRecipients                                (* templated.build_resources, debug *)
| LogSkipped (recipient_id : string)             (* templated.build_messages, error *)
| LogSent (recipient_id : string) (body : string)(* basic.send_message, info *)
| LogSendFailed (recipient_id : string) (e : exn)(* basic.send_message, error *).

Inductive event : Type :=
| EvDbConnect (user : string)
| EvSelectUsernames (platform : string)
| EvSelectContact (platform username : string)
| EvSmtpNew (kwargs : gmap string string)
| EvSmtpStartTls (server : nat)
| EvSmtpLogin (server : nat) (address : string) (password : field)
| EvSend (m : Message)
| EvSlackPost (token : field) (channel : string) (body : string)
| EvSendmail (server : nat) (from_addr to_addr : string) (body : string)
| EvLog (l : logline).

(** ** The world outside the process *)

(** A [mysql.connector] cursor on database [mmmm], through the two
    expressions [contact_db] evaluates on it: the [username] column of
    table [platform], and the [c_id] of the row of [platform] with a given
    [username].  The second stands for the whole expression of
    [get_contact], execution of the query and selection of its first
    item; what it does for a username without a row is the cursor's
    business, and [templated.build_messages] expects a [KeyError]. *)
Record Cursor : Type := mkCursor {
  select_usernames : string -> result (list string);
  select_c_id : string -> string -> result Z
}.

(** Outcomes of the external calls, each a function of the events so far,
    and the builtin [str.format] on positional arguments. *)
Record World : Type := mkWorld {
  db_connect : list event -> string -> result Cursor;
  smtp_new : list event -> gmap string string -> option exn;
  smtp_starttls : list event -> nat -> option exn;
  smtp_login : list event -> nat -> string -> field -> option exn;
  smtp_sendmail : list event -> nat -> string -> string -> string -> option exn;
  slack_post_message : list event -> field -> string -> string -> option exn;
  str_format : string -> list atom -> result string
}.

(** ** State and the monad *)

(** [heap] holds the [_servers] dict of every [email.Email] instance. *)
Record State : Type := mkState {
  trace : list event;
  heap : gmap nat (gmap string nat);
  next_id : nat
}.

Definition M (A : Type) : Type := State -> State * result A.

Definition ret {A} (a : A) : M A := fun st => (st, Ok a).

Definition raise {A} (e : exn) : M A := fun st => (st, Raise e).

Definition bind {A B} (m : M A) (k : A -> M B) : M B :=
  fun st =>
    match m st with
    | (st', Ok a) => k a st'
    | (st', Raise e) => (st', Raise e)
    end.

Notation "x <- c1 ;; c2" := (bind c1 (fun x => c2))
  (at level 100, c1 at next level, right associativity).
Notation "c1 ;; c2" := (bind c1 (fun _ => c2))
  (at level 100, right associativity).

Definition lift {A} (r : result A) : M A := fun st => (st, r).

Definition emit (ev : event) : M unit :=
  fun st => (mkState (trace st ++ [ev]) (heap st) (next_id st), Ok tt).

(** An external call: the event is recorded, then the world decides. *)
Definition call {A} (ev : event) (outcome : list event -> result A) : M A :=
  fun st =>
    let st' := mkState (trace st ++ [ev]) (heap st) (next_id st) in
    (st', outcome (trace st')).

Definition outcome_of (o : option exn) : result unit :=
  match o with None => Ok tt | Some e => Raise e end.

(** A fresh object identity. *)
Definition fresh : M nat :=
  fun st => (mkState (trace st) (heap st) (S (next_id st)), Ok (next_id st)).

Definition read_servers (self : nat) : M (gmap string nat) :=
  fun st => (st, Ok (default ∅ (heap st !! self))).

Definition write_servers (self : nat) (servers : gmap string nat) : M unit :=
  fun st => (mkState (trace st) (<[self := servers]> (heap st)) (next_id st), Ok tt).

(** [for x in xs: body(x)] *)
Fixpoint for_each {A} (body : A -> M unit) (xs : list A) : M unit :=
  match xs with
  | [] => ret tt
  | x :: xs' => body x ;; for_each body xs'
  end.

(** [[f(x) for x in xs]] *)
Fixpoint comprehension {A B} (f : A -> M B) (xs : list A) : M (list B) :=
  match xs with
  | [] => ret []
  | x :: xs' => y <- f x ;; ys <- comprehension f xs' ;; ret (y :: ys)
  end.

(** [try: body / except Exception as e: handler(e)] *)
Definition try_except {A} (body : M A) (handler : exn -> M A) : M A :=
  fun st =>
    match body st with
    | (st', Ok a) => (st', Ok a)
    | (st', Raise e) => handler e st'
    end.

(** [d[k]] on a dict *)
Definition subscript {V} (d : gmap string V) (k : string) : M V :=
  match d !! k with
  | Some v => ret v
  | None => raise (KeyError k)
  end.

(** [l[i]] on a list *)
Definition index {A} (l : list A) (i : nat) : M A :=
  match l !! i with
  | Some x => ret x
  | None => raise IndexError
  end.

(** [s.split(sep)] for a one-character separator *)
Fixpoint split (sep : ascii) (s : string) : list string :=
  match s with
  | EmptyString => [EmptyString]
  | String c s' =>
      if Ascii.eqb c sep then EmptyString :: split sep s'
      else match split sep s' with
           | h :: t => String c h :: t
           | [] => [String c EmptyString]
           end
  end.

(** ** platforms/slack.py *)

Module slack.

(** the keyword call [SlackClientUser] on [data]: the keywords must be exactly [username]
    and [token].  [Slacker(token)] only stores the token. *)
Definition SlackClientUser_init (data : gmap string field) : M ClientUser :=
  match data !! "username", data !! "token", decide (size data = 2) with
  | Some username, Some token, left _ => ret (SlackClientUser username token)
  | _, _, _ => raise (TypeError "__init__() got unexpected or missing keyword arguments")
  end.

(** the keyword call [SlackUser] on [data] *)
Definition SlackUser_init (data : gmap string string) : M User :=
  match data !! "username", decide (size data = 1) with
  | Some username, left _ => ret (SlackUser username)
  | _, _ => raise (TypeError "__init__() got unexpected or missing keyword arguments")
  end.

Definition build_sender (data : gmap string field) : M ClientUser :=
  SlackClientUser_init data.

Definition build_recipient (data : rdata) : M User :=
  match data with
  | RDict d => SlackUser_init d
  | RBare s => SlackUser_init {[ "username" := s ]}
  end.

End slack.

(** ** platforms/email.py *)

Module email.
Section WithWorld.
Context (w : World).

(** the keyword call [smtplib.SMTP] on [kwargs] *)
Definition SMTP (kwargs : field) : M nat :=
  match kwargs with
  | FStr _ => raise (TypeError "argument after ** must be a mapping, not str")
  | FDict kw =>
      call (EvSmtpNew kw) (fun tr => outcome_of (smtp_new w tr kw)) ;;
      fresh
  end.

(** the keyword call [EmailUser] on [data] *)
Definition EmailUser_init (data : gmap string string) : M User :=
  match data !! "address", decide (size data = 1) with
  | Some address, left _ => ret (EmailUser address)
  | _, _ => raise (TypeError "__init__() got unexpected or missing keyword arguments")
  end.

(** [EmailClientUser(server, address, password)] *)
Definition EmailClientUser_init (server : nat) (address : string) (password : field)
  : M ClientUser :=
  call (EvSmtpStartTls server) (fun tr => outcome_of (smtp_starttls w tr server)) ;;
  call (EvSmtpLogin server address password)
       (fun tr => outcome_of (smtp_login w tr server address password)) ;;
  ret (EmailClientUser server address password).

(** [Email()] *)
Definition Email_init : M nat :=
  self <- fresh ;;
  write_servers self ∅ ;;
  ret self.

(** [Email.build_sender].  [data['address']] is read twice in the
    source; the second read returns the string of the first. *)
Definition build_sender (self : nat) (data : gmap string field) : M ClientUser :=
  a <- subscript data "address" ;;
  address <- match a with
             | FStr s => ret s
             | FDict _ => raise (AttributeError "split")
             end ;;
  domain <- index (split "@" address) 1 ;;
  _servers <- read_servers self ;;
  server <- match _servers !! domain with
            | Some server => ret server
            | None =>
                kwargs <- subscript data "smtp" ;;
                server <- SMTP kwargs ;;
                write_servers self (<[domain := server]> _servers) ;;
                ret server
            end ;;
  password <- subscript data "password" ;;
  EmailClientUser_init server address password.

Definition build_recipient (data : rdata) : M User :=
  match data with
  | RDict d => EmailUser_init d
  | RBare s => EmailUser_init {[ "address" := s ]}
  end.

End WithWorld.
End email.

(** ** platforms.py and the [Platform] interface *)

Inductive Platform : Type :=
| Slack
| Email (self : nat).

Module platforms.
Section WithWorld.
Context (w : World).

(** [platform_class[name]]: the constructor registered under [name]. *)
Definition platform_class (name : string) : option (M Platform) :=
  if String.eqb name "slack" then Some (ret Slack)
  else if String.eqb name "email" then Some (self <- email.Email_init ;; ret (Email self))
  else None.

(** [platform_name[type(platform)]] *)
Definition platform_name (p : Platform) : string :=
  match p with
  | Slack => "slack"
  | Email _ => "email"
  end.

Definition build_sender (p : Platform) (data : gmap string field) : M ClientUser :=
  match p with
  | Slack => slack.build_sender data
  | Email self => email.build_sender w self data
  end.

Definition build_recipient (p : Platform) (data : rdata) : M User :=
  match p with
  | Slack => slack.build_recipient data
  | Email _ => email.build_recipient data
  end.

(** [ClientUser.send_message], by sender class.  Reading
    [recipient.username] or [recipient.address] on a user of the other
    platform raises before anything is sent. *)
Definition send_message (s : ClientUser) (r : User) (body : string) : M unit :=
  match s, r with
  | SlackClientUser _ token, SlackUser username =>
      call (EvSlackPost token username body)
           (fun tr => outcome_of (slack_post_message w tr token username body))
  | SlackClientUser _ _, EmailUser _ => raise (AttributeError "username")
  | EmailClientUser server address _, EmailUser to =>
      call (EvSendmail server address to body)
           (fun tr => outcome_of (smtp_sendmail w tr server address to body))
  | EmailClientUser _ _ _, SlackUser _ => raise (AttributeError "address")
  end.

End WithWorld.
End platforms.

(** ** contact_db.py *)

Module contact_db.
Section WithWorld.
Context (w : World).

Record ContactDB : Type := mkContactDB { cursor : Cursor }.

(** [ContactDB.get_usernames]: one query, the first column of each row. *)
Definition get_usernames (self : ContactDB) (platform : string) : M (list string) :=
  call (EvSelectUsernames platform)
       (fun _ => select_usernames (cursor self) platform).

(** [ContactDB.get_contact]: one query; what the cursor raises for an
    unknown username is raised to the caller. *)
Definition get_contact (self : ContactDB) (platform username : string) : M Z :=
  call (EvSelectContact platform username)
       (fun _ => select_c_id (cursor self) platform username).

(** [ContactDB.get_unrecognized]: the condition of the comprehension
    calls [get_usernames] once for every username tested. *)
Fixpoint get_unrecognized (self : ContactDB) (platform : string)
         (usernames : list string) : M (list string) :=
  match usernames with
  | [] => ret []
  | username :: usernames' =>
      known <- get_usernames self platform ;;
      rest <- get_unrecognized self platform usernames' ;;
      ret (if bool_decide (username ∈ known) then rest else username :: rest)
  end.

(** [build_contact_db] *)
Definition build_contact_db (user : string) : M ContactDB :=
  c <- call (EvDbConnect user) (fun tr => db_connect w tr user) ;;
  ret (mkContactDB c).

End WithWorld.
End contact_db.

(** ** basic.py *)

Module basic.
Section WithWorld.
Context (w : World).

Record Resources : Type := mkResources {
  res_platform : Platform;
  res_sender : ClientUser;
  res_recipients : list User;
  res_content : string
}.

Definition build_resources (platform_name : string)
           (sender_data : gmap string field)
           (recipients_data : list rdata)
           (content : string) : M Resources :=
  platform <- match platforms.platform_class platform_name with
              | Some constructor => constructor
              | None => raise (KeyError platform_name)
              end ;;
  sender <- platforms.build_sender w platform sender_data ;;
  recipients <- comprehension (platforms.build_recipient platform) recipients_data ;;
  ret (mkResources platform sender recipients content).

(** [Message.send] *)
Definition Message_send (m : Message) : M unit :=
  emit (EvSend m) ;;
  platforms.send_message w (sender m) (recipient m) (content m).

Definition build_messages (sender : ClientUser) (recipients : list User)
           (content : string) : list Message :=
  map (fun recipient => mkMessage sender recipient content) recipients.

Definition send_message (message : Message) : M unit :=
  let recipient_id := get_id (recipient message) in
  try_except
    (Message_send message ;;
     emit (EvLog (LogSent recipient_id (content message))))
    (fun e => emit (EvLog (LogSendFailed recipient_id e))).

Definition _send_to_all (sender : ClientUser) (recipients : list User)
           (content : string) : M unit :=
  let messages := build_messages sender recipients content in
  for_each send_message messages.

Definition send_to_all (platform_name : string)
           (sender_data : gmap string field)
           (recipients_data : list rdata)
           (content : string) : M unit :=
  resources <- build_resources platform_name sender_data recipients_data content ;;
  _send_to_all (res_sender resources) (res_recipients resources)
               (res_content resources).

End WithWorld.
End basic.

(** ** templated.py *)

(** The argument unpacking [*template_input]: iteration over the value.
    A string yields its characters, a dict its keys; [None] and numbers
    are not iterable. *)
Definition unpack (v : pyval) : result (list atom) :=
  match v with
  | PNone => Raise (TypeError "argument after * must be an iterable, not NoneType")
  | PInt _ => Raise (TypeError "argument after * must be an iterable, not int")
  | PStr s => Ok (map (fun c => AStr (String c EmptyString)) (list_ascii_of_string s))
  | PTuple items => Ok items
  | PList items => Ok items
  | PDict items => Ok (map fst items)
  end.

Module templated.
Section WithWorld.
Context (w : World) {Data : Type}.

Record Resources : Type := mkResources {
  res_basic : basic.Resources;
  res_templating_data : Data;
  res_contact_db : contact_db.ContactDB
}.

Definition build_resources (platform_name : string)
           (sender_data : gmap string field)
           (recipients_data : list rdata)
           (content : string)
           (templating_data : Data)
           (db_username : string) : M Resources :=
  contact_db <- contact_db.build_contact_db w db_username ;;
  recipients_data <-
    match recipients_data with
    | [] =>
        emit (EvLog LogNoRecipients) ;;
        usernames <- contact_db.get_usernames contact_db platform_name ;;
        ret (map RBare usernames)
    | _ => ret recipients_data
    end ;;
  base <- basic.build_resources w platform_name sender_data recipients_data content ;;
  ret (mkResources base templating_data contact_db).

(** The [try] around [contact_db.get_contact]: [None] stands for the
    [continue] of the [except KeyError] branch. *)
Definition lookup_or_skip (contact_db : contact_db.ContactDB)
           (platform_name recipient_id : string) : M (option Z) :=
  try_except
    (user <- contact_db.get_contact contact_db platform_name recipient_id ;;
     ret (Some user))
    (fun e =>
       match e with
       | KeyError _ =>
           emit (EvLog (LogSkipped recipient_id)) ;;
           ret None
       | _ => raise e
       end).

(** The [try] around [message.content.format( *template_input)]. *)
Definition fill (template : string) (template_input : pyval) : M string :=
  try_except
    (args <- lift (unpack template_input) ;;
     lift (str_format w template args))
    (fun e =>
       match e with
       | TypeError _ =>
           raise (TypeError "Output of template_input_builder must be a tuple.")
       | _ => raise e
       end).

(** One iteration of the loop of [build_messages]: the message to
    append, or [None] where the source runs [continue]. *)
Definition build_message (platform_name : string)
           (templating_data : Data)
           (contact_db : contact_db.ContactDB)
           (template_input_builder : Z -> Data -> pyval)
           (message : Message) : M (option Message) :=
  let recipient_id := get_id (recipient message) in
  found <- lookup_or_skip contact_db platform_name recipient_id ;;
  match found with
  | None => ret None
  | Some user =>
      match template_input_builder user templating_data with
      | PNone => ret None
      | template_input =>
          content <- fill (content message) template_input ;;
          ret (Some (mkMessage (sender message) (recipient message) content))
      end
  end.

(** The loop of [build_messages], with the list [messages] built so
    far. *)
Fixpoint build_messages_loop (platform_name : string)
         (templating_data : Data)
         (contact_db : contact_db.ContactDB)
         (template_input_builder : Z -> Data -> pyval)
         (unfilled_messages : list Message)
         (messages : list Message) : M (list Message) :=
  match unfilled_messages with
  | [] => ret messages
  | message :: rest =>
      built <- build_message platform_name templating_data contact_db
                             template_input_builder message ;;
      build_messages_loop platform_name templating_data contact_db
                          template_input_builder rest
                          (match built with
                           | Some m => messages ++ [m]
                           | None => messages
                           end)
  end.

Definition build_messages (platform : Platform)
           (sender : ClientUser)
           (recipients : list User)
           (content : string)
           (templating_data : Data)
           (contact_db : contact_db.ContactDB)
           (template_input_builder : Z -> Data -> pyval) : M (list Message) :=
  let platform_name := platforms.platform_name platform in
  let unfilled_messages := basic.build_messages sender recipients content in
  build_messages_loop platform_name templating_data contact_db
                      template_input_builder unfilled_messages [].

Definition _send_to_all (platform : Platform)
           (sender : ClientUser)
           (recipients : list User)
           (content : string)
           (templating_data : Data)
           (contact_db : contact_db.ContactDB)
           (template_input_builder : Z -> Data -> pyval) : M unit :=
  messages <- build_messages platform sender recipients content templating_data
                             contact_db template_input_builder ;;
  for_each (basic.send_message w) messages.

Definition send_to_all (platform_name : string)
           (sender_data : gmap string field)
           (recipients_data : list rdata)
           (content : string)
           (templating_data : Data)
           (db_username : string)
           (template_input_builder : Z -> Data -> pyval) : M unit :=
  resources <- build_resources platform_name sender_data recipients_data content
                               templating_data db_username ;;
  let base := res_basic resources in
  _send_to_all (basic.res_platform base) (basic.res_sender base)
               (basic.res_recipients base) (basic.res_content base)
               (res_templating_data resources) (res_contact_db resources)
               template_input_builder.

End WithWorld.
End templated.

(** ** The command line interfaces of basic.py and templated.py *)

(** What the interfaces read outside their arguments, in order. *)
Inductive access : Type :=
| AccDebug (what : string)       (* logging.debug *)
| AccStdin                       (* sys.stdin.read() *)
| AccGetenv (name : string)      (* os.getenv *)
| AccOpen (path : string)        (* open(path, 'r') and read() *).

(** The process environment and the builtins the interfaces call:
    [str.upper], [os.getenv], reading a file, the text on standard input,
    and [json.loads], which answers [None] where it raises
    [JSONDecodeError]. *)
Record Shell (J : Type) : Type := mkShell {
  sh_upper : string -> string;
  sh_getenv : string -> option string;
  sh_read : string -> result string;
  sh_stdin : string;
  sh_json_loads : string -> option J
}.
Arguments sh_upper {J} _ _.
Arguments sh_getenv {J} _ _.
Arguments sh_read {J} _ _.
Arguments sh_stdin {J} _.
Arguments sh_json_loads {J} _ _.

Module cli.
Section WithShell.
Context {J : Type} (sh : Shell J).

(** The dictionary [basic.CLI.fill_in_args] returns. *)
Record Filled : Type := mkFilled {
  platform_name : string;
  sender_json : string;
  recipients_text : list string;
  content : string
}.

(** The dictionary [templated.CLI.fill_in_args] returns. *)
Record TemplatedFilled : Type := mkTemplatedFilled {
  filled : Filled;
  templating_data_json : string;
  db_username : string
}.



(** The name of the environment variable of the sender file. *)
Definition sender_env_name (platform_name : string) : string :=
  sh_upper sh ("comm_" +:+ platform_name +:+ "_sender").

(** [basic.CLI.fill_in_args] *)
Definition basic_fill_in_args (platform_name : string) (sender_json : option string)
           (recipients_text : list string) (content : string)
  : list access * result Filled :=
  match sender_json with
  | Some sender_json =>
      ([], Ok (mkFilled platform_name sender_json recipients_text content))
  | None =>
      let sender_env_name := sender_env_name platform_name in
      match sh_getenv sh sender_env_name with
      | Some sender_path =>
          ([AccDebug "sender"; AccGetenv sender_env_name; AccOpen sender_path],
           match sh_read sh sender_path with
           | Ok sender_json =>
               Ok (mkFilled platform_name sender_json recipients_text content)
           | Raise e => Raise e
           end)
      | None =>
          ([AccDebug "sender"; AccGetenv sender_env_name],
           Raise (ValueError "No sender specified. Please specify one via command line or environment variables."))
      end
  end.

(** [templated.CLI.fill_in_args] *)
Definition templated_fill_in_args (platform_name : string) (sender_json : option string)
           (recipients_text : list string) (content : string)
           (templating_data_json : option string) (db_username : option string)
  : list access * result TemplatedFilled :=
  let '(read_data, templating_data_json) :=
    match templating_data_json with
    | Some text => ([], text)
    | None => ([AccDebug "data"; AccStdin], sh_stdin sh)
    end in
  let '(read_user, db_username) :=
    match db_username with
    | Some user => ([], Some user)
    | None =>
        ([AccDebug "db_username"; AccGetenv (sh_upper sh "mmmm_db_user")],
         sh_getenv sh (sh_upper sh "mmmm_db_user"))
    end in
  match db_username with
  | None =>
      (read_data ++ read_user,
       Raise (ValueError "No username specified for the contactdatabase. Please specify via the command line or the MMMM_DB_USER environment variable."))
  | Some db_username =>
      let '(read_sender, base) :=
        basic_fill_in_args platform_name sender_json recipients_text content in
      (read_data ++ read_user ++ read_sender,
       match base with
       | Ok base => Ok (mkTemplatedFilled base templating_data_json db_username)
       | Raise e => Raise e
       end)
  end.





End WithShell.
End cli.

(** [str.upper] on the letters of ASCII. *)
Definition ascii_upper (c : ascii) : ascii :=
  let n := nat_of_ascii c in
  if (97 <=? n)%nat && (n <=? 122)%nat then ascii_of_nat (n - 32) else c.

Fixpoint upper (s : string) : string :=
  match s with
  | EmptyString => EmptyString
  | String c s' => String (ascii_upper c) (upper s')
  end.

(** A shell with the given environment and files, nothing on standard
    input but an empty object, and a decoder that knows two texts. *)
Definition demo_shell (env : gmap string string) (files : gmap string string)
  : Shell string :=
  {| sh_upper := upper;
     sh_getenv name := env !! name;
     sh_read path :=
       match files !! path with
       | Some text => Ok text
       | None => Raise (OtherError "FileNotFoundError")
       end;
     sh_stdin := "{}";
     sh_json_loads text :=
       if String.eqb text "{}" then Some "object"
       else if String.eqb text "[1]" then Some "array"
       else None |}.

(** ** A concrete world, for evaluation *)

(** [str.format] on positional arguments, for templates made of text,
    the escapes [{{] and [}}], and replacement fields that are empty or a
    decimal index.  A field that holds a keyword raises [KeyError], since
    no keyword argument is passed; attribute and index lookups,
    conversions and format specifications are outside this fragment and
    answered with [OtherError]. *)
Module format.

Inductive numbering : Type := Unset | Auto (next : nat) | Manual.

Inductive scanning : Type :=
| InText
| AfterOpen
| InField (name : string)
| AfterClose.

Definition is_digit (c : ascii) : bool :=
  (48 <=? nat_of_ascii c)%nat && (nat_of_ascii c <=? 57)%nat.

Fixpoint all_digits (s : string) : bool :=
  match s with
  | EmptyString => true
  | String c s' => is_digit c && all_digits s'
  end.

Fixpoint digits_value (s : string) (acc : nat) : nat :=
  match s with
  | EmptyString => acc
  | String c s' => digits_value s' (10 * acc + (nat_of_ascii c - 48))
  end.

Fixpoint has_char (c : ascii) (s : string) : bool :=
  match s with
  | EmptyString => false
  | String c' s' => Ascii.eqb c c' || has_char c s'
  end.

(** [str(a)] *)
Definition render (a : atom) : string :=
  match a with
  | ANone => "None"
  | AInt n => NilZero.string_of_int (Z.to_int n)
  | AStr s => s
  end.

Definition argument (args : list atom) (i : nat) : result string :=
  match args !! i with
  | Some a => Ok (render a)
  | None => Raise IndexError
  end.

Definition substitute (name : string) (mode : numbering) (args : list atom)
  : result (string * numbering) :=
  if String.eqb name "" then
    match mode with
    | Manual => Raise (ValueError "cannot switch from manual field specification to automatic field numbering")
    | Unset =>
        match argument args 0 with Ok s => Ok (s, Auto 1) | Raise e => Raise e end
    | Auto n =>
        match argument args n with Ok s => Ok (s, Auto (S n)) | Raise e => Raise e end
    end
  else if all_digits name then
    match mode with
    | Auto _ => Raise (ValueError "cannot switch from automatic field numbering to manual field specification")
    | _ =>
        match argument args (digits_value name 0) with
        | Ok s => Ok (s, Manual)
        | Raise e => Raise e
        end
    end
  else if has_char "." name || has_char "[" name || has_char "!" name || has_char ":" name
  then Raise (OtherError "replacement field outside the positional fragment")
  else Raise (KeyError name).

Fixpoint scan (s : string) (q : scanning) (mode : numbering) (args : list atom)
         (out : string) : result string :=
  match s with
  | EmptyString =>
      match q with
      | InText => Ok out
      | AfterOpen => Raise (ValueError "Single '{' encountered in format string")
      | InField _ => Raise (ValueError "expected '}' before end of string")
      | AfterClose => Raise (ValueError "Single '}' encountered in format string")
      end
  | String c s' =>
      match q with
      | InText =>
          if Ascii.eqb c "{" then scan s' AfterOpen mode args out
          else if Ascii.eqb c "}" then scan s' AfterClose mode args out
          else scan s' InText mode args (out +:+ String c EmptyString)
      | AfterOpen =>
          if Ascii.eqb c "{" then scan s' InText mode args (out +:+ "{")
          else if Ascii.eqb c "}" then
            match substitute "" mode args with
            | Ok (v, mode') => scan s' InText mode' args (out +:+ v)
            | Raise e => Raise e
            end
          else scan s' (InField (String c EmptyString)) mode args out
      | InField name =>
          if Ascii.eqb c "}" then
            match substitute name mode args with
            | Ok (v, mode') => scan s' InText mode' args (out +:+ v)
            | Raise e => Raise e
            end
          else if Ascii.eqb c "{" then Raise (ValueError "unexpected '{' in field name")
          else scan s' (InField (name +:+ String c EmptyString)) mode args out
      | AfterClose =>
          if Ascii.eqb c "}" then scan s' InText mode args (out +:+ "}")
          else Raise (ValueError "Single '}' encountered in format string")
      end
  end.

Definition format_positional (template : string) (args : list atom) : result string :=
  scan template InText Unset args "".

End format.

(** A directory held in tables of rows [(c_id, username)].  A missing
    table is an error of the database; an unknown username is reported
    with the [KeyError] that [templated.build_messages] handles. *)
Definition table_cursor (tables : gmap string (list (Z * string))) : Cursor :=
  {| select_usernames platform :=
       match tables !! platform with
       | Some rows => Ok (map snd rows)
       | None => Raise (OtherError "ProgrammingError: table does not exist")
       end;
     select_c_id platform username :=
       match tables !! platform with
       | Some rows =>
           match find (fun row => String.eqb (snd row) username) rows with
           | Some row => Ok (fst row)
           | None => Raise (KeyError username)
           end
       | None => Raise (OtherError "ProgrammingError: table does not exist")
       end |}.

(** A world in which the directory is [tables], every session can be
    opened, and a transport fails exactly for the addresses in
    [unreachable]. *)
Definition table_world (tables : gmap string (list (Z * string)))
           (unreachable : list string) : World :=
  {| db_connect _ _ := Ok (table_cursor tables);
     smtp_new _ _ := None;
     smtp_starttls _ _ := None;
     smtp_login _ _ _ _ := None;
     smtp_sendmail _ _ _ to _ :=
       if bool_decide (to ∈ unreachable)
       then Some (OtherError "SMTPRecipientsRefused") else None;
     slack_post_message _ _ channel _ :=
       if bool_decide (channel ∈ unreachable)
       then Some (OtherError "slacker.Error") else None;
     str_format := format.format_positional |}.





Definition initial : State := mkState [] ∅ 0.

(** The messages of the send attempts of a trace, in order. *)
Definition attempts (tr : list event) : list Message :=
  omap (fun ev => match ev with EvSend m => Some m | _ => None end) tr.

(** The events of a send: the call of [Message.send] and the transport
    calls under it. *)
Definition is_send (ev : event) : bool :=
  match ev with
  | EvSend _ | EvSlackPost _ _ _ | EvSendmail _ _ _ _ => true
  | _ => false
  end.

Definition sends (tr : list event) : list event := List.filter is_send tr.

Definition is_select_usernames (ev : event) : bool :=
  match ev with EvSelectUsernames _ => true | _ => false end.

Definition is_smtp_new (ev : event) : bool :=
  match ev with EvSmtpNew _ => true | _ => false end.

Definition demo_tables : gmap string (list (Z * string)) :=
  {[ "email" := [(1%Z, "a@x.com"); (2%Z, "b@x.com")] ]}.

Definition demo_sender : gmap string field :=
  {[ "address" := FStr "me@x.com";
     "password" := FStr "secret";
     "smtp" := FDict {[ "host" := "smtp.x.com" ]} ]}.

Definition names_of (c_id : Z) (_ : unit) : pyval :=
  if (c_id =? 1)%Z then PTuple [AStr "Alice"]
  else if (c_id =? 2)%Z then PTuple [AStr "Bob"]
  else PNone.

(** A world whose directory refuses every connection. *)
Definition closed_world : World :=
  {| db_connect _ _ := Raise (OtherError "Access denied");
     smtp_new _ _ := None;
     smtp_starttls _ _ := None;
     smtp_login _ _ _ _ := None;
     smtp_sendmail _ _ _ _ _ := None;
     slack_post_message _ _ _ _ := None;
     str_format := format.format_positional |}.

(** A world in which every login is refused. *)
Definition refusing_world : World :=
  {| db_connect _ _ := Ok (table_cursor demo_tables);
     smtp_new _ _ := None;
     smtp_starttls _ _ := None;
     smtp_login _ _ _ _ := Some (OtherError "SMTPAuthenticationError");
     smtp_sendmail _ _ _ _ _ := None;
     slack_post_message _ _ _ _ := None;
     str_format := format.format_positional |}.

(** A world in which no SMTP server can be reached. *)
Definition unreachable_world : World :=
  {| db_connect _ _ := Ok (table_cursor demo_tables);
     smtp_new _ _ := Some (OtherError "ConnectionRefusedError");
     smtp_starttls _ _ := None;
     smtp_login _ _ _ _ := None;
     smtp_sendmail _ _ _ _ _ := None;
     slack_post_message _ _ _ _ := None;
     str_format := format.format_positional |}.

(** A cursor that fails on every query. *)
Definition broken_cursor : Cursor :=
  {| select_usernames _ := Raise (OtherError "OperationalError");
     select_c_id _ _ := Raise (OtherError "OperationalError") |}.

(** ** The vocabulary of the properties *)

(** [emits_only P m]: whatever the state and the outcome, [m] extends the
    trace, and only by events that satisfy [P]. *)
Definition emits_only {A} (P : event -> bool) (m : M A) : Prop :=
  forall st, exists evs, trace (m st).1 = trace st ++ evs /\ forallb P evs = true.

Definition not_send (ev : event) : bool := negb (is_send ev).
Definition not_select_usernames (ev : event) : bool := negb (is_select_usernames ev).
Definition not_smtp_new (ev : event) : bool := negb (is_smtp_new ev).

(** The two ways a recipient is left out of a templated batch: the
    directory has no contact for its identifier ([get_contact] raises
    [KeyError]), or the builder returns [None] for its contact. *)
Definition not_found (db : contact_db.ContactDB) (platform_name : string) (r : User) : bool :=
  match select_c_id (contact_db.cursor db) platform_name (get_id r) with
  | Raise (KeyError _) => true
  | _ => false
  end.

Definition absent {Data} (db : contact_db.ContactDB) (platform_name : string)
           (templating_data : Data) (template_input_builder : Z -> Data -> pyval)
           (r : User) : bool :=
  match select_c_id (contact_db.cursor db) platform_name (get_id r) with
  | Ok user =>
      match template_input_builder user templating_data with
      | PNone => true
      | _ => false
      end
  | Raise _ => false
  end.

Section Outcomes.
Context (w : World) {Data : Type}.
Context (platform_name : string) (templating_data : Data)
        (db : contact_db.ContactDB) (template_input_builder : Z -> Data -> pyval).

(** The outcome of [fill], which does not touch the state. *)
Definition filled (template : string) (template_input : pyval) : result string :=
  let rewrap r :=
    match r with
    | Raise (TypeError _) =>
        Raise (TypeError "Output of template_input_builder must be a tuple.")
    | _ => r
    end in
  match unpack template_input with
  | Ok args => rewrap (str_format w template args)
  | Raise e => rewrap (Raise e)
  end.

(** The outcome of one iteration of the loop. *)
Definition verdict (message : Message) : result (option Message) :=
  match select_c_id (contact_db.cursor db) platform_name (get_id (recipient message)) with
  | Raise (KeyError _) => Ok None
  | Raise e => Raise e
  | Ok user =>
      match template_input_builder user templating_data with
      | PNone => Ok None
      | template_input =>
          match filled (content message) template_input with
          | Ok body => Ok (Some (mkMessage (sender message) (recipient message) body))
          | Raise e => Raise e
          end
      end
  end.

(** The outcome of the loop on the messages still to fill. *)
Fixpoint verdicts (unfilled : list Message) : result (list Message) :=
  match unfilled with
  | [] => Ok []
  | message :: rest =>
      match verdict message with
      | Raise e => Raise e
      | Ok built =>
          match verdicts rest with
          | Raise e => Raise e
          | Ok messages =>
              Ok (match built with Some m => m :: messages | None => messages end)
          end
      end
  end.

End Outcomes.

(** The key under which [Email.build_sender] caches the session: the
    text between the first and the second at-sign of the sender address. *)
Definition domain_of (data : gmap string field) : option string :=
  match data !! "address" with
  | Some (FStr address) => split "@" address !! 1
  | _ => None
  end.

Definition server_of (s : ClientUser) : option nat :=
  match s with
  | EmailClientUser server _ _ => Some server
  | SlackClientUser _ _ => None
  end.

Definition cached (st : State) (self : nat) (domain : string) : option nat :=
  default ∅ (heap st !! self) !! domain.

(** The recipient an adapter builds from a bare identifier. *)
Definition user_of (p : Platform) (username : string) : User :=
  match p with
  | Slack => SlackUser username
  | Email _ => EmailUser username
  end.

(** What is left of a templated broadcast once the recipients are
    known. *)
Definition after_directory (w : World) {Data : Type} (platform_name : string)
           (sender_data : gmap string field)
           (recipients_data : list rdata) (content0 : string)
           (templating_data : Data) (db : contact_db.ContactDB)
           (template_input_builder : Z -> Data -> pyval) : M unit :=
  base <- basic.build_resources w platform_name sender_data recipients_data content0 ;;
  templated._send_to_all w (basic.res_platform base) (basic.res_sender base)
    (basic.res_recipients base) (basic.res_content base) templating_data db
    template_input_builder.

(** The key under which a recipient record of the platform carries the
    identifier. *)
Definition id_key (p : Platform) : string :=
  match p with
  | Slack => "username"
  | Email _ => "address"
  end.

(** A sender and a recipient of one platform. *)
Definition same_platform (s : ClientUser) (r : User) : bool :=
  match s, r with
  | SlackClientUser _ _, SlackUser _ => true
  | EmailClientUser _ _ _, EmailUser _ => true
  | _, _ => false
  end.

(** The sender class of a platform. *)
Definition sender_of_platform (p : Platform) (s : ClientUser) : bool :=
  match p, s with
  | Slack, SlackClientUser _ _ => true
  | Email _, EmailClientUser _ _ _ => true
  | _, _ => false
  end.

(** The log lines of a trace, in order. *)
Definition logs (tr : list event) : list logline :=
  omap (fun ev => match ev with EvLog l => Some l | _ => None end) tr.

(** The transport calls of a trace, in order. *)
Definition is_transport (ev : event) : bool :=
  match ev with
  | EvSlackPost _ _ _ | EvSendmail _ _ _ _ => true
  | _ => false
  end.

(** The usernames of the contact lookups of a trace, in order. *)
Definition contact_lookups (tr : list event) : list string :=
  omap (fun ev => match ev with EvSelectContact _ u => Some u | _ => None end) tr.

(** The identifier a recipient datum gives for the platform. *)
Definition given_id (p : Platform) (data : rdata) : option string :=
  match data with
  | RBare s => Some s
  | RDict d => d !! id_key p
  end.

(** Whether a character occurs in a string. *)
Fixpoint occurs (c : ascii) (s : string) : bool :=
  match s with
  | EmptyString => false
  | String c' s' => Ascii.eqb c' c || occurs c s'
  end.

(** The transport call a message leads to: none when the recipient is
    of another platform than the sender. *)
Definition transport_call (m : Message) : option event :=
  match sender m, recipient m with
  | SlackClientUser _ token, SlackUser username =>
      Some (EvSlackPost token username (content m))
  | EmailClientUser server address _, EmailUser to =>
      Some (EvSendmail server address to (content m))
  | _, _ => None
  end.

(** What [sender.send_message] raises for a message, after the events
    [tr]: the answer of the transport, or the [AttributeError] of the
    attribute the recipient of another platform lacks. *)
Definition send_answer (w : World) (tr : list event) (m : Message) : option exn :=
  match sender m, recipient m with
  | SlackClientUser _ token, SlackUser username =>
      slack_post_message w tr token username (content m)
  | EmailClientUser server address _, EmailUser to =>
      smtp_sendmail w tr server address to (content m)
  | SlackClientUser _ _, EmailUser _ => Some (AttributeError "username")
  | EmailClientUser _ _ _, SlackUser _ => Some (AttributeError "address")
  end.

(** The line [send_message] logs for a message and an answer. *)
Definition log_line (m : Message) (answer : option exn) : logline :=
  match answer with
  | None => LogSent (get_id (recipient m)) (content m)
  | Some e => LogSendFailed (get_id (recipient m)) e
  end.

(** The events of [send_message] on a message, after the events [tr]. *)
Definition send_events (w : World) (tr : list event) (m : Message) : list event :=
  let called := EvSend m :: match transport_call m with Some t => [t] | None => [] end in
  called ++ [EvLog (log_line m (send_answer w (tr ++ called) m))].

(** The events of the dispatch loop on a list of messages, after the
    events [tr]. *)
Fixpoint dispatch_events (w : World) (tr : list event) (ms : list Message) : list event :=
  match ms with
  | [] => []
  | m :: ms' =>
      send_events w tr m ++ dispatch_events w (tr ++ send_events w tr m) ms'
  end.

(** The recipient a log line of [send_message] names. *)
Definition logged_id (l : logline) : option string :=
  match l with
  | LogSent recipient_id _ | LogSendFailed recipient_id _ => Some recipient_id
  | _ => None
  end.

Definition is_log (ev : event) : bool :=
  match ev with EvLog _ => true | _ => false end.

(** The events of one iteration of the loop of templated
    [build_messages] for a recipient: the lookup of its contact, and the
    log line of the skip when the directory does not know it. *)
Definition resolve_events (db : contact_db.ContactDB) (platform_name : string)
           (r : User) : list event :=
  EvSelectContact platform_name (get_id r)
  :: (if not_found db platform_name r then [EvLog (LogSkipped (get_id r))] else []).

(** The recipient a skip line names. *)
Definition skipped_id (l : logline) : option string :=
  match l with
  | LogSkipped recipient_id => Some recipient_id
  | _ => None
  end.

(** [sessions_at_most n m]: whatever the state and the outcome, [m]
    extends the trace, with at most [n] constructions of an SMTP
    session. *)
Definition sessions_at_most {A} (n : nat) (m : M A) : Prop :=
  forall st, exists evs,
    trace (m st).1 = trace st ++ evs /\ length (List.filter is_smtp_new evs) <= n.

(** * Properties *)

(** ** What a computation adds to the trace *)


Lemma emits_only_nil {A} (P : event -> bool) (m : M A) :
  (forall st, trace (m st).1 = trace st) -> emits_only P m.
Proof. intros H st. exists []. by rewrite app_nil_r, H. Qed.

Lemma emits_only_ret {A} P (a : A) : emits_only P (ret a).
Proof. by apply emits_only_nil. Qed.

Lemma emits_only_raise {A} P (e : exn) : emits_only P (@raise A e).
Proof. by apply emits_only_nil. Qed.

Lemma emits_only_lift {A} P (r : result A) : emits_only P (lift r).
Proof. by apply emits_only_nil. Qed.

Lemma emits_only_fresh P : emits_only P fresh.
Proof. by apply emits_only_nil. Qed.

Lemma emits_only_read_servers P self : emits_only P (read_servers self).
Proof. by apply emits_only_nil. Qed.

Lemma emits_only_write_servers P self servers :
  emits_only P (write_servers self servers).
Proof. by apply emits_only_nil. Qed.

Lemma emits_only_emit P ev : P ev = true -> emits_only P (emit ev).
Proof. intros H st. exists [ev]. simpl. by rewrite H. Qed.

Lemma emits_only_call {A} P ev (outcome : list event -> result A) :
  P ev = true -> emits_only P (call ev outcome).
Proof. intros H st. exists [ev]. simpl. by rewrite H. Qed.

Lemma emits_only_bind {A B} P (m : M A) (k : A -> M B) :
  emits_only P m -> (forall a, emits_only P (k a)) -> emits_only P (bind m k).
Proof.
  intros Hm Hk st. unfold bind.
  destruct (Hm st) as (evs1 & E1 & F1).
  destruct (m st) as [st1 [a|e]]; simpl in *.
  - destruct (Hk a st1) as (evs2 & E2 & F2).
    exists (evs1 ++ evs2). by rewrite E2, E1, app_assoc, forallb_app, F1, F2.
  - by exists evs1.
Qed.

Lemma emits_only_try_except {A} P (body : M A) (handler : exn -> M A) :
  emits_only P body -> (forall e, emits_only P (handler e)) ->
  emits_only P (try_except body handler).
Proof.
  intros Hm Hk st. unfold try_except.
  destruct (Hm st) as (evs1 & E1 & F1).
  destruct (body st) as [st1 [a|e]]; simpl in *.
  - by exists evs1.
  - destruct (Hk e st1) as (evs2 & E2 & F2).
    exists (evs1 ++ evs2). by rewrite E2, E1, app_assoc, forallb_app, F1, F2.
Qed.

Lemma emits_only_for_each {A} P (body : A -> M unit) xs :
  (forall x, emits_only P (body x)) -> emits_only P (for_each body xs).
Proof.
  intros H. induction xs as [|x xs IH]; simpl.
  - apply emits_only_ret.
  - apply emits_only_bind; auto.
Qed.

Lemma emits_only_comprehension {A B} P (f : A -> M B) xs :
  (forall x, emits_only P (f x)) -> emits_only P (comprehension f xs).
Proof.
  intros H. induction xs as [|x xs IH]; simpl.
  - apply emits_only_ret.
  - apply emits_only_bind; [auto|]. intros y.
    apply emits_only_bind; [auto|]. intros ys. apply emits_only_ret.
Qed.

(** One step of a proof that a definition of the embedding emits only
    events of [P]: the shape of the computation decides the lemma. *)
Ltac emits_step :=
  match goal with
  | |- emits_only _ (ret _) => apply emits_only_ret
  | |- emits_only _ (raise _) => apply emits_only_raise
  | |- emits_only _ (lift _) => apply emits_only_lift
  | |- emits_only _ fresh => apply emits_only_fresh
  | |- emits_only _ (read_servers _) => apply emits_only_read_servers
  | |- emits_only _ (write_servers _ _) => apply emits_only_write_servers
  | |- emits_only _ (emit _) => apply emits_only_emit; reflexivity
  | |- emits_only _ (call _ _) => apply emits_only_call; reflexivity
  | |- emits_only _ (bind _ _) => apply emits_only_bind; [|intros ?]
  | |- emits_only _ (try_except _ _) => apply emits_only_try_except; [|intros ?]
  | |- emits_only _ (for_each _ _) => apply emits_only_for_each; intros ?
  | |- emits_only _ (comprehension _ _) => apply emits_only_comprehension; intros ?
  | |- emits_only _ (match ?x with _ => _ end) => destruct x
  end.

Ltac emits := repeat emits_step.

Lemma emits_only_subscript {V} P (d : gmap string V) k : emits_only P (subscript d k).
Proof. unfold subscript. emits. Qed.

Lemma emits_only_index {A} P (l : list A) i : emits_only P (index l i).
Proof. unfold index. emits. Qed.

(** A computation that emits only events outside [Q] leaves the
    [Q]-events of the trace as they were. *)
Lemma emits_only_filter {A} (Q : event -> bool) (m : M A) st :
  emits_only (fun ev => negb (Q ev)) m ->
  List.filter Q (trace (m st).1) = List.filter Q (trace st).
Proof.
  intros H. destruct (H st) as (evs & -> & F).
  rewrite List.filter_app.
  assert (List.filter Q evs = []) as ->; [|by rewrite app_nil_r].
  clear -F. induction evs as [|ev evs IH]; simpl in *; [done|].
  apply andb_true_iff in F as [F1 F2]. apply negb_true_iff in F1.
  rewrite F1. auto.
Qed.

(** ** The phases of a broadcast and what they emit *)


Section Phases.
Context (w : World) {Data : Type}.

Lemma build_sender_emits P (p : Platform) data :
  (forall kw, P (EvSmtpNew kw) = true) ->
  (forall s, P (EvSmtpStartTls s) = true) ->
  (forall s a pw, P (EvSmtpLogin s a pw) = true) ->
  emits_only P (platforms.build_sender w p data).
Proof.
  intros H1 H2 H3. destruct p; simpl.
  - unfold slack.build_sender, slack.SlackClientUser_init. emits.
  - unfold email.build_sender, email.SMTP, email.EmailClientUser_init.
    repeat first [apply emits_only_subscript | apply emits_only_index
                 | apply emits_only_call; auto | emits_step].
Qed.

Lemma build_recipient_emits P (p : Platform) data :
  emits_only P (platforms.build_recipient p data).
Proof.
  destruct p, data; simpl;
    unfold slack.SlackUser_init, email.EmailUser_init; emits.
Qed.

Lemma basic_build_resources_emits P platform_name sender_data recipients_data content :
  (forall kw, P (EvSmtpNew kw) = true) ->
  (forall s, P (EvSmtpStartTls s) = true) ->
  (forall s a pw, P (EvSmtpLogin s a pw) = true) ->
  emits_only P (basic.build_resources w platform_name sender_data recipients_data content).
Proof.
  intros H1 H2 H3. unfold basic.build_resources, platforms.platform_class,
    email.Email_init.
  destruct (String.eqb platform_name "slack"), (String.eqb platform_name "email");
    repeat first [apply build_sender_emits; auto | apply build_recipient_emits
                 | emits_step].
Qed.

Lemma send_message_emits P message :
  (forall m, P (EvSend m) = true) ->
  (forall t c b, P (EvSlackPost t c b) = true) ->
  (forall s a t b, P (EvSendmail s a t b) = true) ->
  (forall l, P (EvLog l) = true) ->
  emits_only P (basic.send_message w message).
Proof.
  intros H1 H2 H3 H4.
  unfold basic.send_message, basic.Message_send, platforms.send_message.
  repeat first [apply emits_only_call; auto | apply emits_only_emit; auto | emits_step].
Qed.

Lemma templated_build_messages_emits P platform sender recipients content
      (templating_data : Data) contact_db template_input_builder :
  (forall p u, P (EvSelectContact p u) = true) ->
  (forall l, P (EvLog l) = true) ->
  emits_only P (templated.build_messages w platform sender recipients content
                  templating_data contact_db template_input_builder).
Proof.
  intros H1 H2. unfold templated.build_messages.
  generalize (@nil Message) as messages.
  induction (basic.build_messages sender recipients content) as [|m ms IH];
    intros messages; simpl.
  - apply emits_only_ret.
  - apply emits_only_bind; [|intros ?; apply IH].
    unfold templated.build_message, templated.lookup_or_skip, templated.fill,
      contact_db.get_contact.
    repeat first [apply emits_only_call; auto | apply emits_only_emit; auto | emits_step].
Qed.

Lemma templated_build_resources_emits P platform_name sender_data recipients_data
      content (templating_data : Data) db_username :
  (forall u, P (EvDbConnect u) = true) ->
  (forall p, P (EvSelectUsernames p) = true) ->
  (forall l, P (EvLog l) = true) ->
  (forall kw, P (EvSmtpNew kw) = true) ->
  (forall s, P (EvSmtpStartTls s) = true) ->
  (forall s a pw, P (EvSmtpLogin s a pw) = true) ->
  emits_only P (templated.build_resources w platform_name sender_data recipients_data
                  content templating_data db_username).
Proof.
  intros H1 H2 H3 H4 H5 H6.
  unfold templated.build_resources, contact_db.build_contact_db,
    contact_db.get_usernames.
  repeat first [apply basic_build_resources_emits; auto
               | apply emits_only_call; auto | apply emits_only_emit; auto
               | emits_step].
Qed.

End Phases.

(** ** The dispatch loop *)

Lemma attempts_app tr1 tr2 : attempts (tr1 ++ tr2) = attempts tr1 ++ attempts tr2.
Proof. apply omap_app. Qed.

Section Dispatch.
Context (w : World).

(** [send_message] runs [Message.send], then logs its outcome, and
    returns normally in both cases. *)
Lemma send_message_outcome message st :
  basic.send_message w message st =
    let '(st1, r) := basic.Message_send w message st in
    let recipient_id := get_id (recipient message) in
    (mkState (trace st1 ++
                [EvLog (match r with
                        | Ok _ => LogSent recipient_id (content message)
                        | Raise e => LogSendFailed recipient_id e
                        end)])
             (heap st1) (next_id st1),
     Ok tt).
Proof.
  unfold basic.send_message, try_except, bind.
  destruct (basic.Message_send w message st) as [st1 [[]|e]]; reflexivity.
Qed.

Lemma Message_send_attempts message st :
  attempts (trace (basic.Message_send w message st).1) = attempts (trace st) ++ [message].
Proof.
  unfold basic.Message_send, bind, emit, platforms.send_message, call, raise.
  destruct (sender message), (recipient message); simpl;
    rewrite ?attempts_app; simpl; by rewrite ?app_nil_r.
Qed.

Lemma send_message_attempts message st :
  attempts (trace (basic.send_message w message st).1) = attempts (trace st) ++ [message].
Proof.
  rewrite send_message_outcome.
  pose proof (Message_send_attempts message st) as H.
  destruct (basic.Message_send w message st) as [st1 r]; simpl in *.
  by rewrite attempts_app, H, app_nil_r.
Qed.

Lemma send_message_returns message st : (basic.send_message w message st).2 = Ok tt.
Proof.
  rewrite send_message_outcome.
  by destruct (basic.Message_send w message st).
Qed.

Lemma dispatch_returns messages st :
  (for_each (basic.send_message w) messages st).2 = Ok tt.
Proof.
  revert st. induction messages as [|m ms IH]; intros st; simpl; [done|].
  unfold bind. pose proof (send_message_returns m st) as H.
  destruct (basic.send_message w m st) as [st1 r]; simpl in *; subst r. apply IH.
Qed.

Lemma dispatch_attempts messages st :
  attempts (trace (for_each (basic.send_message w) messages st).1)
  = attempts (trace st) ++ messages.
Proof.
  revert st. induction messages as [|m ms IH]; intros st; simpl.
  - by rewrite app_nil_r.
  - unfold bind. pose proof (send_message_returns m st) as H.
    pose proof (send_message_attempts m st) as H'.
    destruct (basic.send_message w m st) as [st1 r]; simpl in *; subst r.
    by rewrite IH, H', <- app_assoc.
Qed.

End Dispatch.

(** C5.  In the dispatch loop a failure of one message's send is caught
    and logged ([send_message] logs [LogSendFailed] with the exception
    and returns), every message of the batch is attempted whatever the
    earlier outcomes were, and the loop itself returns normally: nothing
    raised by a send reaches the caller, in [basic._send_to_all] as in
    any run of the loop. *)
Theorem dispatch_isolates_failures (w : World) :
  (forall message st,
     let '(st1, r) := basic.Message_send w message st in
     basic.send_message w message st
     = (mkState (trace st1 ++
                   [EvLog (match r with
                           | Ok _ => LogSent (get_id (recipient message)) (content message)
                           | Raise e => LogSendFailed (get_id (recipient message)) e
                           end)])
                (heap st1) (next_id st1),
        Ok tt)) /\
  (forall messages st,
     (for_each (basic.send_message w) messages st).2 = Ok tt /\
     attempts (trace (for_each (basic.send_message w) messages st).1)
     = attempts (trace st) ++ messages) /\
  (forall sender recipients content st,
     (basic._send_to_all w sender recipients content st).2 = Ok tt /\
     attempts (trace (basic._send_to_all w sender recipients content st).1)
     = attempts (trace st) ++ basic.build_messages sender recipients content).
Proof.
  split; [|split].
  - intros message st. pose proof (send_message_outcome w message st) as H.
    by destruct (basic.Message_send w message st).
  - intros. split; [apply dispatch_returns | apply dispatch_attempts].
  - intros. unfold basic._send_to_all.
    split; [apply dispatch_returns | apply dispatch_attempts].
Qed.

Lemma plain_messages_shape sender0 recipients content0 :
  length (basic.build_messages sender0 recipients content0) = length recipients /\
  map recipient (basic.build_messages sender0 recipients content0) = recipients.
Proof.
  unfold basic.build_messages. split; [apply length_map|].
  induction recipients as [|r rs IH]; simpl; [done|]. by rewrite IH.
Qed.

(** C6.  In plain mode [build_messages] produces one [Message] per
    recipient, in the order of the recipients, and every message carries
    the given sender and the given content. *)
Theorem plain_build_messages_one_per_recipient
        (sender0 : ClientUser) (recipients : list User) (content0 : string) :
  length (basic.build_messages sender0 recipients content0) = length recipients /\
  map recipient (basic.build_messages sender0 recipients content0) = recipients /\
  Forall (fun m => sender m = sender0 /\ content m = content0)
         (basic.build_messages sender0 recipients content0).
Proof.
  destruct (plain_messages_shape sender0 recipients content0)
    as (Hlen & Hmap).
  split; [done|]. split; [done|]. unfold basic.build_messages.
  apply Forall_forall. intros m Hm. apply list_elem_of_In, in_map_iff in Hm.
  destruct Hm as (r & <- & _). done.
Qed.

(** ** Failure ordering *)

(** C8.  In both modes [send_to_all] is a construction phase followed by
    the dispatch loop.  The construction phase (building the resources
    and, in templated mode, all the messages) emits no send event; the
    loop starts only on the finished list of messages; and an execution
    that raises (an unknown platform name, a sender that cannot be
    constructed, a directory that cannot be opened or queried, a template
    input of the wrong shape) has attempted no send. *)
Theorem fatal_errors_precede_sends (w : World) {Data : Type} :
  (forall platform_name sender_data recipients_data content,
     let construction :=
       basic.build_resources w platform_name sender_data recipients_data content in
     let run := basic.send_to_all w platform_name sender_data recipients_data content in
     emits_only not_send construction /\
     (forall st,
        run st = bind construction
                   (fun resources =>
                      for_each (basic.send_message w)
                        (basic.build_messages (basic.res_sender resources)
                           (basic.res_recipients resources)
                           (basic.res_content resources))) st) /\
     (forall st e, (run st).2 = Raise e -> sends (trace (run st).1) = sends (trace st))) /\
  (forall platform_name sender_data recipients_data content (templating_data : Data)
          db_username template_input_builder,
     let construction :=
       resources <- templated.build_resources w platform_name sender_data
                      recipients_data content templating_data db_username ;;
       templated.build_messages w
         (basic.res_platform (templated.res_basic resources))
         (basic.res_sender (templated.res_basic resources))
         (basic.res_recipients (templated.res_basic resources))
         (basic.res_content (templated.res_basic resources))
         (templated.res_templating_data resources)
         (templated.res_contact_db resources)
         template_input_builder in
     let run := templated.send_to_all w platform_name sender_data recipients_data
                  content templating_data db_username template_input_builder in
     emits_only not_send construction /\
     (forall st,
        run st = bind construction (for_each (basic.send_message w)) st) /\
     (forall st e, (run st).2 = Raise e -> sends (trace (run st).1) = sends (trace st))).
Proof.
  split.
  - intros.
    assert (emits_only not_send construction) as Hc
      by (apply basic_build_resources_emits; done).
    assert (forall st,
        run st = bind construction
                   (fun resources =>
                      for_each (basic.send_message w)
                        (basic.build_messages (basic.res_sender resources)
                           (basic.res_recipients resources)
                           (basic.res_content resources))) st) as Hrun by done.
    split; [done|]. split; [done|].
    intros st e. rewrite Hrun. unfold bind.
    pose proof (emits_only_filter is_send construction st Hc) as Hs.
    destruct (construction st) as [st1 [resources|e1]]; simpl in *.
    + by rewrite dispatch_returns.
    + done.
  - intros.
    assert (emits_only not_send construction) as Hc.
    { apply emits_only_bind.
      - apply templated_build_resources_emits; done.
      - intros resources. apply templated_build_messages_emits; done. }
    assert (forall st, run st = bind construction (for_each (basic.send_message w)) st)
      as Hrun.
    { intros st. unfold run, construction, templated.send_to_all,
        templated._send_to_all, bind.
      destruct (templated.build_resources _ _ _ _ _ _ _ st) as [st1 [resources|e1]];
        [|done].
      by destruct (templated.build_messages _ _ _ _ _ _ _ _ st1) as [st2 [ms|e2]]. }
    split; [done|]. split; [done|].
    intros st e. rewrite Hrun. unfold bind.
    pose proof (emits_only_filter is_send construction st Hc) as Hs.
    destruct (construction st) as [st1 [messages|e1]]; simpl in *.
    + by rewrite dispatch_returns.
    + done.
Qed.

(** ** The template resolver *)


Section Resolver.
Context (w : World) {Data : Type}.
Context (platform_name : string) (templating_data : Data)
        (db : contact_db.ContactDB) (template_input_builder : Z -> Data -> pyval).

Local Abbreviation build_message :=
  (templated.build_message w platform_name templating_data db template_input_builder).
Local Abbreviation build_messages_loop :=
  (templated.build_messages_loop w platform_name templating_data db
     template_input_builder).
Local Abbreviation outcome :=
  (verdict w platform_name templating_data db template_input_builder).
Local Abbreviation outcomes :=
  (verdicts w platform_name templating_data db template_input_builder).


Lemma fill_filled template template_input st :
  templated.fill w template template_input st = (st, filled w template template_input).
Proof.
  unfold templated.fill, filled, try_except, bind, lift, raise.
  destruct (unpack template_input) as [args|[]]; try done.
  destruct (str_format w template args) as [s|[]]; done.
Qed.


Lemma build_message_verdict message st :
  (build_message message st).2 = outcome message.
Proof.
  unfold templated.build_message, templated.lookup_or_skip,
    contact_db.get_contact, verdict, try_except, bind, call, ret, raise, emit.
  simpl.
  destruct (select_c_id _ _ _) as [user|[]]; simpl; try done.
  destruct (template_input_builder user templating_data); simpl; try done;
    rewrite fill_filled; by destruct (filled _ _).
Qed.


Lemma build_messages_loop_verdicts unfilled messages st :
  (build_messages_loop unfilled messages st).2
  = match outcomes unfilled with
    | Ok built => Ok (messages ++ built)
    | Raise e => Raise e
    end.
Proof.
  revert messages st. induction unfilled as [|m ms IH]; intros messages st; simpl.
  - by rewrite app_nil_r.
  - unfold bind. pose proof (build_message_verdict m st) as Hm.
    destruct (build_message m st) as [st1 r]; simpl in Hm; subst r.
    destruct (outcome m) as [built|e]; [|done].
    rewrite IH.
    destruct (outcomes ms) as [out|e]; [|done].
    destruct built; by rewrite <- ?app_assoc.
Qed.

Lemma build_messages_loop_app ms1 ms2 messages st :
  build_messages_loop (ms1 ++ ms2) messages st
  = match build_messages_loop ms1 messages st with
    | (st1, Ok messages1) => build_messages_loop ms2 messages1 st1
    | (st1, Raise e) => (st1, Raise e)
    end.
Proof.
  revert messages st. induction ms1 as [|m ms1 IH]; intros messages st; simpl; [done|].
  unfold bind.
  destruct (templated.build_message _ _ _ _ _ m st) as [st1 [built|e]]; [|done].
  apply IH.
Qed.

Lemma verdicts_app ms1 ms2 :
  outcomes (ms1 ++ ms2)
  = match outcomes ms1 with
    | Ok out1 =>
        match outcomes ms2 with
        | Ok out2 => Ok (out1 ++ out2)
        | Raise e => Raise e
        end
    | Raise e => Raise e
    end.
Proof.
  induction ms1 as [|m ms1 IH]; simpl.
  - by destruct (outcomes ms2).
  - destruct (outcome m) as [built|e]; [|done]. rewrite IH.
    destruct (outcomes ms1) as [out1|e]; [|done].
    destruct (outcomes ms2) as [out2|e]; [|done].
    by destruct built.
Qed.

Lemma verdict_not_found message :
  not_found db platform_name (recipient message) = true -> outcome message = Ok None.
Proof.
  unfold not_found, verdict.
  by destruct (select_c_id _ _ _) as [user|[]].
Qed.

(** A built message keeps the sender and the recipient of the message it
    fills, and comes from a recipient that is neither unknown nor
    without data; a skipped one is exactly one of the two. *)
Lemma verdict_cases message built :
  outcome message = Ok built ->
  match built with
  | Some m =>
      sender m = sender message /\ recipient m = recipient message /\
      not_found db platform_name (recipient message) = false /\
      absent db platform_name templating_data template_input_builder
             (recipient message) = false
  | None =>
      xorb (not_found db platform_name (recipient message))
           (absent db platform_name templating_data template_input_builder
                   (recipient message)) = true
  end.
Proof.
  unfold verdict, not_found, absent.
  destruct (select_c_id _ _ _) as [user|[]]; try done.
  - destruct (template_input_builder user templating_data);
      try destruct (filled _ _); intros H; by simplify_eq/=.
  - intros H; by simplify_eq.
Qed.

End Resolver.

Section ResolverBatch.
Context (w : World) {Data : Type}.
Context (platform_name : string) (templating_data : Data)
        (db : contact_db.ContactDB) (template_input_builder : Z -> Data -> pyval).

Local Abbreviation unknown := (not_found db platform_name).
Local Abbreviation no_data :=
  (absent db platform_name templating_data template_input_builder).
Local Abbreviation outcomes :=
  (verdicts w platform_name templating_data db template_input_builder).

Lemma verdicts_shortfall unfilled built :
  outcomes unfilled = Ok built ->
  length built
  + length (List.filter unknown (map recipient unfilled))
  + length (List.filter no_data (map recipient unfilled))
  = length unfilled.
Proof.
  revert built. induction unfilled as [|m ms IH]; intros built; simpl.
  - by intros [= <-].
  - destruct (verdict _ _ _ _ _ m) as [o|e] eqn:Hm; [|done].
    destruct (outcomes ms) as [out|e]; [|done].
    intros [= <-]. specialize (IH out eq_refl).
    apply verdict_cases in Hm. destruct o as [m'|].
    + destruct Hm as (_ & _ & -> & ->). simpl. lia.
    + destruct (unknown (recipient m)), (no_data (recipient m));
        simpl in *; try done; lia.
Qed.

Lemma verdicts_sublist unfilled built :
  outcomes unfilled = Ok built ->
  map recipient built `sublist_of` map recipient unfilled.
Proof.
  revert built. induction unfilled as [|m ms IH]; intros built; simpl.
  - by intros [= <-].
  - destruct (verdict _ _ _ _ _ m) as [o|e] eqn:Hm; [|done].
    destruct (outcomes ms) as [out|e]; [|done].
    intros [= <-]. specialize (IH out eq_refl).
    apply verdict_cases in Hm. destruct o as [m'|].
    + destruct Hm as (_ & Hr & _). simpl. rewrite Hr. by apply sublist_skip.
    + by apply sublist_cons.
Qed.

Lemma verdicts_sender sender0 unfilled built :
  outcomes unfilled = Ok built ->
  Forall (fun m => sender m = sender0) unfilled ->
  Forall (fun m => sender m = sender0) built.
Proof.
  revert built. induction unfilled as [|m ms IH]; intros built; simpl.
  - by intros [= <-].
  - destruct (verdict _ _ _ _ _ m) as [o|e] eqn:Hm; [|done].
    destruct (outcomes ms) as [out|e]; [|done].
    intros [= <-] [Hs Hrest]%Forall_cons. specialize (IH out eq_refl Hrest).
    apply verdict_cases in Hm. destruct o as [m'|]; [|done].
    destruct Hm as (Hm & _). apply Forall_cons. split; [congruence | done].
Qed.

(** The iteration for a recipient the directory does not know: one
    query, one log line, no message, no exception. *)
Lemma build_message_not_found message st :
  unknown (recipient message) = true ->
  templated.build_message w platform_name templating_data db template_input_builder
    message st
  = (mkState (trace st ++ [EvSelectContact platform_name (get_id (recipient message));
                           EvLog (LogSkipped (get_id (recipient message)))])
             (heap st) (next_id st),
     Ok None).
Proof.
  unfold not_found, templated.build_message, templated.lookup_or_skip,
    contact_db.get_contact, try_except, bind, call, ret, raise, emit.
  simpl. destruct (select_c_id _ _ _) as [user|[]]; try done.
  intros _. simpl. by rewrite <- app_assoc.
Qed.

(** The iteration for a recipient whose builder returns [None]: one
    query, nothing logged, no message, no exception. *)
Lemma build_message_absent message st :
  no_data (recipient message) = true ->
  templated.build_message w platform_name templating_data db template_input_builder
    message st
  = (mkState (trace st ++ [EvSelectContact platform_name (get_id (recipient message))])
             (heap st) (next_id st),
     Ok None).
Proof.
  unfold absent, templated.build_message, templated.lookup_or_skip,
    contact_db.get_contact, try_except, bind, call, ret, raise, emit.
  simpl. destruct (select_c_id _ _ _) as [user|]; [|done]. simpl.
  by destruct (template_input_builder user templating_data).
Qed.

Lemma build_messages_loop_extends unfilled messages st :
  exists evs,
    trace (templated.build_messages_loop w platform_name templating_data db
             template_input_builder unfilled messages st).1 = trace st ++ evs.
Proof.
  assert (emits_only (fun _ => true)
            (templated.build_messages_loop w platform_name templating_data db
               template_input_builder unfilled messages)) as H.
  { revert messages. induction unfilled as [|m ms IH]; intros messages; simpl.
    - apply emits_only_ret.
    - apply emits_only_bind; [|intros ?; apply IH].
      unfold templated.build_message, templated.lookup_or_skip, templated.fill,
        contact_db.get_contact.
      emits. }
  destruct (H st) as (evs & E & _). by exists evs.
Qed.

End ResolverBatch.

Lemma attempts_unchanged {A} (m : M A) st :
  emits_only not_send m -> attempts (trace (m st).1) = attempts (trace st).
Proof.
  intros H. destruct (H st) as (evs & -> & F).
  rewrite attempts_app.
  assert (attempts evs = []) as ->; [|by rewrite app_nil_r].
  clear -F. induction evs as [|ev evs IH]; simpl in *; [done|].
  apply andb_true_iff in F as [F1 F2]. unfold attempts in *. simpl.
  destruct ev; simpl in *; try done; auto.
Qed.

(** C3.  In templated mode a recipient for which [get_contact] raises
    [KeyError] is skipped: its iteration appends no message and raises
    nothing, it logs the skip, and the batch goes on, so that the result of
    [build_messages] is the one the batch without that recipient has. *)
Theorem unknown_recipient_is_skipped (w : World) {Data : Type}
        (platform : Platform) (sender0 : ClientUser) (content0 : string)
        (templating_data : Data) (db : contact_db.ContactDB)
        (template_input_builder : Z -> Data -> pyval) (r : User) :
  not_found db (platforms.platform_name platform) r = true ->
  (forall st,
     templated.build_message w (platforms.platform_name platform) templating_data db
       template_input_builder (mkMessage sender0 r content0) st
     = (mkState (trace st ++ [EvSelectContact (platforms.platform_name platform) (get_id r);
                              EvLog (LogSkipped (get_id r))])
                (heap st) (next_id st),
        Ok None)) /\
  (forall before after st,
     (templated.build_messages w platform sender0 (before ++ r :: after) content0
        templating_data db template_input_builder st).2
     = (templated.build_messages w platform sender0 (before ++ after) content0
          templating_data db template_input_builder st).2) /\
  (forall before after st,
     is_ok (templated.build_messages w platform sender0 (before ++ r :: after) content0
              templating_data db template_input_builder st).2 = true ->
     EvLog (LogSkipped (get_id r))
       ∈ trace (templated.build_messages w platform sender0 (before ++ r :: after)
                  content0 templating_data db template_input_builder st).1).
Proof.
  intros Hr. split; [|split].
  - intros st. by apply build_message_not_found.
  - intros before after st. unfold templated.build_messages, basic.build_messages.
    rewrite !build_messages_loop_verdicts, !map_app, !verdicts_app. simpl.
    rewrite (verdict_not_found _ _ _ _ _ (mkMessage sender0 r content0) Hr).
    destruct (verdicts _ _ _ _ _ (map _ before)) as [out1|e]; [|done].
    by destruct (verdicts _ _ _ _ _ (map _ after)).
  - intros before after st. unfold templated.build_messages, basic.build_messages.
    rewrite map_app, build_messages_loop_app. simpl.
    destruct (templated.build_messages_loop _ _ _ _ _ (map _ before) [] st)
      as [st1 [messages1|e]]; [|done].
    unfold bind.
    rewrite (build_message_not_found w _ _ _ _ (mkMessage sender0 r content0) st1 Hr).
    intros _.
    match goal with
    | |- _ ∈ trace (templated.build_messages_loop _ _ _ _ _ ?ms ?acc ?s).1 =>
        destruct (build_messages_loop_extends w (platforms.platform_name platform)
                    templating_data db template_input_builder ms acc s) as (evs & ->)
    end.
    simpl. set_solver.
Qed.

Lemma templated_dispatch_attempts (w : World) {Data : Type}
      (platform : Platform) (sender0 : ClientUser) (recipients : list User)
      (content0 : string) (templating_data : Data) (db : contact_db.ContactDB)
      (template_input_builder : Z -> Data -> pyval) (st : State)
      (messages : list Message) :
  (templated.build_messages w platform sender0 recipients content0 templating_data db
     template_input_builder st).2 = Ok messages ->
  attempts (trace (templated._send_to_all w platform sender0 recipients content0
                     templating_data db template_input_builder st).1)
  = attempts (trace st) ++ messages.
Proof.
  intros H. unfold templated._send_to_all, bind.
  pose proof (attempts_unchanged
                (templated.build_messages w platform sender0 recipients content0
                   templating_data db template_input_builder) st) as Hq.
  destruct (templated.build_messages _ _ _ _ _ _ _ _ st) as [st1 r]; simpl in *.
  subst r. rewrite dispatch_attempts, Hq; [done|].
  by apply templated_build_messages_emits.
Qed.

(** C4.  When templated [build_messages] returns, it returns at most one
    message per recipient, and the recipients without a message are
    exactly those the directory does not know plus those for which the
    builder returns [None]; the loop then attempts one send per built
    message.  A [None] from the builder ends the iteration with no
    message, no log line and no exception. *)
Theorem templated_shortfall (w : World) {Data : Type}
        (platform : Platform) (sender0 : ClientUser) (recipients : list User)
        (content0 : string) (templating_data : Data) (db : contact_db.ContactDB)
        (template_input_builder : Z -> Data -> pyval) (st : State)
        (messages : list Message) :
  (templated.build_messages w platform sender0 recipients content0 templating_data db
     template_input_builder st).2 = Ok messages ->
  length messages <= length recipients /\
  length recipients - length messages
  = length (List.filter (not_found db (platforms.platform_name platform)) recipients)
    + length (List.filter (absent db (platforms.platform_name platform) templating_data
                             template_input_builder) recipients) /\
  attempts (trace (templated._send_to_all w platform sender0 recipients content0
                     templating_data db template_input_builder st).1)
  = attempts (trace st) ++ messages /\
  (forall r st0,
     absent db (platforms.platform_name platform) templating_data
            template_input_builder r = true ->
     templated.build_message w (platforms.platform_name platform) templating_data db
       template_input_builder (mkMessage sender0 r content0) st0
     = (mkState (trace st0 ++ [EvSelectContact (platforms.platform_name platform) (get_id r)])
                (heap st0) (next_id st0),
        Ok None)).
Proof.
  intros H.
  assert (length messages
          + length (List.filter (not_found db (platforms.platform_name platform)) recipients)
          + length (List.filter (absent db (platforms.platform_name platform)
                                   templating_data template_input_builder) recipients)
          = length recipients) as Hcount.
  { unfold templated.build_messages in H. rewrite build_messages_loop_verdicts in H.
    destruct (verdicts _ _ _ _ _ _) as [built|e] eqn:Hv; [|done].
    simpl in H. injection H as <-.
    apply verdicts_shortfall in Hv.
    pose proof (plain_messages_shape sender0 recipients content0)
      as (Hlen & Hmap).
    by rewrite Hmap, Hlen in Hv. }
  split; [lia|]. split; [lia|]. split.
  - by apply templated_dispatch_attempts.
  - intros r st0 Hr. by apply build_message_absent.
Qed.

(** A batch of three: one recipient with data, one the directory does not
    know, one for which the builder has nothing. *)
Lemma templated_shortfall_witness :
  let w := table_world demo_tables [] in
  let db := contact_db.mkContactDB (table_cursor demo_tables) in
  let sender0 := EmailClientUser 1 "me@x.com" (FStr "secret") in
  let recipients := [EmailUser "a@x.com"; EmailUser "zz@x.com"; EmailUser "b@x.com"] in
  let builder := fun (c_id : Z) (_ : unit) =>
                   if (c_id =? 1)%Z then PTuple [AStr "Alice"] else PNone in
  let messages := [mkMessage sender0 (EmailUser "a@x.com") "Hi Alice"] in
  (templated.build_messages w (Email 0) sender0 recipients "Hi {0}" tt db builder
     initial).2 = Ok messages /\
  length messages <= length recipients /\
  length recipients - length messages
  = length (List.filter (not_found db "email") recipients)
    + length (List.filter (absent db "email" tt builder) recipients).
Proof.
  intros w db sender0 recipients builder messages.
  assert ((templated.build_messages w (Email 0) sender0 recipients "Hi {0}" tt db builder
             initial).2 = Ok messages) as H by (vm_compute; reflexivity).
  split; [exact H|].
  destruct (templated_shortfall w (Email 0) sender0 recipients "Hi {0}" tt db builder
              initial messages H) as (H1 & H2 & _).
  split; [exact H1 | exact H2].
Defined.

(** The batch of C3 at a recipient that has no row in the directory. *)
Lemma unknown_recipient_is_skipped_witness :
  let w := table_world demo_tables [] in
  let db := contact_db.mkContactDB (table_cursor demo_tables) in
  let sender0 := EmailClientUser 1 "me@x.com" (FStr "secret") in
  not_found db (platforms.platform_name (Email 0)) (EmailUser "zz@x.com") = true /\
  (templated.build_messages w (Email 0) sender0
     ([EmailUser "a@x.com"] ++ EmailUser "zz@x.com" :: [EmailUser "b@x.com"])
     "Hi {0}" tt db names_of initial).2
  = (templated.build_messages w (Email 0) sender0
       ([EmailUser "a@x.com"] ++ [EmailUser "b@x.com"])
       "Hi {0}" tt db names_of initial).2.
Proof.
  intros w db sender0.
  assert (not_found db (platforms.platform_name (Email 0)) (EmailUser "zz@x.com") = true)
    as H by (vm_compute; reflexivity).
  split; [exact H|].
  destruct (unknown_recipient_is_skipped w (Email 0) sender0 "Hi {0}" tt db names_of
              (EmailUser "zz@x.com") H) as (_ & H2 & _).
  exact (H2 [EmailUser "a@x.com"] [EmailUser "b@x.com"] initial).
Defined.

(** C10.  Messages are dispatched in the order of the recipient list.  In
    plain mode the recipients of the send attempts are the given
    recipients, in the order of the list.  In templated mode the
    recipients of the built messages are a subsequence of the given
    recipients, every built message has the given sender, and the loop
    attempts the built messages in that order. *)
Theorem dispatch_follows_recipient_order (w : World) {Data : Type}
        (platform : Platform) (sender0 : ClientUser) (recipients : list User)
        (content0 : string) (templating_data : Data) (db : contact_db.ContactDB)
        (template_input_builder : Z -> Data -> pyval) :
  (forall st,
     map recipient
         (attempts (trace (basic._send_to_all w sender0 recipients content0 st).1))
     = map recipient (attempts (trace st)) ++ recipients) /\
  (forall st messages,
     (templated.build_messages w platform sender0 recipients content0 templating_data db
        template_input_builder st).2 = Ok messages ->
     map recipient messages `sublist_of` recipients /\
     Forall (fun m => sender m = sender0) messages /\
     attempts (trace (templated._send_to_all w platform sender0 recipients content0
                        templating_data db template_input_builder st).1)
     = attempts (trace st) ++ messages).
Proof.
  destruct (plain_messages_shape sender0 recipients content0)
    as (Hlen & Hmap).
  assert (Forall (fun m => sender m = sender0)
                 (basic.build_messages sender0 recipients content0)) as Hsender.
  { unfold basic.build_messages. apply Forall_forall. intros m Hm.
    apply list_elem_of_In, in_map_iff in Hm. by destruct Hm as (r & <- & _). }
  split.
  - intros st. unfold basic._send_to_all.
    by rewrite dispatch_attempts, map_app, Hmap.
  - intros st messages H. split; [|split].
    + unfold templated.build_messages in H. rewrite build_messages_loop_verdicts in H.
      destruct (verdicts _ _ _ _ _ _) as [built|e] eqn:Hv; [|done].
      simpl in H. injection H as <-.
      apply verdicts_sublist in Hv. by rewrite Hmap in Hv.
    + unfold templated.build_messages in H. rewrite build_messages_loop_verdicts in H.
      destruct (verdicts _ _ _ _ _ _) as [built|e] eqn:Hv; [|done].
      simpl in H. injection H as <-.
      by apply (verdicts_sender _ _ _ _ _ sender0) in Hv.
    + by apply templated_dispatch_attempts.
Qed.

(** The order of a templated batch in which the middle recipient has no
    data. *)
Lemma dispatch_follows_recipient_order_witness :
  let w := table_world demo_tables [] in
  let db := contact_db.mkContactDB (table_cursor demo_tables) in
  let sender0 := EmailClientUser 1 "me@x.com" (FStr "secret") in
  let recipients := [EmailUser "b@x.com"; EmailUser "zz@x.com"; EmailUser "a@x.com"] in
  let messages := [mkMessage sender0 (EmailUser "b@x.com") "Hi Bob";
                   mkMessage sender0 (EmailUser "a@x.com") "Hi Alice"] in
  (templated.build_messages w (Email 0) sender0 recipients "Hi {0}" tt db names_of
     initial).2 = Ok messages /\
  map recipient messages `sublist_of` recipients /\
  Forall (fun m => sender m = sender0) messages.
Proof.
  intros w db sender0 recipients messages.
  assert ((templated.build_messages w (Email 0) sender0 recipients "Hi {0}" tt db names_of
             initial).2 = Ok messages) as H by (vm_compute; reflexivity).
  split; [exact H|].
  destruct (dispatch_follows_recipient_order w (Email 0) sender0 recipients "Hi {0}" tt db
              names_of) as (_ & Ht).
  destruct (Ht initial messages H) as (H1 & H2 & _).
  split; [exact H1 | exact H2].
Defined.

(** ** The shape of the template input *)

(** A number returned by the builder is rejected: unpacking it raises
    [TypeError], which [fill] raises again with its own message, and the
    batch is abandoned at that recipient. *)
Lemma fill_rejects_numbers (w : World) template n st :
  templated.fill w template (PInt n) st
  = (st, Raise (TypeError "Output of template_input_builder must be a tuple.")).
Proof. by rewrite fill_filled. Qed.

(** A string returned by the builder passes the unpacking: what
    [str.format] receives is the sequence of its characters. *)
Lemma fill_unpacks_strings (w : World) template s st :
  templated.fill w template (PStr s) st
  = templated.fill w template
      (PTuple (map (fun c => AStr (String c EmptyString)) (list_ascii_of_string s))) st.
Proof. by rewrite !fill_filled. Qed.

(** C1.  The shape check of [build_messages] misses values that can be
    unpacked without being tuples or lists.  For a builder that returns
    the bare string [Alice], or a dict, the batch is not aborted: a
    message is built, from the first character of the string or from the
    key of the dict, and it is sent. *)
Theorem scalar_template_input_is_not_rejected :
  let w := table_world demo_tables [] in
  let db := contact_db.mkContactDB (table_cursor demo_tables) in
  let sender0 := EmailClientUser 1 "me@x.com" (FStr "secret") in
  (templated.build_messages w (Email 0) sender0 [EmailUser "a@x.com"] "Hi {0}" tt db
     (fun _ _ => PStr "Alice") initial).2
  = Ok [mkMessage sender0 (EmailUser "a@x.com") "Hi A"] /\
  (templated.build_messages w (Email 0) sender0 [EmailUser "a@x.com"] "Hi {0}" tt db
     (fun _ _ => PDict [(AStr "Alice", AInt 1)]) initial).2
  = Ok [mkMessage sender0 (EmailUser "a@x.com") "Hi Alice"] /\
  (let run := templated.send_to_all w "email" demo_sender [RBare "a@x.com"] "Hi {0}" tt
                "dbuser" (fun _ _ => PStr "Alice") initial in
   run.2 = Ok tt /\
   attempts (trace run.1) = [mkMessage sender0 (EmailUser "a@x.com") "Hi A"]) /\
  (templated.build_messages w (Email 0) sender0 [EmailUser "a@x.com"] "Hi {0}" tt db
     (fun _ _ => PInt 7) initial).2
  = Raise (TypeError "Output of template_input_builder must be a tuple.").
Proof. vm_compute. repeat split; reflexivity. Qed.

(** ** The contact directory *)

Lemma get_usernames_result (db : contact_db.ContactDB) platform st :
  (contact_db.get_usernames db platform st).2
  = select_usernames (contact_db.cursor db) platform.
Proof. reflexivity. Qed.

(** C2.  [get_unrecognized] returns the usernames of its input that are
    not among [get_usernames] of the platform: the input filtered, order
    and repetitions kept; a username is in the result exactly when it is in
    the input and not in the directory. *)
Theorem get_unrecognized_filters (db : contact_db.ContactDB) (platform : string)
        (usernames known : list string) (st : State) :
  (contact_db.get_usernames db platform st).2 = Ok known ->
  (contact_db.get_unrecognized db platform usernames st).2
  = Ok (filter (fun u => u ∉ known) usernames) /\
  (forall u, u ∈ filter (fun u => u ∉ known) usernames <-> u ∈ usernames /\ u ∉ known).
Proof.
  rewrite get_usernames_result. intros H. split.
  - revert st. induction usernames as [|u us IH]; intros st; simpl; [done|].
    unfold bind, contact_db.get_usernames, call. rewrite H.
    match goal with
    | |- context [contact_db.get_unrecognized db platform us ?s] =>
        specialize (IH s);
        destruct (contact_db.get_unrecognized db platform us s) as [st1 r]
    end.
    simpl in IH. subst r. simpl. rewrite filter_cons.
    case_bool_decide; case_decide; done.
  - intros u. rewrite list_elem_of_filter. tauto.
Qed.

Lemma get_unrecognized_filters_witness :
  let db := contact_db.mkContactDB (table_cursor demo_tables) in
  (contact_db.get_usernames db "email" initial).2 = Ok ["a@x.com"; "b@x.com"] /\
  (contact_db.get_unrecognized db "email" ["zz@x.com"; "b@x.com"; "q@x.com"] initial).2
  = Ok (filter (fun u => u ∉ ["a@x.com"; "b@x.com"]) ["zz@x.com"; "b@x.com"; "q@x.com"]).
Proof.
  intros db.
  assert ((contact_db.get_usernames db "email" initial).2 = Ok ["a@x.com"; "b@x.com"])
    as H by (vm_compute; reflexivity).
  split; [exact H|].
  exact (proj1 (get_unrecognized_filters db "email" ["zz@x.com"; "b@x.com"; "q@x.com"]
                  ["a@x.com"; "b@x.com"] initial H)).
Defined.

(** ** The session cache of the email adapter *)


Section SessionCache.
Context (w : World).

Lemma smtp_new_app tr evs :
  forallb not_smtp_new evs = true ->
  List.filter is_smtp_new (tr ++ evs) = List.filter is_smtp_new tr.
Proof.
  intros F. rewrite List.filter_app.
  assert (List.filter is_smtp_new evs = []) as ->; [|by rewrite app_nil_r].
  induction evs as [|ev evs IH]; simpl in *; [done|].
  apply andb_true_iff in F as [F1 F2]. apply negb_true_iff in F1.
  rewrite F1. auto.
Qed.

(** With the domain in the cache, [build_sender] constructs no session
    and hands the cached one to the sender. *)
(** With the domain in the cache, [build_sender] goes straight to the
    construction of the sender on the cached session. *)
Lemma build_sender_hit_run self data st address domain server :
  data !! "address" = Some (FStr address) ->
  split "@" address !! 1 = Some domain ->
  cached st self domain = Some server ->
  email.build_sender w self data st
  = bind (subscript data "password")
         (fun password => email.EmailClientUser_init w server address password) st.
Proof.
  unfold cached. intros Ha Hd Hc.
  unfold email.build_sender, subscript, index, read_servers.
  rewrite Ha. cbv beta iota delta [bind ret raise].
  rewrite Hd. cbv beta iota. rewrite Hc.
  by destruct (data !! "password").
Qed.

(** With the domain not in the cache, [build_sender] constructs a
    session, stores it under the domain, and goes on as on a hit. *)
Lemma build_sender_miss_run self data st address domain :
  data !! "address" = Some (FStr address) ->
  split "@" address !! 1 = Some domain ->
  cached st self domain = None ->
  email.build_sender w self data st
  = bind (kwargs <- subscript data "smtp" ;;
          server <- email.SMTP w kwargs ;;
          write_servers self (<[domain := server]> (default ∅ (heap st !! self))) ;;
          ret server)
         (fun server =>
            bind (subscript data "password")
                 (fun password =>
                    email.EmailClientUser_init w server address password)) st.
Proof.
  unfold cached. intros Ha Hd Hc.
  unfold email.build_sender, subscript, index, read_servers.
  rewrite Ha. cbv beta iota delta [bind ret raise].
  rewrite Hd. cbv beta iota. rewrite Hc.
  reflexivity.
Qed.

Lemma EmailClientUser_init_emits P server address password :
  (forall s, P (EvSmtpStartTls s) = true) ->
  (forall s a pw, P (EvSmtpLogin s a pw) = true) ->
  emits_only P (email.EmailClientUser_init w server address password).
Proof.
  intros H1 H2. unfold email.EmailClientUser_init.
  repeat first [apply emits_only_call; auto | emits_step].
Qed.

Lemma EmailClientUser_init_state server address password st st1 sender1 :
  email.EmailClientUser_init w server address password st = (st1, Ok sender1) ->
  heap st1 = heap st /\ sender1 = EmailClientUser server address password.
Proof.
  unfold email.EmailClientUser_init, bind, call, ret.
  destruct (outcome_of (smtp_starttls _ _ _)); simpl; [|done].
  destruct (outcome_of (smtp_login _ _ _ _ _)); simpl; [|done].
  by intros [= <- <-].
Qed.

Lemma domain_of_Some data domain :
  domain_of data = Some domain ->
  exists address,
    data !! "address" = Some (FStr address) /\ split "@" address !! 1 = Some domain.
Proof.
  unfold domain_of. destruct (data !! "address") as [[address|]|]; try done.
  intros H. by exists address.
Qed.

(** With the domain in the cache, [build_sender] constructs no session
    and hands the cached one to the sender. *)
Lemma build_sender_hit self data st domain server :
  domain_of data = Some domain ->
  cached st self domain = Some server ->
  List.filter is_smtp_new (trace (email.build_sender w self data st).1)
  = List.filter is_smtp_new (trace st) /\
  (forall sender2, (email.build_sender w self data st).2 = Ok sender2 ->
                   server_of sender2 = Some server).
Proof.
  intros (address & Ha & Hd)%domain_of_Some Hc.
  rewrite (build_sender_hit_run self data st address domain server Ha Hd Hc).
  split.
  - apply (emits_only_filter is_smtp_new). apply emits_only_bind.
    + apply emits_only_subscript.
    + intros password. by apply EmailClientUser_init_emits.
  - intros sender2. unfold bind, subscript.
    destruct (data !! "password") as [password|]; [|done]. simpl.
    destruct (email.EmailClientUser_init _ _ _ _ st) as [st2 [s|e]] eqn:E; [|done].
    apply EmailClientUser_init_state in E as [_ ->]. by intros [= <-].
Qed.

(** A call that returns a sender leaves the session of that sender in
    the cache, under the domain of the address. *)
Lemma build_sender_fills_cache self data st st1 sender1 :
  email.build_sender w self data st = (st1, Ok sender1) ->
  exists domain server,
    domain_of data = Some domain /\
    cached st1 self domain = Some server /\
    server_of sender1 = Some server.
Proof.
  intros H.
  assert (exists address domain,
             data !! "address" = Some (FStr address) /\
             split "@" address !! 1 = Some domain) as (address & domain & Ha & Hd).
  { revert H. unfold email.build_sender, subscript, index.
    destruct (data !! "address") as [[address|]|] eqn:Ha; try done.
    cbv beta iota delta [bind ret raise].
    destruct (split "@" address !! 1) as [domain|] eqn:Hd; [|done].
    intros _. by exists address, domain. }
  exists domain.
  assert (domain_of data = Some domain) as Hdom by (unfold domain_of; by rewrite Ha).
  destruct (cached st self domain) as [server|] eqn:Hc.
  - rewrite (build_sender_hit_run self data st address domain server Ha Hd Hc) in H.
    revert H. unfold bind, subscript.
    destruct (data !! "password") as [password|]; [|done]. simpl.
    intros [Hh ->]%EmailClientUser_init_state.
    exists server. unfold cached in *. by rewrite Hh.
  - rewrite (build_sender_miss_run self data st address domain Ha Hd Hc) in H.
    revert H. unfold subscript, email.SMTP.
    destruct (data !! "smtp") as [[s|kw]|]; try done.
    cbv beta iota delta [bind ret raise call fresh write_servers]. simpl.
    destruct (outcome_of (smtp_new _ _ _)); [|done].
    destruct (data !! "password") as [password|]; [|done].
    intros [Hh ->]%EmailClientUser_init_state.
    exists (next_id st). unfold cached. rewrite Hh. simpl.
    rewrite lookup_insert_eq. simpl. by rewrite lookup_insert_eq.
Qed.

End SessionCache.

(** C9.  After a call of [Email.build_sender] that returned a sender, a
    second call on the same adapter for the same endpoint, which the
    adapter identifies by the domain of the sender address, constructs no
    SMTP session: the trace gains no [smtplib.SMTP] construction, and a
    sender it returns holds the session of the first. *)
Theorem build_sender_reuses_session (w : World) (self : nat)
        (data1 data2 : gmap string field) (st st1 : State) (sender1 : ClientUser) :
  email.build_sender w self data1 st = (st1, Ok sender1) ->
  domain_of data2 = domain_of data1 ->
  List.filter is_smtp_new (trace (email.build_sender w self data2 st1).1)
  = List.filter is_smtp_new (trace st1) /\
  (forall sender2, (email.build_sender w self data2 st1).2 = Ok sender2 ->
                   server_of sender2 = server_of sender1).
Proof.
  intros H1 Hd.
  destruct (build_sender_fills_cache w self data1 st st1 sender1 H1)
    as (domain & server & Hdom & Hc & Hs).
  rewrite Hdom in Hd. rewrite Hs.
  by apply (build_sender_hit w self data2 st1 domain server).
Qed.

(** Two senders of domain [x.com] on one adapter: one session. *)
Lemma build_sender_reuses_session_witness :
  let w := table_world demo_tables [] in
  let data2 : gmap string field :=
    {[ "address" := FStr "you@x.com"; "password" := FStr "other";
       "smtp" := FDict {[ "host" := "smtp.x.com" ]} ]} in
  let st := mkState [] {[ 0 := ∅ ]} 1 in
  let first := email.build_sender w 0 demo_sender st in
  first = (first.1, Ok (EmailClientUser 1 "me@x.com" (FStr "secret"))) /\
  domain_of data2 = domain_of demo_sender /\
  List.filter is_smtp_new (trace (email.build_sender w 0 data2 first.1).1)
  = List.filter is_smtp_new (trace first.1) /\
  (email.build_sender w 0 data2 first.1).2 = Ok (EmailClientUser 1 "you@x.com" (FStr "other")).
Proof.
  intros w data2 st first.
  assert (first = (first.1, Ok (EmailClientUser 1 "me@x.com" (FStr "secret")))) as H1
    by (vm_compute; reflexivity).
  assert (domain_of data2 = domain_of demo_sender) as H2 by (vm_compute; reflexivity).
  split; [exact H1|]. split; [exact H2|].
  split.
  - exact (proj1 (build_sender_reuses_session w 0 demo_sender data2 st first.1
                    (EmailClientUser 1 "me@x.com" (FStr "secret")) H1 H2)).
  - vm_compute; reflexivity.
Defined.

(** ** Recipients taken from the directory *)


Section Snapshot.
Context (w : World) {Data : Type}.

Lemma get_id_user_of p username : get_id (user_of p username) = username.
Proof. by destruct p. Qed.

Lemma build_recipient_bare p username st :
  platforms.build_recipient p (RBare username) st = (st, Ok (user_of p username)).
Proof.
  destruct p; simpl; unfold slack.SlackUser_init, email.EmailUser_init;
    rewrite lookup_singleton_eq, map_size_singleton; by case_decide.
Qed.

Lemma comprehension_bare p usernames st :
  comprehension (platforms.build_recipient p) (map RBare usernames) st
  = (st, Ok (map (user_of p) usernames)).
Proof.
  induction usernames as [|u us IH]; simpl; [done|].
  unfold bind. by rewrite build_recipient_bare, IH.
Qed.

Lemma basic_build_resources_bare platform_name sender_data usernames content0 st st1 base :
  basic.build_resources w platform_name sender_data (map RBare usernames) content0 st
  = (st1, Ok base) ->
  map get_id (basic.res_recipients base) = usernames.
Proof.
  unfold basic.build_resources, bind.
  destruct (match platforms.platform_class platform_name with
            | Some constructor => constructor
            | None => raise (KeyError platform_name)
            end st) as [st2 [p|e]]; [|done].
  destruct (platforms.build_sender w p sender_data st2) as [st3 [s|e]]; [|done].
  rewrite comprehension_bare. intros [= <- <-]. simpl.
  rewrite map_map. induction usernames as [|u us IH]; simpl; [done|].
  by rewrite get_id_user_of, IH.
Qed.


Lemma after_directory_emits platform_name sender_data recipients_data content0
      (templating_data : Data) db template_input_builder :
  emits_only not_select_usernames
    (after_directory w platform_name sender_data recipients_data content0
       templating_data db template_input_builder).
Proof.
  unfold after_directory. apply emits_only_bind.
  - by apply basic_build_resources_emits.
  - intros base. unfold templated._send_to_all. apply emits_only_bind.
    + by apply templated_build_messages_emits.
    + intros messages. apply emits_only_for_each. intros m.
      by apply send_message_emits.
Qed.

Lemma send_to_all_from_directory platform_name sender_data content0
      (templating_data : Data) db_username template_input_builder st cur :
  db_connect w (trace st ++ [EvDbConnect db_username]) db_username = Ok cur ->
  templated.send_to_all w platform_name sender_data [] content0 templating_data
    db_username template_input_builder st
  = let st3 := mkState (trace st ++ [EvDbConnect db_username; EvLog LogNoRecipients;
                                     EvSelectUsernames platform_name])
                       (heap st) (next_id st) in
    match select_usernames cur platform_name with
    | Ok usernames =>
        after_directory w platform_name sender_data (map RBare usernames) content0
          templating_data (contact_db.mkContactDB cur) template_input_builder st3
    | Raise e => (st3, Raise e)
    end.
Proof.
  intros H.
  unfold templated.send_to_all, templated.build_resources, after_directory,
    contact_db.build_contact_db, contact_db.get_usernames.
  unfold bind, ret, call, emit. simpl. rewrite H. simpl.
  rewrite <- !app_assoc. simpl.
  destruct (select_usernames cur platform_name) as [usernames|e]; [|done].
  by destruct (basic.build_resources _ _ _ _ _ _) as [st4 [base|e]].
Qed.

Lemma send_to_all_given_recipients platform_name sender_data recipients_data content0
      (templating_data : Data) db_username template_input_builder st :
  recipients_data <> [] ->
  templated.send_to_all w platform_name sender_data recipients_data content0
    templating_data db_username template_input_builder st
  = bind (contact_db.build_contact_db w db_username)
         (fun db => after_directory w platform_name sender_data recipients_data content0
                      templating_data db template_input_builder) st.
Proof.
  intros H. destruct recipients_data as [|r rs]; [done|].
  unfold templated.send_to_all, templated.build_resources, after_directory, bind, ret.
  destruct (contact_db.build_contact_db w db_username st) as [st1 [db|e]]; [|done].
  by destruct (basic.build_resources _ _ _ _ _ _) as [st4 [base|e]].
Qed.

End Snapshot.

(** C7.  In templated mode with an empty [recipients_data], once the
    directory is opened [get_usernames] is queried exactly once, before
    anything is constructed or sent, and never again in the run (the
    per-message queries are [get_contact]); the recipients of the
    resources are the usernames that query returned.  With a non-empty
    [recipients_data] the list of usernames is not queried at all. *)
Theorem directory_recipients_queried_once (w : World) {Data : Type}
        (platform_name : string) (sender_data : gmap string field) (content0 : string)
        (templating_data : Data) (db_username : string)
        (template_input_builder : Z -> Data -> pyval) (st : State) (cur : Cursor) :
  db_connect w (trace st ++ [EvDbConnect db_username]) db_username = Ok cur ->
  (exists rest,
     trace (templated.send_to_all w platform_name sender_data [] content0 templating_data
              db_username template_input_builder st).1
     = trace st ++ [EvDbConnect db_username; EvLog LogNoRecipients;
                    EvSelectUsernames platform_name] ++ rest /\
     forallb not_select_usernames rest = true) /\
  (forall st1 resources,
     templated.build_resources w platform_name sender_data [] content0 templating_data
       db_username st = (st1, Ok resources) ->
     contact_db.cursor (templated.res_contact_db resources) = cur /\
     select_usernames cur platform_name
     = Ok (map get_id (basic.res_recipients (templated.res_basic resources)))) /\
  (forall recipients_data st0,
     recipients_data <> [] ->
     List.filter is_select_usernames
       (trace (templated.send_to_all w platform_name sender_data recipients_data content0
                 templating_data db_username template_input_builder st0).1)
     = List.filter is_select_usernames (trace st0)).
Proof.
  intros H. split; [|split].
  - rewrite (send_to_all_from_directory w _ _ _ _ _ _ st cur H). simpl.
    destruct (select_usernames cur platform_name) as [usernames|e].
    + match goal with
      | |- context [after_directory ?w ?p ?sd ?rd ?c ?d ?db ?b ?s] =>
          destruct (after_directory_emits w p sd rd c d db b s) as (rest & E & F)
      end.
      exists rest. rewrite E. simpl. by rewrite <- app_assoc.
    + by exists [].
  - intros st1 resources.
    unfold templated.build_resources, contact_db.build_contact_db,
      contact_db.get_usernames.
    unfold bind, ret, call, emit. simpl. rewrite H. simpl.
    destruct (select_usernames cur platform_name) as [usernames|e]; [|done].
    destruct (basic.build_resources _ _ _ _ _ _) as [st4 [base|e]] eqn:E; [|done].
    intros [= <- <-]. simpl. split; [done|].
    by rewrite (basic_build_resources_bare w _ _ _ _ _ _ _ E).
  - intros recipients_data st0 Hne.
    rewrite (send_to_all_given_recipients w _ _ _ _ _ _ _ st0 Hne).
    apply (emits_only_filter is_select_usernames). apply emits_only_bind.
    + unfold contact_db.build_contact_db. emits.
    + intros db. apply after_directory_emits.
Qed.

(** The run of scenario B without recipients: the two rows of the
    directory are the recipients, after one query. *)
Lemma directory_recipients_queried_once_witness :
  let w := table_world demo_tables [] in
  let run := templated.send_to_all w "email" demo_sender [] "Hi {0}" tt "dbuser"
               names_of initial in
  db_connect w (trace initial ++ [EvDbConnect "dbuser"]) "dbuser"
  = Ok (table_cursor demo_tables) /\
  (exists rest,
     trace run.1 = trace initial ++ [EvDbConnect "dbuser"; EvLog LogNoRecipients;
                                     EvSelectUsernames "email"] ++ rest /\
     forallb not_select_usernames rest = true) /\
  map recipient (attempts (trace run.1)) = [EmailUser "a@x.com"; EmailUser "b@x.com"].
Proof.
  intros w run.
  assert (db_connect w (trace initial ++ [EvDbConnect "dbuser"]) "dbuser"
          = Ok (table_cursor demo_tables)) as H by reflexivity.
  split; [exact H|]. split.
  - exact (proj1 (directory_recipients_queried_once w "email" demo_sender "Hi {0}" tt
                    "dbuser" names_of initial (table_cursor demo_tables) H)).
  - vm_compute; reflexivity.
Defined.

(** ** The scenarios, evaluated *)

(** Plain mode: two recipients, two sends of the unchanged content. *)
Example scenario_plain :
  let w := table_world demo_tables [] in
  let run := basic.send_to_all w "email" demo_sender [RBare "a@x.com"; RBare "b@x.com"]
               "Hello" initial in
  run.2 = Ok tt /\
  map (fun m => (recipient m, content m)) (attempts (trace run.1))
  = [(EmailUser "a@x.com", "Hello"); (EmailUser "b@x.com", "Hello")].
Proof. vm_compute. split; reflexivity. Qed.

(** Templated mode: each recipient receives the template filled with the
    values of its contact. *)
Example scenario_templated :
  let w := table_world demo_tables [] in
  let run := templated.send_to_all w "email" demo_sender
               [RBare "a@x.com"; RBare "b@x.com"] "Hi {0}" tt "dbuser" names_of initial in
  run.2 = Ok tt /\
  map (fun m => (recipient m, content m)) (attempts (trace run.1))
  = [(EmailUser "a@x.com", "Hi Alice"); (EmailUser "b@x.com", "Hi Bob")].
Proof. vm_compute. split; reflexivity. Qed.

(** Templated mode, no data for the second recipient: one send, no
    exception. *)
Example scenario_partial_data :
  let w := table_world demo_tables [] in
  let builder := fun (c_id : Z) (_ : unit) =>
                   if (c_id =? 1)%Z then PTuple [AStr "Alice"] else PNone in
  let run := templated.send_to_all w "email" demo_sender
               [RBare "a@x.com"; RBare "b@x.com"] "Hi {0}" tt "dbuser" builder initial in
  run.2 = Ok tt /\
  map (fun m => (recipient m, content m)) (attempts (trace run.1))
  = [(EmailUser "a@x.com", "Hi Alice")].
Proof. vm_compute. split; reflexivity. Qed.

(** Templated mode, a builder that returns a number for the second
    recipient: the run raises and nothing is sent, not even to the
    first. *)
Example scenario_number_input :
  let w := table_world demo_tables [] in
  let builder := fun (c_id : Z) (_ : unit) =>
                   if (c_id =? 1)%Z then PTuple [AStr "Alice"] else PInt 7 in
  let run := templated.send_to_all w "email" demo_sender
               [RBare "a@x.com"; RBare "b@x.com"] "Hi {0}" tt "dbuser" builder initial in
  run.2 = Raise (TypeError "Output of template_input_builder must be a tuple.") /\
  sends (trace run.1) = [].
Proof. vm_compute. split; reflexivity. Qed.

(** A send that fails in the middle of a plain batch: the batch goes on
    and returns. *)
Example scenario_transport_failure :
  let w := table_world demo_tables ["b@x.com"] in
  let run := basic.send_to_all w "email" demo_sender
               [RBare "a@x.com"; RBare "b@x.com"; RBare "c@x.com"] "Hello" initial in
  run.2 = Ok tt /\
  map recipient (attempts (trace run.1))
  = [EmailUser "a@x.com"; EmailUser "b@x.com"; EmailUser "c@x.com"] /\
  EvLog (LogSendFailed "b@x.com" (OtherError "SMTPRecipientsRefused")) ∈ trace run.1.
Proof.
  vm_compute. split; [reflexivity|]. split; [reflexivity|].
  apply list_elem_of_In. vm_compute. tauto.
Qed.

(** * Further properties of the pipeline *)

(** ** The registry *)

(** X1.  [platform_name] inverts [platform_class]: the platform a
    registered constructor builds is registered under the name it was
    looked up with, and the name of every platform is registered. *)
Theorem platform_name_inverts_platform_class :
  (forall name constructor st st1 p,
     platforms.platform_class name = Some constructor ->
     constructor st = (st1, Ok p) ->
     platforms.platform_name p = name) /\
  (forall p, is_Some (platforms.platform_class (platforms.platform_name p))).
Proof.
  split.
  - intros name constructor st st1 p. unfold platforms.platform_class.
    destruct (String.eqb name "slack") eqn:E1.
    + apply String.eqb_eq in E1. intros [= <-]. unfold ret. by intros [= <- <-].
    + destruct (String.eqb name "email") eqn:E2; [|done].
      apply String.eqb_eq in E2. intros [= <-].
      unfold email.Email_init, bind, fresh, write_servers, ret. simpl.
      by intros [= <- <-].
  - intros []; simpl; eauto.
Qed.

Lemma platform_name_inverts_platform_class_witness :
  platforms.platform_class "email"
  = Some (self <- email.Email_init ;; ret (Email self)) /\
  (self <- email.Email_init ;; ret (Email self)) initial
  = (mkState [] {[ 0 := ∅ ]} 1, Ok (Email 0)) /\
  platforms.platform_name (Email 0) = "email".
Proof.
  assert (platforms.platform_class "email"
          = Some (self <- email.Email_init ;; ret (Email self))) as H1 by reflexivity.
  assert ((self <- email.Email_init ;; ret (Email self)) initial
          = (mkState [] {[ 0 := ∅ ]} 1, Ok (Email 0))) as H2 by reflexivity.
  split; [exact H1|]. split; [exact H2|].
  exact (proj1 platform_name_inverts_platform_class "email" _ initial _ (Email 0) H1 H2).
Defined.

(** X2.  A plain broadcast on a platform name that is not registered
    raises [KeyError] with that name and leaves the state as it was:
    nothing is constructed, nothing is sent, nothing is logged. *)
Theorem unknown_platform_changes_nothing (w : World) (platform_name : string)
        (sender_data : gmap string field) (recipients_data : list rdata)
        (content0 : string) (st : State) :
  platforms.platform_class platform_name = None ->
  basic.send_to_all w platform_name sender_data recipients_data content0 st
  = (st, Raise (KeyError platform_name)).
Proof.
  intros H. unfold basic.send_to_all, basic.build_resources, bind. by rewrite H.
Qed.

Lemma unknown_platform_changes_nothing_witness :
  platforms.platform_class "sms" = None /\
  basic.send_to_all (table_world demo_tables []) "sms" demo_sender [RBare "a@x.com"]
    "Hello" initial
  = (initial, Raise (KeyError "sms")).
Proof.
  assert (platforms.platform_class "sms" = None) as H by reflexivity.
  split; [exact H|].
  exact (unknown_platform_changes_nothing (table_world demo_tables []) "sms" demo_sender
           [RBare "a@x.com"] "Hello" initial H).
Defined.

(** X3.  In templated mode the directory is opened before the platform
    name is resolved: with recipients given, a platform name that is not
    registered raises [KeyError] after the connection to the directory
    and nothing else. *)
Theorem templated_unknown_platform_after_connect (w : World) {Data : Type}
        (platform_name : string) (sender_data : gmap string field)
        (recipients_data : list rdata) (content0 : string) (templating_data : Data)
        (db_username : string) (template_input_builder : Z -> Data -> pyval)
        (st : State) (cur : Cursor) :
  platforms.platform_class platform_name = None ->
  recipients_data <> [] ->
  db_connect w (trace st ++ [EvDbConnect db_username]) db_username = Ok cur ->
  templated.send_to_all w platform_name sender_data recipients_data content0
    templating_data db_username template_input_builder st
  = (mkState (trace st ++ [EvDbConnect db_username]) (heap st) (next_id st),
     Raise (KeyError platform_name)).
Proof.
  intros Hp Hr Hc. destruct recipients_data as [|r rs]; [done|].
  unfold templated.send_to_all, templated.build_resources, contact_db.build_contact_db,
    basic.build_resources.
  unfold bind, ret, call, raise. simpl. by rewrite Hc, Hp.
Qed.

Lemma templated_unknown_platform_after_connect_witness :
  let w := table_world demo_tables [] in
  platforms.platform_class "sms" = None /\
  [RBare "a@x.com"] <> [] /\
  db_connect w (trace initial ++ [EvDbConnect "dbuser"]) "dbuser"
  = Ok (table_cursor demo_tables) /\
  templated.send_to_all w "sms" demo_sender [RBare "a@x.com"] "Hi {0}" tt "dbuser"
    names_of initial
  = (mkState [EvDbConnect "dbuser"] ∅ 0, Raise (KeyError "sms")).
Proof.
  intros w.
  assert (platforms.platform_class "sms" = None) as H1 by reflexivity.
  assert ([RBare "a@x.com"] <> []) as H2 by discriminate.
  assert (db_connect w (trace initial ++ [EvDbConnect "dbuser"]) "dbuser"
          = Ok (table_cursor demo_tables)) as H3 by reflexivity.
  split; [exact H1|]. split; [exact H2|]. split; [exact H3|].
  exact (templated_unknown_platform_after_connect w "sms" demo_sender [RBare "a@x.com"]
           "Hi {0}" tt "dbuser" names_of initial (table_cursor demo_tables) H1 H2 H3).
Defined.

(** X4.  When the directory cannot be opened, a templated broadcast
    raises what the connection raised, right after the attempt: no
    platform is constructed, no session is opened, nothing is sent. *)
Theorem directory_failure_stops_everything (w : World) {Data : Type}
        (platform_name : string) (sender_data : gmap string field)
        (recipients_data : list rdata) (content0 : string) (templating_data : Data)
        (db_username : string) (template_input_builder : Z -> Data -> pyval)
        (st : State) (e : exn) :
  db_connect w (trace st ++ [EvDbConnect db_username]) db_username = Raise e ->
  templated.send_to_all w platform_name sender_data recipients_data content0
    templating_data db_username template_input_builder st
  = (mkState (trace st ++ [EvDbConnect db_username]) (heap st) (next_id st), Raise e).
Proof.
  intros Hc.
  unfold templated.send_to_all, templated.build_resources, contact_db.build_contact_db.
  unfold bind, ret, call. simpl. by rewrite Hc.
Qed.


Lemma directory_failure_stops_everything_witness :
  db_connect closed_world (trace initial ++ [EvDbConnect "dbuser"]) "dbuser"
  = Raise (OtherError "Access denied") /\
  templated.send_to_all closed_world "email" demo_sender [] "Hi {0}" tt "dbuser"
    names_of initial
  = (mkState [EvDbConnect "dbuser"] ∅ 0, Raise (OtherError "Access denied")).
Proof.
  assert (db_connect closed_world (trace initial ++ [EvDbConnect "dbuser"]) "dbuser"
          = Raise (OtherError "Access denied")) as H by reflexivity.
  split; [exact H|].
  exact (directory_failure_stops_everything closed_world "email" demo_sender [] "Hi {0}"
           tt "dbuser" names_of initial (OtherError "Access denied") H).
Defined.

(** ** Recipients and senders of the adapters *)

Lemma map_singleton_of_size {V} (d : gmap string V) k v :
  d !! k = Some v -> size d = 1 -> d = {[ k := v ]}.
Proof.
  intros Hk Hs.
  assert (delete k d = ∅) as Hd.
  { apply map_size_empty_inv. rewrite map_size_delete, Hk, Hs. done. }
  rewrite <- (insert_id d k v Hk), <- insert_delete_eq, Hd. apply insert_empty.
Qed.

Lemma map_pair_of_size {V} (d : gmap string V) k1 k2 v1 v2 :
  k1 <> k2 -> d !! k1 = Some v1 -> d !! k2 = Some v2 -> size d = 2 ->
  d = <[k1 := v1]> {[ k2 := v2 ]}.
Proof.
  intros Hne H1 H2 Hs.
  assert (delete k1 d = {[ k2 := v2 ]}) as Hd.
  { apply map_singleton_of_size.
    - by rewrite lookup_delete_ne.
    - rewrite map_size_delete, H1, Hs. done. }
  by rewrite <- (insert_id d k1 v1 H1), <- insert_delete_eq, Hd.
Qed.

(** X5.  [build_recipient] touches nothing outside the process and keeps
    the state.  A bare identifier is the record that holds it under the
    key of the platform, and both give the user of that identifier.  A
    record is accepted exactly when it holds the key of the platform and
    nothing else; any other record raises [TypeError]. *)
Theorem build_recipient_normalises (p : Platform) :
  (forall data st, (platforms.build_recipient p data st).1 = st) /\
  (forall s st,
     platforms.build_recipient p (RBare s) st = (st, Ok (user_of p s)) /\
     platforms.build_recipient p (RDict {[ id_key p := s ]}) st = (st, Ok (user_of p s))) /\
  (forall d st,
     match (platforms.build_recipient p (RDict d) st).2 with
     | Ok u => d = {[ id_key p := get_id u ]} /\ u = user_of p (get_id u)
     | Raise e =>
         e = TypeError "__init__() got unexpected or missing keyword arguments" /\
         (forall s, d <> {[ id_key p := s ]})
     end).
Proof.
  assert (forall s st, platforms.build_recipient p (RDict {[ id_key p := s ]}) st
                       = (st, Ok (user_of p s))) as Hdict.
  { intros s st. destruct p; simpl; unfold slack.SlackUser_init, email.EmailUser_init;
      rewrite lookup_singleton_eq, map_size_singleton; by case_decide. }
  split; [|split].
  - intros data st. destruct p, data; simpl;
      unfold slack.SlackUser_init, email.EmailUser_init;
      repeat case_match; done.
  - intros s st. split; [|apply Hdict].
    destruct p; simpl; unfold slack.SlackUser_init, email.EmailUser_init;
      rewrite lookup_singleton_eq, map_size_singleton; by case_decide.
  - intros d st.
    destruct (platforms.build_recipient p (RDict d) st) as [st1 [u|e]] eqn:E; simpl.
    + destruct p; simpl in *; unfold slack.SlackUser_init, email.EmailUser_init in E;
        (destruct (d !! _) as [v|] eqn:Hv; [|done]);
        (case_decide as Hs; [|done]);
        injection E as <- <-; simpl; (split; [|done]);
        by apply map_singleton_of_size.
    + assert (forall s, d <> {[ id_key p := s ]}) as Hno.
      { intros s ->. by rewrite Hdict in E. }
      split; [|done].
      destruct p; simpl in *;
        unfold slack.SlackUser_init, email.EmailUser_init, raise, ret in E;
        repeat case_match; by simplify_eq.
Qed.

(** X6.  [Slack.build_sender] accepts exactly the records with the two
    keys [username] and [token], raises [TypeError] for any other, and
    keeps the state in both cases. *)
Theorem slack_build_sender_accepts (data : gmap string field) (st : State) :
  (slack.build_sender data st).1 = st /\
  match (slack.build_sender data st).2 with
  | Ok s =>
      exists username token,
        data = <["username" := username]> {[ "token" := token ]} /\
        s = SlackClientUser username token
  | Raise e =>
      e = TypeError "__init__() got unexpected or missing keyword arguments" /\
      (forall username token, data <> <["username" := username]> {[ "token" := token ]})
  end.
Proof.
  unfold slack.build_sender, slack.SlackClientUser_init.
  destruct (data !! "username") as [u|] eqn:Hu.
  - destruct (data !! "token") as [t|] eqn:Ht.
    + case_decide as Hs; simpl.
      * split; [done|]. exists u, t. split; [|done].
        by apply map_pair_of_size.
      * split; [done|]. split; [done|]. intros u' t' ->. apply Hs.
        rewrite map_size_insert_None; [by rewrite map_size_singleton|].
        by rewrite lookup_singleton_ne.
    + simpl. split; [done|]. split; [done|]. intros u' t' ->.
      rewrite lookup_insert_ne, lookup_singleton_eq in Ht; done.
  - simpl. split; [done|]. split; [done|]. intros u' t' ->.
    by rewrite lookup_insert_eq in Hu.
Qed.

(** X7.  [Email.build_sender] checks the sender address before it
    touches the network: without an [address] it raises [KeyError], with
    an [address] that is not text [AttributeError], with an address
    without at-sign [IndexError], and the state is kept: no session is
    constructed and the cache is as it was. *)
Theorem email_build_sender_checks_address (w : World) (self : nat)
        (data : gmap string field) (st : State) :
  domain_of data = None ->
  email.build_sender w self data st
  = (st, Raise (match data !! "address" with
                | None => KeyError "address"
                | Some (FDict _) => AttributeError "split"
                | Some (FStr _) => IndexError
                end)).
Proof.
  unfold domain_of, email.build_sender, subscript, index.
  destruct (data !! "address") as [[address|d]|]; try done.
  intros H. cbv beta iota delta [bind ret raise]. by rewrite H.
Qed.

Lemma email_build_sender_checks_address_witness :
  let data : gmap string field := {[ "address" := FStr "nobody"; "password" := FStr "x" ]} in
  domain_of data = None /\
  email.build_sender (table_world demo_tables []) 0 data initial
  = (initial, Raise IndexError).
Proof.
  intros data.
  assert (domain_of data = None) as H by (vm_compute; reflexivity).
  split; [exact H|].
  exact (email_build_sender_checks_address (table_world demo_tables []) 0 data initial H).
Defined.

(** ** More on the session cache *)

Lemma EmailClientUser_init_keeps (w : World) server address password st :
  heap (email.EmailClientUser_init w server address password st).1 = heap st /\
  next_id (email.EmailClientUser_init w server address password st).1 = next_id st.
Proof.
  unfold email.EmailClientUser_init, bind, call, ret.
  destruct (outcome_of (smtp_starttls _ _ _)); simpl; [|done].
  by destruct (outcome_of (smtp_login _ _ _ _ _)).
Qed.

(** The state after a call of [build_sender] that finds no session for
    the domain and constructs one. *)
Lemma build_sender_miss_state (w : World) self data st address domain kw :
  data !! "address" = Some (FStr address) ->
  split "@" address !! 1 = Some domain ->
  cached st self domain = None ->
  data !! "smtp" = Some (FDict kw) ->
  smtp_new w (trace st ++ [EvSmtpNew kw]) kw = None ->
  heap (email.build_sender w self data st).1
  = <[self := <[domain := next_id st]> (default ∅ (heap st !! self))]> (heap st) /\
  next_id (email.build_sender w self data st).1 = S (next_id st) /\
  (forall s, (email.build_sender w self data st).2 = Ok s ->
             server_of s = Some (next_id st)).
Proof.
  intros Ha Hd Hc Hs Hn.
  rewrite (build_sender_miss_run w self data st address domain Ha Hd Hc).
  unfold subscript, email.SMTP. rewrite Hs.
  cbv beta iota delta [bind ret raise call fresh write_servers]. simpl.
  rewrite Hn. simpl.
  destruct (data !! "password") as [password|]; [|done].
  match goal with
  | |- context [email.EmailClientUser_init w ?srv ?a ?pw ?s] =>
      pose proof (EmailClientUser_init_keeps w srv a pw s) as [Hh Hi];
      pose proof (EmailClientUser_init_state w srv a pw s) as Hok;
      destruct (email.EmailClientUser_init w srv a pw s) as [st2 r]
  end.
  simpl in *. split; [done|]. split; [done|].
  intros s ->. by destruct (Hok st2 s eq_refl) as [_ ->].
Qed.

(** X8.  A session that [Email.build_sender] has constructed stays in the
    cache of the adapter even when the call then fails (no [password],
    STARTTLS or login refused): a later call for the same domain
    constructs no second session. *)
Theorem session_cached_despite_failure (w : World) (self : nat)
        (data : gmap string field) (st : State) (domain : string)
        (kw : gmap string string) :
  domain_of data = Some domain ->
  cached st self domain = None ->
  data !! "smtp" = Some (FDict kw) ->
  smtp_new w (trace st ++ [EvSmtpNew kw]) kw = None ->
  cached (email.build_sender w self data st).1 self domain = Some (next_id st) /\
  (forall data2,
     domain_of data2 = Some domain ->
     List.filter is_smtp_new
       (trace (email.build_sender w self data2 (email.build_sender w self data st).1).1)
     = List.filter is_smtp_new (trace (email.build_sender w self data st).1)).
Proof.
  intros (address & Ha & Hd)%domain_of_Some Hc Hs Hn.
  destruct (build_sender_miss_state w self data st address domain kw Ha Hd Hc Hs Hn)
    as (Hh & _ & _).
  assert (cached (email.build_sender w self data st).1 self domain = Some (next_id st))
    as Hcached.
  { unfold cached. rewrite Hh, lookup_insert_eq. simpl. by rewrite lookup_insert_eq. }
  split; [done|].
  intros data2 Hd2.
  by destruct (build_sender_hit w self data2 _ domain (next_id st) Hd2 Hcached).
Qed.


Lemma session_cached_despite_failure_witness :
  let st := mkState [] {[ 0 := ∅ ]} 1 in
  domain_of demo_sender = Some "x.com" /\
  (email.build_sender refusing_world 0 demo_sender st).2
  = Raise (OtherError "SMTPAuthenticationError") /\
  cached (email.build_sender refusing_world 0 demo_sender st).1 0 "x.com" = Some 1.
Proof.
  intros st.
  assert (domain_of demo_sender = Some "x.com") as H1 by (vm_compute; reflexivity).
  assert (cached st 0 "x.com" = None) as H2 by (vm_compute; reflexivity).
  assert (demo_sender !! "smtp" = Some (FDict {[ "host" := "smtp.x.com" ]})) as H3
    by (vm_compute; reflexivity).
  assert (smtp_new refusing_world
            (trace st ++ [EvSmtpNew {[ "host" := "smtp.x.com" ]}])
            {[ "host" := "smtp.x.com" ]} = None) as H4 by reflexivity.
  split; [exact H1|]. split; [vm_compute; reflexivity|].
  exact (proj1 (session_cached_despite_failure refusing_world 0 demo_sender st "x.com"
                  {[ "host" := "smtp.x.com" ]} H1 H2 H3 H4)).
Defined.

(** X9.  When the construction of the SMTP session itself fails,
    [Email.build_sender] raises what the constructor raised and caches
    nothing: the cache and the identities are as before, so a later call
    tries the construction again. *)
Theorem failed_session_is_not_cached (w : World) (self : nat)
        (data : gmap string field) (st : State) (domain : string)
        (kw : gmap string string) (e : exn) :
  domain_of data = Some domain ->
  cached st self domain = None ->
  data !! "smtp" = Some (FDict kw) ->
  smtp_new w (trace st ++ [EvSmtpNew kw]) kw = Some e ->
  email.build_sender w self data st
  = (mkState (trace st ++ [EvSmtpNew kw]) (heap st) (next_id st), Raise e).
Proof.
  intros (address & Ha & Hd)%domain_of_Some Hc Hs Hn.
  rewrite (build_sender_miss_run w self data st address domain Ha Hd Hc).
  unfold subscript, email.SMTP. rewrite Hs.
  cbv beta iota delta [bind ret raise call fresh write_servers]. simpl.
  by rewrite Hn.
Qed.


Lemma failed_session_is_not_cached_witness :
  let st := mkState [] {[ 0 := ∅ ]} 1 in
  let kw : gmap string string := {[ "host" := "smtp.x.com" ]} in
  domain_of demo_sender = Some "x.com" /\
  email.build_sender unreachable_world 0 demo_sender st
  = (mkState [EvSmtpNew kw] {[ 0 := ∅ ]} 1, Raise (OtherError "ConnectionRefusedError")).
Proof.
  intros st kw.
  assert (domain_of demo_sender = Some "x.com") as H1 by (vm_compute; reflexivity).
  assert (cached st 0 "x.com" = None) as H2 by (vm_compute; reflexivity).
  assert (demo_sender !! "smtp" = Some (FDict kw)) as H3 by (vm_compute; reflexivity).
  assert (smtp_new unreachable_world (trace st ++ [EvSmtpNew kw]) kw
          = Some (OtherError "ConnectionRefusedError")) as H4 by reflexivity.
  split; [exact H1|].
  exact (failed_session_is_not_cached unreachable_world 0 demo_sender st "x.com" kw
           (OtherError "ConnectionRefusedError") H1 H2 H3 H4).
Defined.

(** What a successful call of [build_sender] without a cached session
    leaves behind. *)
Lemma build_sender_miss_returns (w : World) self data st st1 s domain :
  domain_of data = Some domain ->
  cached st self domain = None ->
  email.build_sender w self data st = (st1, Ok s) ->
  heap st1 = <[self := <[domain := next_id st]> (default ∅ (heap st !! self))]> (heap st) /\
  next_id st1 = S (next_id st) /\
  server_of s = Some (next_id st).
Proof.
  intros (address & Ha & Hd)%domain_of_Some Hc H.
  assert (exists kw, data !! "smtp" = Some (FDict kw) /\
                     smtp_new w (trace st ++ [EvSmtpNew kw]) kw = None)
    as (kw & Hs & Hn).
  { revert H. rewrite (build_sender_miss_run w self data st address domain Ha Hd Hc).
    unfold subscript, email.SMTP.
    destruct (data !! "smtp") as [[t|kw]|]; try done.
    cbv beta iota delta [bind ret raise call fresh write_servers]. simpl.
    destruct (smtp_new w _ kw) eqn:Hn; [done|]. intros _. by exists kw. }
  destruct (build_sender_miss_state w self data st address domain kw Ha Hd Hc Hs Hn)
    as (Hh & Hi & Hsv).
  rewrite H in Hh, Hi, Hsv. simpl in *. split; [done|]. split; [done|]. by apply Hsv.
Qed.

(** X10.  On one adapter, senders of two different domains, neither of
    which has a session yet, get two different sessions, and the cache
    then holds each under its domain. *)
Theorem distinct_domains_distinct_sessions (w : World) (self : nat)
        (data1 data2 : gmap string field) (st st1 st2 : State)
        (s1 s2 : ClientUser) (d1 d2 : string) :
  domain_of data1 = Some d1 ->
  domain_of data2 = Some d2 ->
  d1 <> d2 ->
  cached st self d1 = None ->
  cached st self d2 = None ->
  email.build_sender w self data1 st = (st1, Ok s1) ->
  email.build_sender w self data2 st1 = (st2, Ok s2) ->
  server_of s1 <> server_of s2 /\
  cached st2 self d1 = server_of s1 /\
  cached st2 self d2 = server_of s2.
Proof.
  intros Hd1 Hd2 Hne Hc1 Hc2 H1 H2.
  destruct (build_sender_miss_returns w self data1 st st1 s1 d1 Hd1 Hc1 H1)
    as (Hh1 & Hi1 & Hs1).
  assert (cached st1 self d2 = None) as Hc2'.
  { unfold cached in *. rewrite Hh1, lookup_insert_eq. simpl.
    by rewrite lookup_insert_ne. }
  destruct (build_sender_miss_returns w self data2 st1 st2 s2 d2 Hd2 Hc2' H2)
    as (Hh2 & Hi2 & Hs2).
  rewrite Hs1, Hs2, Hi1. split; [intros [=]; lia|].
  unfold cached. rewrite Hh2, lookup_insert_eq, Hh1, lookup_insert_eq, Hi1. simpl.
  split.
  - rewrite lookup_insert_ne by done. by rewrite lookup_insert_eq.
  - by rewrite lookup_insert_eq.
Qed.

Lemma distinct_domains_distinct_sessions_witness :
  let w := table_world demo_tables [] in
  let data2 : gmap string field :=
    {[ "address" := FStr "you@y.org"; "password" := FStr "other";
       "smtp" := FDict {[ "host" := "smtp.y.org" ]} ]} in
  let st := mkState [] {[ 0 := ∅ ]} 1 in
  let first := email.build_sender w 0 demo_sender st in
  let second := email.build_sender w 0 data2 first.1 in
  first = (first.1, Ok (EmailClientUser 1 "me@x.com" (FStr "secret"))) /\
  second = (second.1, Ok (EmailClientUser 2 "you@y.org" (FStr "other"))) /\
  cached second.1 0 "x.com" = Some 1 /\
  cached second.1 0 "y.org" = Some 2.
Proof.
  intros w data2 st first second.
  assert (domain_of demo_sender = Some "x.com") as Hd1 by (vm_compute; reflexivity).
  assert (domain_of data2 = Some "y.org") as Hd2 by (vm_compute; reflexivity).
  assert ("x.com" <> "y.org") as Hne by discriminate.
  assert (cached st 0 "x.com" = None) as Hc1 by (vm_compute; reflexivity).
  assert (cached st 0 "y.org" = None) as Hc2 by (vm_compute; reflexivity).
  assert (first = (first.1, Ok (EmailClientUser 1 "me@x.com" (FStr "secret")))) as H1
    by (vm_compute; reflexivity).
  assert (second = (second.1, Ok (EmailClientUser 2 "you@y.org" (FStr "other")))) as H2
    by (vm_compute; reflexivity).
  split; [exact H1|]. split; [exact H2|].
  exact (proj2 (distinct_domains_distinct_sessions w 0 demo_sender data2 st first.1
                  second.1 _ _ "x.com" "y.org" Hd1 Hd2 Hne Hc1 Hc2 H1 H2)).
Defined.

(** ** The key of the cache *)

Lemma split_without_separator sep s :
  occurs sep s = false -> split sep s = [s].
Proof.
  induction s as [|c s IH]; simpl; [done|].
  intros [Hc Hs]%orb_false_iff. rewrite Hc, IH; done.
Qed.

Lemma split_at_first_separator sep a b :
  occurs sep a = false ->
  split sep (a +:+ String sep b) = a :: split sep b.
Proof.
  induction a as [|c a IH]; simpl.
  - intros _. by rewrite Ascii.eqb_refl.
  - intros [Hc Hs]%orb_false_iff. rewrite Hc, IH; done.
Qed.

(** X11.  For a sender address made of a local part and a host joined
    by one at-sign, the key of the session cache is the host.  When the
    text after the first at-sign holds another at-sign, the key is only
    what stands between the two. *)
Theorem cache_key_is_host (data : gmap string field) (local rest : string) :
  data !! "address" = Some (FStr (local +:+ String "@" rest)) ->
  occurs "@" local = false ->
  domain_of data = head (split "@" rest) /\
  (occurs "@" rest = false -> domain_of data = Some rest) /\
  (forall host tail,
     rest = host +:+ String "@" tail -> occurs "@" host = false ->
     domain_of data = Some host).
Proof.
  intros Ha Hl. unfold domain_of. rewrite Ha, split_at_first_separator by done.
  change ((local :: split "@" rest) !! 1) with (split "@" rest !! 0).
  rewrite <- head_lookup. split; [done|split].
  - intros Hr. by rewrite split_without_separator.
  - intros host tail -> Hh. by rewrite split_at_first_separator.
Qed.

Lemma cache_key_is_host_witness :
  demo_sender !! "address" = Some (FStr ("me" +:+ String "@" "x.com")) /\
  occurs "@" "me" = false /\
  domain_of demo_sender = Some "x.com".
Proof.
  assert (demo_sender !! "address" = Some (FStr ("me" +:+ String "@" "x.com"))) as H1
    by (vm_compute; reflexivity).
  assert (occurs "@" "me" = false) as H2 by reflexivity.
  split; [exact H1|]. split; [exact H2|].
  destruct (cache_key_is_host demo_sender "me" "x.com" H1 H2) as (_ & H & _).
  exact (H eq_refl).
Defined.

(** ** Resources and dispatch in plain mode *)

Lemma build_recipient_returns (p : Platform) data st st1 u :
  platforms.build_recipient p data st = (st1, Ok u) ->
  st1 = st /\ u = user_of p (get_id u) /\ given_id p data = Some (get_id u).
Proof.
  destruct data as [s|d].
  - rewrite build_recipient_bare. intros [= <- <-].
    by rewrite get_id_user_of.
  - destruct p; unfold platforms.build_recipient, slack.build_recipient,
      email.build_recipient, slack.SlackUser_init, email.EmailUser_init, ret, raise,
      given_id, id_key;
      (destruct (d !! _) as [v|]; [|done]); (case_decide; [|done]);
      by intros [= <- <-].
Qed.

Lemma comprehension_build_recipient (p : Platform) recipients_data st st1 recipients :
  comprehension (platforms.build_recipient p) recipients_data st = (st1, Ok recipients) ->
  st1 = st /\
  Forall (fun u => u = user_of p (get_id u)) recipients /\
  map (fun u => Some (get_id u)) recipients = map (given_id p) recipients_data.
Proof.
  revert st1 recipients.
  induction recipients_data as [|d ds IH]; intros st1 recipients; simpl.
  - unfold ret. by intros [= <- <-].
  - unfold bind.
    destruct (platforms.build_recipient p d st) as [st2 [u|e]] eqn:E; [|done].
    apply build_recipient_returns in E as (-> & Hu & Hd).
    destruct (comprehension _ ds st) as [st3 [us|e]]; [|done].
    destruct (IH st3 us eq_refl) as (-> & Hus & Hm).
    unfold ret. intros [= <- <-]. split; [done|]. split.
    + by apply Forall_cons.
    + simpl. by rewrite Hd, Hm.
Qed.

Lemma build_sender_returns (w : World) (p : Platform) data st st1 s :
  platforms.build_sender w p data st = (st1, Ok s) -> sender_of_platform p s = true.
Proof.
  destruct p as [|self]; simpl.
  - unfold slack.build_sender, slack.SlackClientUser_init, ret, raise.
    repeat case_match; intros Hres; by simplify_eq.
  - intros H. by destruct (build_sender_fills_cache w self data st st1 s H)
      as (d & server & _ & _ & Hs), s.
Qed.

Lemma build_resources_aligned (w : World) platform_name sender_data recipients_data
      content0 st st1 (resources : basic.Resources) :
  basic.build_resources w platform_name sender_data recipients_data content0 st
  = (st1, Ok resources) ->
  Forall (fun r => same_platform (basic.res_sender resources) r = true)
         (basic.res_recipients resources) /\
  map (fun r => Some (get_id r)) (basic.res_recipients resources)
  = map (given_id (basic.res_platform resources)) recipients_data /\
  basic.res_content resources = content0.
Proof.
  unfold basic.build_resources, bind.
  destruct (platforms.platform_class platform_name) as [constructor|]; [|done].
  destruct (constructor st) as [st2 [p|e]]; [|done].
  destruct (platforms.build_sender w p sender_data st2) as [st3 [s|e]] eqn:Hs; [|done].
  apply build_sender_returns in Hs.
  destruct (comprehension _ recipients_data st3) as [st4 [rs|e]] eqn:Hr; [|done].
  apply comprehension_build_recipient in Hr as (-> & Hus & Hm).
  unfold ret. intros [= <- <-]. simpl. split; [|done].
  eapply Forall_impl; [exact Hus|]. intros u ->. by destruct p, s.
Qed.

(** X12.  The resources [basic.build_resources] returns belong to one
    platform, the one registered under the given name: the sender is a
    sender of it, every recipient is a user of it, and the recipients
    are, in order, the identifiers the recipient data give.  The content
    is the given one. *)
Theorem build_resources_consistent (w : World) (platform_name : string)
        (sender_data : gmap string field) (recipients_data : list rdata)
        (content0 : string) (st st1 : State) (resources : basic.Resources) :
  basic.build_resources w platform_name sender_data recipients_data content0 st
  = (st1, Ok resources) ->
  platforms.platform_name (basic.res_platform resources) = platform_name /\
  sender_of_platform (basic.res_platform resources) (basic.res_sender resources) = true /\
  Forall (fun r => same_platform (basic.res_sender resources) r = true)
         (basic.res_recipients resources) /\
  map (fun r => Some (get_id r)) (basic.res_recipients resources)
  = map (given_id (basic.res_platform resources)) recipients_data /\
  basic.res_content resources = content0.
Proof.
  unfold basic.build_resources, bind.
  destruct (platforms.platform_class platform_name) as [constructor|] eqn:Hc; [|done].
  destruct (constructor st) as [st2 [p|e]] eqn:Hp; [|done].
  assert (platforms.platform_name p = platform_name) as Hname.
  { revert Hc Hp. unfold platforms.platform_class.
    destruct (String.eqb platform_name "slack") eqn:E1.
    - apply String.eqb_eq in E1. intros [= <-]. unfold ret. by intros [= <- <-].
    - destruct (String.eqb platform_name "email") eqn:E2; [|done].
      apply String.eqb_eq in E2. intros [= <-].
      unfold email.Email_init, bind, fresh, write_servers, ret. simpl.
      by intros [= <- <-]. }
  destruct (platforms.build_sender w p sender_data st2) as [st3 [s|e]] eqn:Hs; [|done].
  apply build_sender_returns in Hs.
  destruct (comprehension _ recipients_data st3) as [st4 [rs|e]] eqn:Hr; [|done].
  apply comprehension_build_recipient in Hr as (-> & Hus & Hm).
  unfold ret. intros [= <- <-]. simpl.
  split; [done|]. split; [done|]. split; [|done].
  eapply Forall_impl; [exact Hus|]. intros u ->. by destruct p, s.
Qed.

Lemma build_resources_consistent_witness :
  let w := table_world demo_tables [] in
  let run := basic.build_resources w "email" demo_sender
               [RBare "a@x.com"; RDict {[ "address" := "b@x.com" ]}] "Hello"
               initial in
  let resources :=
    basic.mkResources (Email 0) (EmailClientUser 1 "me@x.com" (FStr "secret"))
      [EmailUser "a@x.com"; EmailUser "b@x.com"] "Hello" in
  run = (run.1, Ok resources) /\
  map (fun r => Some (get_id r)) (basic.res_recipients resources)
  = map (given_id (basic.res_platform resources))
      [RBare "a@x.com"; RDict {[ "address" := "b@x.com" ]}].
Proof.
  intros w run resources.
  assert (run = (run.1, Ok resources)) as H by (vm_compute; reflexivity).
  split; [exact H|].
  destruct (build_resources_consistent w "email" demo_sender
              [RBare "a@x.com"; RDict {[ "address" := "b@x.com" ]}] "Hello"
              initial run.1 resources H) as (_ & _ & _ & Hm & _).
  exact Hm.
Defined.

Lemma send_message_trace (w : World) (m : Message) st :
  basic.send_message w m st
  = (mkState (trace st ++ send_events w (trace st) m) (heap st) (next_id st), Ok tt).
Proof.
  unfold basic.send_message, basic.Message_send, platforms.send_message, send_events,
    transport_call, send_answer, log_line, try_except, bind, emit, call, raise.
  destruct (sender m), (recipient m); simpl; rewrite <- ?app_assoc; simpl;
    repeat match goal with
           | |- context [outcome_of ?o] => destruct o; simpl
           end;
    by rewrite <- ?app_assoc.
Qed.

(** X13.  [send_message] on a message whose recipient is of the sender's
    platform records the call of [Message.send], makes one transport
    call, and logs one line: the message as sent when the transport
    returned, the failure with its exception when it raised.  For a
    recipient of another platform it makes no transport call and logs the
    [AttributeError].  In both cases it returns, and neither the cache
    nor the identities change. *)
Theorem send_message_logs_the_answer (w : World) (m : Message) (st : State) :
  basic.send_message w m st
  = (mkState (trace st ++ send_events w (trace st) m) (heap st) (next_id st), Ok tt) /\
  (same_platform (sender m) (recipient m) = true ->
   exists t,
     transport_call m = Some t /\ is_transport t = true /\
     send_events w (trace st) m
     = [EvSend m; t;
        EvLog (log_line m (send_answer w (trace st ++ [EvSend m; t]) m))]) /\
  (same_platform (sender m) (recipient m) = false ->
   exists attr,
     send_events w (trace st) m
     = [EvSend m; EvLog (LogSendFailed (get_id (recipient m)) (AttributeError attr))]).
Proof.
  split; [apply send_message_trace|]. split.
  - unfold send_events, transport_call, send_answer.
    destruct (sender m), (recipient m); simpl; try done; intros _; eauto.
  - unfold send_events, transport_call, send_answer, log_line.
    destruct (sender m), (recipient m); simpl; try done; intros _; eauto.
Qed.

Lemma send_message_logs_the_answer_witness :
  let w := table_world demo_tables ["b@x.com"] in
  let m := mkMessage (EmailClientUser 1 "me@x.com" (FStr "secret"))
             (EmailUser "b@x.com") "Hello" in
  same_platform (sender m) (recipient m) = true /\
  send_events w [] m
  = [EvSend m; EvSendmail 1 "me@x.com" "b@x.com" "Hello";
     EvLog (LogSendFailed "b@x.com" (OtherError "SMTPRecipientsRefused"))].
Proof.
  intros w m.
  assert (same_platform (sender m) (recipient m) = true) as H by reflexivity.
  split; [exact H|].
  destruct (send_message_logs_the_answer w m initial) as (_ & Hs & _).
  destruct (Hs H) as (t & Ht & _ & He).
  injection Ht as <-. exact He.
Defined.

Lemma dispatch_trace (w : World) (ms : list Message) st :
  for_each (basic.send_message w) ms st
  = (mkState (trace st ++ dispatch_events w (trace st) ms) (heap st) (next_id st), Ok tt).
Proof.
  revert st. induction ms as [|m ms IH]; intros st; simpl.
  - unfold ret. rewrite app_nil_r. by destruct st.
  - unfold bind. rewrite send_message_trace, IH.
    cbn [trace heap next_id]. by rewrite <- app_assoc.
Qed.

Lemma transport_call_is_transport m t : transport_call m = Some t -> is_transport t = true.
Proof.
  unfold transport_call. destruct (sender m), (recipient m); by intros [= <-].
Qed.

Lemma send_events_logs (w : World) tr m :
  logs (send_events w tr m) = [log_line m (send_answer w
          (tr ++ EvSend m :: match transport_call m with Some t => [t] | None => [] end)
          m)].
Proof.
  unfold send_events, logs. rewrite omap_app. simpl.
  destruct (transport_call m) as [t|] eqn:E; [|done].
  apply transport_call_is_transport in E. by destruct t.
Qed.

Lemma send_events_transport (w : World) tr m :
  same_platform (sender m) (recipient m) = true ->
  length (List.filter is_transport (send_events w tr m)) = 1.
Proof.
  unfold send_events, transport_call, same_platform.
  by destruct (sender m), (recipient m).
Qed.

Lemma dispatch_events_transport (w : World) tr ms :
  Forall (fun m => same_platform (sender m) (recipient m) = true) ms ->
  length (List.filter is_transport (dispatch_events w tr ms)) = length ms.
Proof.
  revert tr. induction ms as [|m ms IH]; intros tr; cbn [dispatch_events length map]; [done|].
  intros [Hm Hms]%Forall_cons.
  by rewrite List.filter_app, length_app, send_events_transport, IH.
Qed.

Lemma dispatch_events_logs (w : World) tr ms :
  omap logged_id (logs (dispatch_events w tr ms))
  = map (fun m => get_id (recipient m)) ms.
Proof.
  revert tr. induction ms as [|m ms IH]; intros tr; cbn [dispatch_events length map]; [done|].
  unfold logs in *. rewrite omap_app, omap_app. fold (logs (send_events w tr m)).
  rewrite send_events_logs, IH. simpl.
  by destruct (send_answer w _ m).
Qed.

(** X14.  The dispatch loop on any list of messages returns, keeps cache
    and identities, and logs exactly one line per message, in the order
    of the list, each naming the recipient of its message.  When every
    message has a recipient of its sender's platform, the loop makes
    exactly one transport call per message. *)
Theorem dispatch_logs_one_line_per_message (w : World) (ms : list Message) (st : State) :
  for_each (basic.send_message w) ms st
  = (mkState (trace st ++ dispatch_events w (trace st) ms) (heap st) (next_id st), Ok tt) /\
  omap logged_id (logs (dispatch_events w (trace st) ms))
  = map (fun m => get_id (recipient m)) ms /\
  length (logs (dispatch_events w (trace st) ms)) = length ms /\
  (Forall (fun m => same_platform (sender m) (recipient m) = true) ms ->
   length (List.filter is_transport (dispatch_events w (trace st) ms)) = length ms).
Proof.
  split; [apply dispatch_trace|]. split; [apply dispatch_events_logs|].
  split; [|apply dispatch_events_transport].
  generalize (trace st) as tr.
  induction ms as [|m ms IH]; intros tr; cbn [dispatch_events length map]; [done|].
  unfold logs in *. rewrite omap_app, length_app. fold (logs (send_events w tr m)).
  by rewrite send_events_logs, IH.
Qed.

Lemma dispatch_logs_one_line_per_message_witness :
  let w := table_world demo_tables ["b@x.com"] in
  let s := EmailClientUser 1 "me@x.com" (FStr "secret") in
  let ms := [mkMessage s (EmailUser "a@x.com") "Hello";
             mkMessage s (EmailUser "b@x.com") "Hello"] in
  Forall (fun m => same_platform (sender m) (recipient m) = true) ms /\
  length (List.filter is_transport (dispatch_events w [] ms)) = 2 /\
  logs (dispatch_events w [] ms)
  = [LogSent "a@x.com" "Hello";
     LogSendFailed "b@x.com" (OtherError "SMTPRecipientsRefused")].
Proof.
  intros w s ms.
  assert (Forall (fun m => same_platform (sender m) (recipient m) = true) ms) as H
    by (repeat constructor).
  split; [exact H|]. split.
  - destruct (dispatch_logs_one_line_per_message w ms initial) as (_ & _ & _ & Ht).
    exact (Ht H).
  - vm_compute; reflexivity.
Defined.

Lemma omap_unchanged {A B} (f : event -> option B) (P : event -> bool) (m : M A) st :
  emits_only P m -> (forall ev, P ev = true -> f ev = None) ->
  omap f (trace (m st).1) = omap f (trace st).
Proof.
  intros H Hf. destruct (H st) as (evs & -> & F).
  rewrite omap_app.
  assert (omap f evs = []) as ->; [|by rewrite app_nil_r].
  clear -F Hf. induction evs as [|ev evs IH]; [done|].
  simpl in F. apply andb_true_iff in F as [F1 F2].
  change (omap f (ev :: evs))
    with (match f ev with Some y => y :: omap f evs | None => omap f evs end).
  rewrite (Hf ev F1). exact (IH F2).
Qed.

(** X15.  A plain broadcast whose resources can be built reaches every
    recipient datum once: it returns, and to what was there before it adds
    one send attempt per datum, in the order of the data, with the given
    content and for the identifier the datum gives, one transport call
    per datum and one log line per datum. *)
Theorem plain_broadcast_reaches_every_recipient (w : World) (platform_name : string)
        (sender_data : gmap string field) (recipients_data : list rdata)
        (content0 : string) (st st1 : State) (resources : basic.Resources) :
  basic.build_resources w platform_name sender_data recipients_data content0 st
  = (st1, Ok resources) ->
  let run := basic.send_to_all w platform_name sender_data recipients_data content0 st in
  run.2 = Ok tt /\
  (exists ms,
     attempts (trace run.1) = attempts (trace st) ++ ms /\
     map (fun m => Some (get_id (recipient m))) ms
     = map (given_id (basic.res_platform resources)) recipients_data /\
     Forall (fun m => content m = content0 /\ sender m = basic.res_sender resources) ms) /\
  length (List.filter is_transport (trace run.1))
  = length (List.filter is_transport (trace st)) + length recipients_data /\
  length (logs (trace run.1)) = length (logs (trace st)) + length recipients_data.
Proof.
  intros H run.
  pose proof (build_resources_aligned w platform_name sender_data recipients_data
                content0 st st1 resources H) as (Hsame & Hids & Hcontent).
  assert (List.filter is_transport (trace st1) = List.filter is_transport (trace st))
    as Ht.
  { pose proof (emits_only_filter is_transport
                  (basic.build_resources w platform_name sender_data recipients_data
                     content0) st) as Ht.
    rewrite H in Ht. apply Ht. by apply basic_build_resources_emits. }
  assert (logs (trace st1) = logs (trace st)) as Hl.
  { pose proof (omap_unchanged
                  (fun ev => match ev with EvLog l => Some l | _ => None end)
                  (fun ev => negb (is_log ev))
                  (basic.build_resources w platform_name sender_data recipients_data
                     content0) st) as Hl.
    rewrite H in Hl. apply Hl; [by apply basic_build_resources_emits|]. by intros []. }
  assert (attempts (trace st1) = attempts (trace st)) as Ha.
  { pose proof (attempts_unchanged
                  (basic.build_resources w platform_name sender_data recipients_data
                     content0) st) as Ha.
    rewrite H in Ha. apply Ha. by apply basic_build_resources_emits. }
  rewrite <- Ht, <- Hl, <- Ha. clear Ht Hl Ha.
  unfold run, basic.send_to_all, basic._send_to_all, bind. rewrite H, dispatch_trace.
  cbn [fst snd trace]. rewrite Hcontent.
  set (ms := basic.build_messages (basic.res_sender resources)
               (basic.res_recipients resources) content0).
  destruct (plain_messages_shape (basic.res_sender resources)
              (basic.res_recipients resources) content0) as (Hlen & Hmap).
  fold ms in Hlen, Hmap.
  assert (length ms = length recipients_data) as Hn.
  { rewrite Hlen. apply (f_equal length) in Hids. by rewrite !length_map in Hids. }
  assert (Forall (fun m => content m = content0 /\ sender m = basic.res_sender resources) ms)
    as Hshape.
  { unfold ms, basic.build_messages. apply Forall_forall. intros m Hm.
    apply list_elem_of_In, in_map_iff in Hm. by destruct Hm as (r & <- & _). }
  assert (Forall (fun m => same_platform (sender m) (recipient m) = true) ms) as Hms.
  { unfold ms, basic.build_messages. apply Forall_forall. intros m Hm.
    apply list_elem_of_In, in_map_iff in Hm. destruct Hm as (r & <- & Hr). simpl.
    rewrite Forall_forall in Hsame. apply Hsame. by apply list_elem_of_In. }
  split; [done|]. split; [|split].
  - exists ms. split; [|split; [|done]].
    + rewrite attempts_app. f_equal.
      clear. generalize (trace st1) as tr.
      induction ms as [|m ms IH]; intros tr; cbn [dispatch_events]; [done|].
      rewrite attempts_app, IH. unfold send_events.
      rewrite attempts_app. simpl.
      destruct (transport_call m) as [t|] eqn:E; [|done].
      apply transport_call_is_transport in E. by destruct t.
    + rewrite <- Hids, <- Hmap. by rewrite !map_map.
  - by rewrite List.filter_app, length_app, dispatch_events_transport, Hn.
  - unfold logs at 1. rewrite omap_app, length_app. fold (logs (trace st1)).
    f_equal. rewrite <- Hn. clear. generalize (trace st1) as tr.
    induction ms as [|m ms IH]; intros tr; cbn [dispatch_events length]; [done|].
    rewrite omap_app, length_app. fold (logs (send_events w tr m)).
    by rewrite send_events_logs, IH.
Qed.

Lemma plain_broadcast_reaches_every_recipient_witness :
  let w := table_world demo_tables ["b@x.com"] in
  let data := [RBare "a@x.com"; RDict {[ "address" := "b@x.com" ]}] in
  let built := basic.build_resources w "email" demo_sender data "Hello" initial in
  let resources :=
    basic.mkResources (Email 0) (EmailClientUser 1 "me@x.com" (FStr "secret"))
      [EmailUser "a@x.com"; EmailUser "b@x.com"] "Hello" in
  let run := basic.send_to_all w "email" demo_sender data "Hello" initial in
  built = (built.1, Ok resources) /\
  run.2 = Ok tt /\
  length (List.filter is_transport (trace run.1)) = 2 /\
  length (logs (trace run.1)) = 2.
Proof.
  intros w data built resources run.
  assert (built = (built.1, Ok resources)) as H by (vm_compute; reflexivity).
  split; [exact H|].
  destruct (plain_broadcast_reaches_every_recipient w "email" demo_sender data "Hello"
              initial built.1 resources H) as (H1 & _ & H2 & H3).
  split; [exact H1|]. split; [exact H2 | exact H3].
Defined.

(** ** More on the contact directory *)

Lemma get_unrecognized_run (db : contact_db.ContactDB) platform usernames st :
  contact_db.get_unrecognized db platform usernames st
  = match usernames, select_usernames (contact_db.cursor db) platform with
    | [], _ => (st, Ok [])
    | _ :: _, Raise e =>
        (mkState (trace st ++ [EvSelectUsernames platform]) (heap st) (next_id st),
         Raise e)
    | _ :: _, Ok known =>
        (mkState (trace st ++ replicate (length usernames) (EvSelectUsernames platform))
                 (heap st) (next_id st),
         Ok (filter (fun u => u ∉ known) usernames))
    end.
Proof.
  revert st. induction usernames as [|u us IH]; intros st; [done|].
  cbn [contact_db.get_unrecognized].
  unfold bind, contact_db.get_usernames, call. cbn [trace heap next_id].
  destruct (select_usernames (contact_db.cursor db) platform) as [known|e] eqn:Hq;
    [|done].
  rewrite IH. destruct us as [|u' us].
  - unfold ret. cbn [length replicate]. rewrite filter_cons, filter_nil.
    by case_bool_decide; case_decide.
  - cbn [trace heap next_id]. unfold ret. cbn [length replicate].
    rewrite <- app_assoc. cbn [app].
    rewrite (filter_cons _ u). by case_bool_decide; case_decide.
Qed.

(** X16.  [get_unrecognized] queries the directory once for every
    username it tests and changes nothing else: an empty list is answered
    with the empty list and no query at all; when the query raises, the
    exception is raised after the first query. *)
Theorem get_unrecognized_queries_per_username (db : contact_db.ContactDB)
        (platform : string) (st : State) :
  contact_db.get_unrecognized db platform [] st = (st, Ok []) /\
  (forall usernames known,
     select_usernames (contact_db.cursor db) platform = Ok known ->
     contact_db.get_unrecognized db platform usernames st
     = (mkState (trace st ++ replicate (length usernames) (EvSelectUsernames platform))
                (heap st) (next_id st),
        Ok (filter (fun u => u ∉ known) usernames))) /\
  (forall username usernames e,
     select_usernames (contact_db.cursor db) platform = Raise e ->
     contact_db.get_unrecognized db platform (username :: usernames) st
     = (mkState (trace st ++ [EvSelectUsernames platform]) (heap st) (next_id st),
        Raise e)).
Proof.
  split; [done|]. split.
  - intros usernames known H. rewrite get_unrecognized_run, H.
    destruct usernames; [|done]. simpl. rewrite app_nil_r. by destruct st.
  - intros username usernames e H. by rewrite get_unrecognized_run, H.
Qed.

Lemma filter_unknown_idempotent (known usernames : list string) :
  filter (fun u => u ∉ known) (filter (fun u => u ∉ known) usernames)
  = filter (fun u => u ∉ known) usernames.
Proof.
  induction usernames as [|u us IH]; [done|].
  rewrite filter_cons. case_decide; [|done].
  rewrite filter_cons. case_decide; [|done]. by rewrite IH.
Qed.

(** X17.  When the directory answers, the result of [get_unrecognized]
    is empty exactly when every given username is known, every known
    username is dropped, and filtering the result once more returns it
    unchanged. *)
Theorem get_unrecognized_idempotent (db : contact_db.ContactDB) (platform : string)
        (usernames known : list string) (st : State) :
  (contact_db.get_usernames db platform st).2 = Ok known ->
  exists unrecognized,
    (contact_db.get_unrecognized db platform usernames st).2 = Ok unrecognized /\
    (unrecognized = [] <-> Forall (fun u => u ∈ known) usernames) /\
    (forall st1, (contact_db.get_unrecognized db platform unrecognized st1).2
                 = Ok unrecognized) /\
    (forall st1, (contact_db.get_unrecognized db platform known st1).2 = Ok []).
Proof.
  rewrite get_usernames_result. intros H.
  assert (forall us st0, (contact_db.get_unrecognized db platform us st0).2
                         = Ok (filter (fun u => u ∉ known) us)) as Hres.
  { intros us st0. rewrite get_unrecognized_run, H. by destruct us. }
  exists (filter (fun u => u ∉ known) usernames).
  split; [apply Hres|]. split; [|split].
  - rewrite Forall_forall. split.
    + intros Hnil u Hu. destruct (decide (u ∈ known)) as [|Hn]; [done|].
      assert (u ∈ filter (fun u => u ∉ known) usernames) as Hin
        by (by apply list_elem_of_filter).
      rewrite Hnil in Hin. by apply not_elem_of_nil in Hin.
    + intros Hall. induction usernames as [|u us IH]; [done|].
      rewrite filter_cons. case_decide as Hu.
      * exfalso. apply Hu, Hall. by left.
      * apply IH. intros v Hv. apply Hall. by right.
  - intros st1. by rewrite Hres, filter_unknown_idempotent.
  - intros st1. rewrite Hres. clear.
    assert (forall l, (forall u, u ∈ l -> u ∈ known) ->
                      filter (fun u => u ∉ known) l = []) as Hl.
    { induction l as [|u l IH]; intros Hin; [done|].
      rewrite filter_cons. case_decide as Hu.
      - exfalso. apply Hu, Hin. by left.
      - apply IH. intros v Hv. apply Hin. by right. }
    by rewrite Hl.
Qed.

Lemma get_unrecognized_idempotent_witness :
  let db := contact_db.mkContactDB (table_cursor demo_tables) in
  (contact_db.get_usernames db "email" initial).2 = Ok ["a@x.com"; "b@x.com"] /\
  exists unrecognized,
    (contact_db.get_unrecognized db "email" ["zz@x.com"; "b@x.com"] initial).2
    = Ok unrecognized /\
    (unrecognized = [] <->
     Forall (fun u => u ∈ ["a@x.com"; "b@x.com"]) ["zz@x.com"; "b@x.com"]).
Proof.
  intros db.
  assert ((contact_db.get_usernames db "email" initial).2 = Ok ["a@x.com"; "b@x.com"])
    as H by (vm_compute; reflexivity).
  split; [exact H|].
  destruct (get_unrecognized_idempotent db "email" ["zz@x.com"; "b@x.com"]
              ["a@x.com"; "b@x.com"] initial H) as (unrecognized & H1 & H2 & _).
  exists unrecognized. split; [exact H1 | exact H2].
Defined.

(** ** More on the template resolver *)

Section ResolverRuns.
Context (w : World) {Data : Type}.
Context (platform_name : string) (templating_data : Data)
        (db : contact_db.ContactDB) (template_input_builder : Z -> Data -> pyval).

Local Abbreviation outcome :=
  (verdict w platform_name templating_data db template_input_builder).
Local Abbreviation outcomes :=
  (verdicts w platform_name templating_data db template_input_builder).
Local Abbreviation loop :=
  (templated.build_messages_loop w platform_name templating_data db
     template_input_builder).

(** One iteration: its events do not depend on the state, its result is
    the verdict. *)
Lemma build_message_run message st :
  templated.build_message w platform_name templating_data db template_input_builder
    message st
  = (mkState (trace st ++ resolve_events db platform_name (recipient message))
             (heap st) (next_id st),
     outcome message).
Proof.
  unfold templated.build_message, templated.lookup_or_skip, contact_db.get_contact,
    resolve_events, not_found, verdict, try_except, bind, call, ret, raise, emit.
  cbn [trace heap next_id].
  destruct (select_c_id _ _ _) as [user|[]]; cbn [trace heap next_id];
    rewrite <- ?app_assoc; try done.
  destruct (template_input_builder user templating_data); try done;
    rewrite fill_filled; by destruct (filled _ _ _).
Qed.

(** The loop when every iteration returns. *)
Lemma build_messages_loop_run unfilled built messages st :
  outcomes unfilled = Ok built ->
  loop unfilled messages st
  = (mkState (trace st
              ++ flat_map (fun m => resolve_events db platform_name (recipient m)) unfilled)
             (heap st) (next_id st),
     Ok (messages ++ built)).
Proof.
  revert built messages st.
  induction unfilled as [|m ms IH]; intros built messages st.
  - intros [= <-]. cbn. unfold ret. rewrite !app_nil_r. by destruct st.
  - cbn [verdicts templated.build_messages_loop flat_map].
    destruct (outcome m) as [o|e] eqn:Hm; [|done].
    destruct (outcomes ms) as [out|e] eqn:Hms; [|done].
    intros [= <-]. unfold bind. rewrite build_message_run, Hm.
    rewrite (IH out _ _ eq_refl). cbn [trace heap next_id].
    destruct o; by rewrite <- !app_assoc.
Qed.

(** The loop stops at the first iteration that raises. *)
Lemma build_messages_loop_stops ms1 m ms2 e messages st :
  outcome m = Raise e ->
  loop (ms1 ++ m :: ms2) messages st = loop (ms1 ++ [m]) messages st.
Proof.
  intros Hm. rewrite !build_messages_loop_app.
  destruct (loop ms1 messages st) as [st1 [messages1|e1]]; [|done].
  cbn [templated.build_messages_loop]. unfold bind.
  by rewrite build_message_run, Hm.
Qed.

Lemma verdict_content message m :
  outcome message = Ok (Some m) ->
  exists user args,
    select_c_id (contact_db.cursor db) platform_name (get_id (recipient message)) = Ok user /\
    unpack (template_input_builder user templating_data) = Ok args /\
    str_format w (content message) args = Ok (content m).
Proof.
  unfold verdict.
  destruct (select_c_id _ _ _) as [user|[]]; try done.
  destruct (template_input_builder user templating_data) as [|n|s|items|items|items] eqn:Hb;
    try done; unfold filled; cbn [unpack];
    match goal with
    | |- context [str_format w ?t ?a] =>
        destruct (str_format w t a) as [body|[]] eqn:Hf; try done;
        intros [= <-]; exists user, a; by rewrite Hb
    end.
Qed.

Lemma verdicts_content content0 unfilled built :
  Forall (fun m => content m = content0) unfilled ->
  outcomes unfilled = Ok built ->
  Forall (fun m =>
            exists user args,
              select_c_id (contact_db.cursor db) platform_name (get_id (recipient m))
              = Ok user /\
              unpack (template_input_builder user templating_data) = Ok args /\
              str_format w content0 args = Ok (content m)) built.
Proof.
  revert built. induction unfilled as [|m ms IH]; intros built Hc.
  - by intros [= <-].
  - apply Forall_cons in Hc as [Hm Hms]. cbn [verdicts].
    destruct (outcome m) as [o|e] eqn:Ho; [|done].
    destruct (outcomes ms) as [out|e]; [|done].
    intros [= <-]. specialize (IH out Hms eq_refl).
    destruct o as [m'|]; [|done]. apply Forall_cons. split; [|done].
    pose proof (verdict_cases _ _ _ _ _ _ _ Ho) as (_ & Hr & _).
    destruct (verdict_content m m' Ho) as (user & args & H1 & H2 & H3).
    exists user, args. by rewrite Hr, <- Hm.
Qed.

End ResolverRuns.

Lemma unfilled_content sender0 recipients content0 :
  Forall (fun m => content m = content0)
         (basic.build_messages sender0 recipients content0).
Proof.
  unfold basic.build_messages. apply Forall_forall. intros m Hm.
  apply list_elem_of_In, in_map_iff in Hm. by destruct Hm as (r & <- & _).
Qed.

Lemma templated_result_verdicts (w : World) {Data : Type} platform sender0 recipients
      content0 (templating_data : Data) db template_input_builder st messages :
  (templated.build_messages w platform sender0 recipients content0 templating_data db
     template_input_builder st).2 = Ok messages ->
  verdicts w (platforms.platform_name platform) templating_data db template_input_builder
    (basic.build_messages sender0 recipients content0) = Ok messages.
Proof.
  unfold templated.build_messages. rewrite build_messages_loop_verdicts.
  destruct (verdicts _ _ _ _ _ _) as [built|e]; [|done]. simpl. by intros [= <-].
Qed.

(** X18.  Every message templated [build_messages] returns carries the
    template filled for its own recipient: the directory has a contact
    for the identifier of the recipient, the builder's value for that
    contact unpacks to arguments, and the content of the message is
    [str.format] of the given template on these arguments.  The
    rebinding of [content] inside the loop never reaches a later
    message. *)
Theorem built_messages_are_filled_templates (w : World) {Data : Type}
        (platform : Platform) (sender0 : ClientUser) (recipients : list User)
        (content0 : string) (templating_data : Data) (db : contact_db.ContactDB)
        (template_input_builder : Z -> Data -> pyval) (st : State)
        (messages : list Message) :
  (templated.build_messages w platform sender0 recipients content0 templating_data db
     template_input_builder st).2 = Ok messages ->
  Forall (fun m =>
            exists user args,
              (contact_db.get_contact db (platforms.platform_name platform)
                 (get_id (recipient m)) st).2 = Ok user /\
              unpack (template_input_builder user templating_data) = Ok args /\
              str_format w content0 args = Ok (content m)) messages.
Proof.
  intros H. apply templated_result_verdicts in H.
  apply (verdicts_content w _ _ _ _ content0) in H; [done|].
  apply unfilled_content.
Qed.

Lemma built_messages_are_filled_templates_witness :
  let w := table_world demo_tables [] in
  let db := contact_db.mkContactDB (table_cursor demo_tables) in
  let sender0 := EmailClientUser 1 "me@x.com" (FStr "secret") in
  let messages := [mkMessage sender0 (EmailUser "b@x.com") "Hi Bob"] in
  (templated.build_messages w (Email 0) sender0 [EmailUser "zz@x.com"; EmailUser "b@x.com"]
     "Hi {0}" tt db names_of initial).2 = Ok messages /\
  Forall (fun m =>
            exists user args,
              (contact_db.get_contact db "email" (get_id (recipient m)) initial).2
              = Ok user /\
              unpack (names_of user tt) = Ok args /\
              format.format_positional "Hi {0}" args = Ok (content m)) messages.
Proof.
  intros w db sender0 messages.
  assert ((templated.build_messages w (Email 0) sender0
             [EmailUser "zz@x.com"; EmailUser "b@x.com"] "Hi {0}" tt db names_of
             initial).2 = Ok messages) as H by (vm_compute; reflexivity).
  split; [exact H|].
  exact (built_messages_are_filled_templates w (Email 0) sender0
           [EmailUser "zz@x.com"; EmailUser "b@x.com"] "Hi {0}" tt db names_of initial
           messages H).
Defined.

Lemma resolve_events_lookups (db : contact_db.ContactDB) platform_name recipients :
  contact_lookups (flat_map (resolve_events db platform_name) recipients)
  = map get_id recipients.
Proof.
  induction recipients as [|r rs IH]; [done|].
  cbn [flat_map map]. unfold contact_lookups in *. rewrite omap_app, IH.
  unfold resolve_events. by destruct (not_found db platform_name r).
Qed.

Lemma resolve_events_skips (db : contact_db.ContactDB) platform_name recipients :
  omap skipped_id (logs (flat_map (resolve_events db platform_name) recipients))
  = map get_id (List.filter (not_found db platform_name) recipients).
Proof.
  induction recipients as [|r rs IH]; [done|].
  cbn [flat_map List.filter]. unfold logs in *. rewrite omap_app, omap_app, IH.
  unfold resolve_events. by destruct (not_found db platform_name r).
Qed.

(** X19.  When templated [build_messages] returns, all it has done
    besides computing the messages is to look up the contact of every
    recipient once, in the order of the list, and to log one skip line
    right after the lookup of each recipient the directory does not
    know; a recipient without data leaves no line.  Cache and identities
    are untouched. *)
Theorem build_messages_looks_up_each_recipient_once (w : World) {Data : Type}
        (platform : Platform) (sender0 : ClientUser) (recipients : list User)
        (content0 : string) (templating_data : Data) (db : contact_db.ContactDB)
        (template_input_builder : Z -> Data -> pyval) (st : State)
        (messages : list Message) :
  (templated.build_messages w platform sender0 recipients content0 templating_data db
     template_input_builder st).2 = Ok messages ->
  let added := flat_map (resolve_events db (platforms.platform_name platform)) recipients in
  templated.build_messages w platform sender0 recipients content0 templating_data db
    template_input_builder st
  = (mkState (trace st ++ added) (heap st) (next_id st), Ok messages) /\
  contact_lookups added = map get_id recipients /\
  omap skipped_id (logs added)
  = map get_id (List.filter (not_found db (platforms.platform_name platform)) recipients).
Proof.
  intros H added. split; [|split].
  - apply templated_result_verdicts in H. unfold templated.build_messages.
    rewrite (build_messages_loop_run w _ _ _ _ _ messages [] st H).
    unfold added, basic.build_messages.
    assert (forall rs,
              flat_map (fun m => resolve_events db (platforms.platform_name platform)
                                   (recipient m))
                       (map (fun r => mkMessage sender0 r content0) rs)
              = flat_map (resolve_events db (platforms.platform_name platform)) rs) as ->.
    { induction rs as [|r rs IH]; [done|]. cbn [map flat_map recipient]. by rewrite IH. }
    done.
  - apply resolve_events_lookups.
  - apply resolve_events_skips.
Qed.

Lemma build_messages_looks_up_each_recipient_once_witness :
  let w := table_world demo_tables [] in
  let db := contact_db.mkContactDB (table_cursor demo_tables) in
  let sender0 := EmailClientUser 1 "me@x.com" (FStr "secret") in
  let recipients := [EmailUser "zz@x.com"; EmailUser "b@x.com"] in
  let messages := [mkMessage sender0 (EmailUser "b@x.com") "Hi Bob"] in
  (templated.build_messages w (Email 0) sender0 recipients "Hi {0}" tt db names_of
     initial).2 = Ok messages /\
  templated.build_messages w (Email 0) sender0 recipients "Hi {0}" tt db names_of initial
  = (mkState [EvSelectContact "email" "zz@x.com"; EvLog (LogSkipped "zz@x.com");
              EvSelectContact "email" "b@x.com"] ∅ 0,
     Ok messages).
Proof.
  intros w db sender0 recipients messages.
  assert ((templated.build_messages w (Email 0) sender0 recipients "Hi {0}" tt db names_of
             initial).2 = Ok messages) as H by (vm_compute; reflexivity).
  split; [exact H|].
  exact (proj1 (build_messages_looks_up_each_recipient_once w (Email 0) sender0 recipients
                  "Hi {0}" tt db names_of initial messages H)).
Defined.

(** X20.  The loop of templated [build_messages] stops at the first
    recipient that makes it raise: when the batch of a recipient alone
    raises, a batch that contains it does what the batch cut after that
    recipient does, whatever follows.  No contact of a later recipient is
    looked up. *)
Theorem abort_is_immediate (w : World) {Data : Type}
        (platform : Platform) (sender0 : ClientUser) (content0 : string)
        (templating_data : Data) (db : contact_db.ContactDB)
        (template_input_builder : Z -> Data -> pyval) (r : User) (st0 : State) (e : exn) :
  (templated.build_messages w platform sender0 [r] content0 templating_data db
     template_input_builder st0).2 = Raise e ->
  forall before after st,
    templated.build_messages w platform sender0 (before ++ r :: after) content0
      templating_data db template_input_builder st
    = templated.build_messages w platform sender0 (before ++ [r]) content0
        templating_data db template_input_builder st.
Proof.
  unfold templated.build_messages at 1. rewrite build_messages_loop_verdicts.
  cbn [basic.build_messages map verdicts].
  destruct (verdict _ _ _ _ _ (mkMessage sender0 r content0)) as [o|e'] eqn:Hv; [done|].
  intros _ before after st. unfold templated.build_messages, basic.build_messages.
  rewrite !map_app. cbn [map].
  by apply (build_messages_loop_stops w _ _ _ _ _ _ _ e').
Qed.

Lemma abort_is_immediate_witness :
  let w := table_world demo_tables [] in
  let db := contact_db.mkContactDB (table_cursor demo_tables) in
  let sender0 := EmailClientUser 1 "me@x.com" (FStr "secret") in
  let builder := fun (c_id : Z) (_ : unit) =>
                   if (c_id =? 1)%Z then PInt 7 else PTuple [AStr "Bob"] in
  (templated.build_messages w (Email 0) sender0 [EmailUser "a@x.com"] "Hi {0}" tt db
     builder initial).2
  = Raise (TypeError "Output of template_input_builder must be a tuple.") /\
  templated.build_messages w (Email 0) sender0
    ([EmailUser "b@x.com"] ++ EmailUser "a@x.com" :: [EmailUser "zz@x.com"])
    "Hi {0}" tt db builder initial
  = templated.build_messages w (Email 0) sender0
      ([EmailUser "b@x.com"] ++ [EmailUser "a@x.com"]) "Hi {0}" tt db builder initial.
Proof.
  intros w db sender0 builder.
  assert ((templated.build_messages w (Email 0) sender0 [EmailUser "a@x.com"] "Hi {0}" tt
             db builder initial).2
          = Raise (TypeError "Output of template_input_builder must be a tuple.")) as H
    by (vm_compute; reflexivity).
  split; [exact H|].
  exact (abort_is_immediate w (Email 0) sender0 "Hi {0}" tt db builder (EmailUser "a@x.com")
           initial _ H [EmailUser "b@x.com"] [EmailUser "zz@x.com"] initial).
Defined.

(** X21.  An error of the directory other than [KeyError] is not a skip:
    the batch raises it at that recipient, right after the lookup, and
    no skip is logged. *)
Theorem directory_error_is_not_a_skip (w : World) {Data : Type}
        (platform : Platform) (sender0 : ClientUser) (content0 : string)
        (templating_data : Data) (db : contact_db.ContactDB)
        (template_input_builder : Z -> Data -> pyval) (r : User) (st : State) (e : exn) :
  (contact_db.get_contact db (platforms.platform_name platform) (get_id r) st).2 = Raise e ->
  (forall key, e <> KeyError key) ->
  templated.build_messages w platform sender0 [r] content0 templating_data db
    template_input_builder st
  = (mkState (trace st ++ [EvSelectContact (platforms.platform_name platform) (get_id r)])
             (heap st) (next_id st),
     Raise e).
Proof.
  unfold contact_db.get_contact, call. cbn [snd]. intros Hq He.
  unfold templated.build_messages. cbn [basic.build_messages map].
  cbn [templated.build_messages_loop]. unfold bind.
  rewrite build_message_run. cbn [recipient].
  unfold resolve_events, not_found, verdict. cbn [recipient]. rewrite Hq.
  destruct e; try done. by destruct (He key).
Qed.


Lemma directory_error_is_not_a_skip_witness :
  let w := table_world demo_tables [] in
  let db := contact_db.mkContactDB broken_cursor in
  let sender0 := EmailClientUser 1 "me@x.com" (FStr "secret") in
  (contact_db.get_contact db "email" "a@x.com" initial).2
  = Raise (OtherError "OperationalError") /\
  (forall key, OtherError "OperationalError" <> KeyError key) /\
  templated.build_messages w (Email 0) sender0 [EmailUser "a@x.com"] "Hi {0}" tt db
    names_of initial
  = (mkState [EvSelectContact "email" "a@x.com"] ∅ 0,
     Raise (OtherError "OperationalError")).
Proof.
  intros w db sender0.
  assert ((contact_db.get_contact db "email" "a@x.com" initial).2
          = Raise (OtherError "OperationalError")) as H1 by reflexivity.
  assert (forall key, OtherError "OperationalError" <> KeyError key) as H2 by done.
  split; [exact H1|]. split; [exact H2|].
  exact (directory_error_is_not_a_skip w (Email 0) sender0 "Hi {0}" tt db names_of
           (EmailUser "a@x.com") initial _ H1 H2).
Defined.

(** X22.  When [str.format] raises on the values of a recipient, the
    batch raises at that recipient, after the lookup and with nothing
    logged: a [TypeError] is replaced by the [TypeError] that names the
    tuple, any other exception (an [IndexError] for too few values, a
    [ValueError], a [KeyError] for a keyword field) reaches the caller as
    it is. *)
Theorem format_error_reaches_caller (w : World) {Data : Type}
        (platform : Platform) (sender0 : ClientUser) (content0 : string)
        (templating_data : Data) (db : contact_db.ContactDB)
        (template_input_builder : Z -> Data -> pyval) (r : User) (st : State)
        (user : Z) (args : list atom) (e : exn) :
  (contact_db.get_contact db (platforms.platform_name platform) (get_id r) st).2 = Ok user ->
  unpack (template_input_builder user templating_data) = Ok args ->
  str_format w content0 args = Raise e ->
  templated.build_messages w platform sender0 [r] content0 templating_data db
    template_input_builder st
  = (mkState (trace st ++ [EvSelectContact (platforms.platform_name platform) (get_id r)])
             (heap st) (next_id st),
     Raise (match e with
            | TypeError _ => TypeError "Output of template_input_builder must be a tuple."
            | _ => e
            end)).
Proof.
  unfold contact_db.get_contact, call. cbn [snd]. intros Hq Hu Hf.
  unfold templated.build_messages. cbn [basic.build_messages map].
  cbn [templated.build_messages_loop]. unfold bind.
  rewrite build_message_run. cbn [recipient].
  unfold resolve_events, not_found, verdict. cbn [recipient content]. rewrite Hq.
  destruct (template_input_builder user templating_data); try done;
    unfold filled; rewrite Hu, Hf; by destruct e.
Qed.

Lemma format_error_reaches_caller_witness :
  let w := table_world demo_tables [] in
  let db := contact_db.mkContactDB (table_cursor demo_tables) in
  let sender0 := EmailClientUser 1 "me@x.com" (FStr "secret") in
  (contact_db.get_contact db "email" "a@x.com" initial).2 = Ok 1%Z /\
  unpack (names_of 1%Z tt) = Ok [AStr "Alice"] /\
  str_format w "Hi {0} {1}" [AStr "Alice"] = Raise IndexError /\
  templated.build_messages w (Email 0) sender0 [EmailUser "a@x.com"] "Hi {0} {1}" tt db
    names_of initial
  = (mkState [EvSelectContact "email" "a@x.com"] ∅ 0, Raise IndexError).
Proof.
  intros w db sender0.
  assert ((contact_db.get_contact db "email" "a@x.com" initial).2 = Ok 1%Z) as H1
    by (vm_compute; reflexivity).
  assert (unpack (names_of 1%Z tt) = Ok [AStr "Alice"]) as H2 by reflexivity.
  assert (str_format w "Hi {0} {1}" [AStr "Alice"] = Raise IndexError) as H3
    by (vm_compute; reflexivity).
  split; [exact H1|]. split; [exact H2|]. split; [exact H3|].
  exact (format_error_reaches_caller w (Email 0) sender0 "Hi {0} {1}" tt db names_of
           (EmailUser "a@x.com") initial 1%Z [AStr "Alice"] IndexError H1 H2 H3).
Defined.

(** ** Sessions per broadcast *)

Lemma sessions_none {A} (m : M A) : emits_only not_smtp_new m -> sessions_at_most 0 m.
Proof.
  intros H st. destruct (H st) as (evs & E & F). exists evs. split; [done|].
  assert (List.filter is_smtp_new evs = []) as ->; [|done].
  clear -F. induction evs as [|ev evs IH]; simpl in *; [done|].
  apply andb_true_iff in F as [F1 F2]. apply negb_true_iff in F1.
  rewrite F1. auto.
Qed.

Lemma sessions_silent {A} n (m : M A) : emits_only not_smtp_new m -> sessions_at_most n m.
Proof.
  intros H st. destruct (sessions_none m H st) as (evs & E & F).
  exists evs. split; [done|lia].
Qed.

Lemma sessions_bind {A B} a b n (m : M A) (k : A -> M B) :
  sessions_at_most a m -> (forall x, sessions_at_most b (k x)) -> a + b <= n ->
  sessions_at_most n (bind m k).
Proof.
  intros Hm Hk Hn st. unfold bind.
  destruct (Hm st) as (evs1 & E1 & F1).
  destruct (m st) as [st1 [x|e]]; simpl in *.
  - destruct (Hk x st1) as (evs2 & E2 & F2).
    exists (evs1 ++ evs2). rewrite E2, E1, app_assoc, List.filter_app, length_app.
    split; [done|lia].
  - exists evs1. split; [done|lia].
Qed.

Lemma sessions_before {A B} n (m : M A) (k : A -> M B) :
  emits_only not_smtp_new m -> (forall x, sessions_at_most n (k x)) ->
  sessions_at_most n (bind m k).
Proof.
  intros Hm Hk. apply (sessions_bind 0 n); [by apply sessions_none | done | lia].
Qed.

Lemma sessions_after {A B} n (m : M A) (k : A -> M B) :
  sessions_at_most n m -> (forall x, emits_only not_smtp_new (k x)) ->
  sessions_at_most n (bind m k).
Proof.
  intros Hm Hk. apply (sessions_bind n 0); [done | intros; by apply sessions_none | lia].
Qed.

Lemma sessions_call {A} kw (outcome : list event -> result A) :
  sessions_at_most 1 (call (EvSmtpNew kw) outcome).
Proof. intros st. exists [EvSmtpNew kw]. by split. Qed.

Lemma email_build_sender_sessions (w : World) self data :
  sessions_at_most 1 (email.build_sender w self data).
Proof.
  unfold email.build_sender.
  apply sessions_before; [apply emits_only_subscript|]. intros a.
  apply sessions_before; [emits|]. intros address.
  apply sessions_before; [apply emits_only_index|]. intros domain.
  apply sessions_before; [emits|]. intros servers.
  apply sessions_after.
  - destruct (servers !! domain) as [server|].
    + apply sessions_silent. emits.
    + apply sessions_before; [apply emits_only_subscript|]. intros kwargs.
      apply sessions_after.
      * unfold email.SMTP. destruct kwargs as [s|kw].
        -- apply sessions_silent. emits.
        -- apply sessions_after; [apply sessions_call | intros; emits].
      * intros server. emits.
  - intros server. apply emits_only_bind; [apply emits_only_subscript|].
    intros password. by apply EmailClientUser_init_emits.
Qed.

Lemma emits_only_bind_ret {A B} P (x : A) (k : A -> M B) :
  emits_only P (k x) -> emits_only P (bind (ret x) k).
Proof. intros H st. unfold bind, ret. apply H. Qed.

Lemma basic_build_resources_sessions (w : World) platform_name sender_data
      recipients_data content0 :
  sessions_at_most 1
    (basic.build_resources w platform_name sender_data recipients_data content0) /\
  (platform_name = "slack" ->
   emits_only not_smtp_new
     (basic.build_resources w platform_name sender_data recipients_data content0)).
Proof.
  unfold basic.build_resources, platforms.platform_class. split.
  - apply sessions_before.
    { destruct (String.eqb platform_name "slack"), (String.eqb platform_name "email");
        unfold email.Email_init; emits. }
    intros p. apply sessions_after.
    + destruct p as [|self]; simpl.
      * apply sessions_silent. unfold slack.build_sender, slack.SlackClientUser_init.
        emits.
      * apply email_build_sender_sessions.
    + intros s. apply emits_only_bind; [|intros; emits].
      apply emits_only_comprehension. intros d. apply build_recipient_emits.
  - intros ->. cbn [String.eqb Ascii.eqb Bool.eqb].
    apply emits_only_bind_ret. apply emits_only_bind.
    + simpl. unfold slack.build_sender, slack.SlackClientUser_init. emits.
    + intros s. apply emits_only_bind; [|intros; emits].
      apply emits_only_comprehension. intros d. apply build_recipient_emits.
Qed.

Lemma dispatch_sessions (w : World) messages :
  emits_only not_smtp_new (for_each (basic.send_message w) messages).
Proof. apply emits_only_for_each. intros m. by apply send_message_emits. Qed.

Lemma sessions_count {A} n (m : M A) st :
  sessions_at_most n m ->
  length (List.filter is_smtp_new (trace (m st).1))
  <= length (List.filter is_smtp_new (trace st)) + n.
Proof.
  intros H. destruct (H st) as (evs & -> & F).
  rewrite List.filter_app, length_app. lia.
Qed.

(** X23.  A broadcast constructs at most one SMTP session, in plain as in
    templated mode, whatever the number of recipients and whatever fails;
    a plain broadcast on [slack] constructs none. *)
Theorem one_session_per_broadcast (w : World) {Data : Type}
        (platform_name : string) (sender_data : gmap string field)
        (recipients_data : list rdata) (content0 : string) (st : State) :
  length (List.filter is_smtp_new
            (trace (basic.send_to_all w platform_name sender_data recipients_data
                      content0 st).1))
  <= length (List.filter is_smtp_new (trace st)) + 1 /\
  (forall (templating_data : Data) db_username template_input_builder,
     length (List.filter is_smtp_new
               (trace (templated.send_to_all w platform_name sender_data recipients_data
                         content0 templating_data db_username template_input_builder
                         st).1))
     <= length (List.filter is_smtp_new (trace st)) + 1) /\
  (platform_name = "slack" ->
   List.filter is_smtp_new
     (trace (basic.send_to_all w platform_name sender_data recipients_data content0 st).1)
   = List.filter is_smtp_new (trace st)).
Proof.
  split; [|split].
  - apply sessions_count. unfold basic.send_to_all. apply sessions_after.
    + apply basic_build_resources_sessions.
    + intros resources. apply dispatch_sessions.
  - intros templating_data db_username template_input_builder.
    apply sessions_count. unfold templated.send_to_all, templated.build_resources.
    apply sessions_after.
    + apply sessions_before.
      { unfold contact_db.build_contact_db. emits. }
      intros db. apply sessions_before.
      { destruct recipients_data; unfold contact_db.get_usernames; emits. }
      intros data. apply sessions_after; [|intros; emits].
      apply basic_build_resources_sessions.
    + intros resources. unfold templated._send_to_all. apply emits_only_bind.
      * by apply templated_build_messages_emits.
      * intros messages. apply dispatch_sessions.
  - intros Hs. apply (emits_only_filter is_smtp_new). unfold basic.send_to_all.
    apply emits_only_bind.
    + by apply basic_build_resources_sessions.
    + intros resources. apply dispatch_sessions.
Qed.

Lemma one_session_per_broadcast_witness :
  let w := table_world demo_tables [] in
  let slack_sender : gmap string field :=
    {[ "username" := FStr "me"; "token" := FStr "xoxb" ]} in
  "slack" = "slack" /\
  List.filter is_smtp_new
    (trace (basic.send_to_all w "slack" slack_sender [RBare "alice"; RBare "bob"]
              "Hello" initial).1)
  = List.filter is_smtp_new (trace initial).
Proof.
  intros w slack_sender. split; [reflexivity|].
  destruct (@one_session_per_broadcast w unit "slack" slack_sender
              [RBare "alice"; RBare "bob"] "Hello" initial) as (_ & _ & H).
  exact (H eq_refl).
Defined.

(** ** The command line interfaces *)

Section CommandLine.
Context {J : Type} (sh : Shell J).

(** X24.  [basic.CLI.fill_in_args]: a sender given on the command line
    is taken as it is, and then nothing outside the arguments is read.
    Without it the sender is the content of the file the environment
    variable names; without the variable the call raises [ValueError] and
    opens no file.  Platform, recipients and content pass through
    unchanged. *)
Theorem sender_from_command_line_or_environment (platform_name : string)
        (sender_json : option string) (recipients_text : list string) (content0 : string) :
  let run := cli.basic_fill_in_args sh platform_name sender_json recipients_text content0 in
  (forall text,
     sender_json = Some text ->
     run = ([], Ok (cli.mkFilled platform_name text recipients_text content0))) /\
  (sender_json = None ->
   sh_getenv sh (cli.sender_env_name sh platform_name) = None ->
   (exists msg, run.2 = Raise (ValueError msg)) /\
   forall path, AccOpen path ∉ run.1) /\
  (forall args,
     run.2 = Ok args ->
     cli.platform_name args = platform_name /\
     cli.recipients_text args = recipients_text /\
     cli.content args = content0 /\
     (sender_json = Some (cli.sender_json args) \/
      sender_json = None /\
      exists path,
        sh_getenv sh (cli.sender_env_name sh platform_name) = Some path /\
        sh_read sh path = Ok (cli.sender_json args) /\
        run.1 = [AccDebug "sender"; AccGetenv (cli.sender_env_name sh platform_name);
                 AccOpen path])).
Proof.
  intros run. unfold run, cli.basic_fill_in_args. split; [|split].
  - by intros text ->.
  - intros -> ->. simpl. split; [eauto|].
    intros path Hin. repeat (apply elem_of_cons in Hin as [Hin|Hin]; [done|]).
    by apply not_elem_of_nil in Hin.
  - intros args. destruct sender_json as [text|]; simpl.
    + intros [= <-]. simpl. eauto.
    + destruct (sh_getenv sh _) as [path|] eqn:He; simpl; [|done].
      destruct (sh_read sh path) as [text|e] eqn:Hr; [|done].
      intros [= <-]. simpl. do 3 (split; [done|]). right. split; [done|].
      by exists path.
Qed.

(** X25.  [templated.CLI.fill_in_args]: a database username given on the
    command line wins over the environment, and the template data are read
    from standard input only when they are not given.  When the username
    is neither given nor in the environment the call raises [ValueError]
    before the sender is resolved: the sender variable is not read and no
    file is opened. *)
Theorem db_username_from_command_line_or_environment (platform_name : string)
        (sender_json : option string) (recipients_text : list string) (content0 : string)
        (templating_data_json : option string) (db_username : option string) :
  let run := cli.templated_fill_in_args sh platform_name sender_json recipients_text
               content0 templating_data_json db_username in
  (db_username = None ->
   sh_getenv sh (sh_upper sh "mmmm_db_user") = None ->
   (exists msg, run.2 = Raise (ValueError msg)) /\
   run.1 = match templating_data_json with
           | Some _ => []
           | None => [AccDebug "data"; AccStdin]
           end ++ [AccDebug "db_username"; AccGetenv (sh_upper sh "mmmm_db_user")]) /\
  (forall args,
     run.2 = Ok args ->
     (db_username = Some (cli.db_username args) \/
      db_username = None /\
      sh_getenv sh (sh_upper sh "mmmm_db_user") = Some (cli.db_username args)) /\
     (templating_data_json = Some (cli.templating_data_json args) \/
      templating_data_json = None /\ cli.templating_data_json args = sh_stdin sh) /\
     (cli.basic_fill_in_args sh platform_name sender_json recipients_text content0).2
     = Ok (cli.filled args) /\
     (AccStdin ∈ run.1 <-> templating_data_json = None)).
Proof.
  intros run. unfold run, cli.templated_fill_in_args. split.
  - intros -> Hu. rewrite Hu. destruct templating_data_json; simpl; eauto.
  - intros args.
    destruct (cli.basic_fill_in_args sh platform_name sender_json recipients_text content0)
      as [reads base] eqn:Hb.
    assert (AccStdin ∉ reads) as Hreads.
    { revert Hb. unfold cli.basic_fill_in_args.
      destruct sender_json; [intros [= <- _]; apply not_elem_of_nil|].
      destruct (sh_getenv sh _); intros [= <- _]; intros Hin;
        repeat (apply elem_of_cons in Hin as [Hin|Hin]; [done|]);
        by apply not_elem_of_nil in Hin. }
    destruct templating_data_json as [data|], db_username as [user|]; simpl;
      try (destruct (sh_getenv sh (sh_upper sh "mmmm_db_user")) as [user|] eqn:Hu;
           simpl; [|done]);
      (destruct base as [base|e]; [|done]); intros [= <-]; simpl;
      (split; [eauto|]); (split; [eauto|]); (split; [done|]);
      (split; [|intros; repeat constructor]).
    all: try done.
    all: intros Hin; exfalso;
      repeat (apply elem_of_cons in Hin as [Hin|Hin]; [done|]); done.
Qed.



End CommandLine.

Lemma sender_from_command_line_or_environment_witness :
  let sh := demo_shell {[ "COMM_EMAIL_SENDER" := "/etc/sender.json" ]}
              {[ "/etc/sender.json" := "{}" ]} in
  let run := cli.basic_fill_in_args sh "email" None ["a@x.com"] "Hello" in
  run.2 = Ok (cli.mkFilled "email" "{}" ["a@x.com"] "Hello") /\
  run.1 = [AccDebug "sender"; AccGetenv "COMM_EMAIL_SENDER"; AccOpen "/etc/sender.json"].
Proof.
  intros sh run.
  assert (run.2 = Ok (cli.mkFilled "email" "{}" ["a@x.com"] "Hello")) as H
    by (vm_compute; reflexivity).
  split; [exact H|].
  destruct (sender_from_command_line_or_environment sh "email" None ["a@x.com"] "Hello")
    as (_ & _ & Hok).
  destruct (Hok _ H) as (_ & _ & _ & [Hs | (_ & path & He & _ & Hr)]);
    [discriminate Hs|].
  assert (path = "/etc/sender.json") as -> by (vm_compute in He; congruence).
  exact Hr.
Defined.

Lemma db_username_from_command_line_or_environment_witness :
  let sh := demo_shell {[ "COMM_EMAIL_SENDER" := "/etc/sender.json" ]}
              {[ "/etc/sender.json" := "{}" ]} in
  let run := cli.templated_fill_in_args sh "email" None ["a@x.com"] "Hi {0}" None None in
  sh_getenv sh (sh_upper sh "mmmm_db_user") = None /\
  (exists msg, run.2 = Raise (ValueError msg)) /\
  run.1 = [AccDebug "data"; AccStdin; AccDebug "db_username"; AccGetenv "MMMM_DB_USER"].
Proof.
  intros sh run.
  assert (sh_getenv sh (sh_upper sh "mmmm_db_user") = None) as H
    by (vm_compute; reflexivity).
  split; [exact H|].
  destruct (db_username_from_command_line_or_environment sh "email" None ["a@x.com"]
              "Hi {0}" None None) as (Hmissing & _).
  destruct (Hmissing eq_refl H) as (Hraise & Hreads).
  split; [exact Hraise | exact Hreads].
Defined.


Lemma get_unrecognized_queries_per_username_witness :
  let db := contact_db.mkContactDB (table_cursor demo_tables) in
  select_usernames (contact_db.cursor db) "email" = Ok ["a@x.com"; "b@x.com"] /\
  contact_db.get_unrecognized db "email" ["zz@x.com"; "b@x.com"] initial
  = (mkState [EvSelectUsernames "email"; EvSelectUsernames "email"] ∅ 0,
     Ok (filter (fun u => u ∉ ["a@x.com"; "b@x.com"]) ["zz@x.com"; "b@x.com"])).
Proof.
  intros db.
  assert (select_usernames (contact_db.cursor db) "email" = Ok ["a@x.com"; "b@x.com"])
    as H by (vm_compute; reflexivity).
  split; [exact H|].
  destruct (get_unrecognized_queries_per_username db "email" initial) as (_ & Hok & _).
  exact (Hok ["zz@x.com"; "b@x.com"] ["a@x.com"; "b@x.com"] H).
Defined.

(** ** A templated broadcast from end to end *)

Lemma templated_build_resources_base (w : World) {Data : Type} platform_name sender_data
      recipients_data content0 (templating_data : Data) db_username st st1 resources :
  templated.build_resources w platform_name sender_data recipients_data content0
    templating_data db_username st = (st1, Ok resources) ->
  exists data st0,
    basic.build_resources w platform_name sender_data data content0 st0
    = (st1, Ok (templated.res_basic resources)) /\
    (recipients_data <> [] -> data = recipients_data).
Proof.
  unfold templated.build_resources. unfold bind at 1.
  destruct (contact_db.build_contact_db w db_username st) as [st2 [db|e]]; [|done].
  unfold bind at 1.
  destruct (match recipients_data with
            | [] => _
            | _ :: _ => ret recipients_data
            end st2) as [st3 [data|e]] eqn:Hd; [|done].
  unfold bind.
  destruct (basic.build_resources w platform_name sender_data data content0 st3)
    as [st4 [base|e]] eqn:Hb; [|done].
  unfold ret. intros [= <- <-]. exists data, st3. split; [done|].
  intros Hne. destruct recipients_data; [done|]. unfold ret in Hd. by injection Hd as _ <-.
Qed.

(** X28.  A templated broadcast whose resources and messages can be
    built returns, attempts exactly the built messages, in order, and
    makes one transport call for each of them: every built message goes
    from the sender of the resources to a recipient of the sender's
    platform. *)
Theorem templated_broadcast_reaches_every_built_message (w : World) {Data : Type}
        (platform_name : string) (sender_data : gmap string field)
        (recipients_data : list rdata) (content0 : string) (templating_data : Data)
        (db_username : string) (template_input_builder : Z -> Data -> pyval)
        (st st1 st2 : State) (resources : templated.Resources)
        (messages : list Message) :
  templated.build_resources w platform_name sender_data recipients_data content0
    templating_data db_username st = (st1, Ok resources) ->
  templated.build_messages w
    (basic.res_platform (templated.res_basic resources))
    (basic.res_sender (templated.res_basic resources))
    (basic.res_recipients (templated.res_basic resources))
    (basic.res_content (templated.res_basic resources))
    (templated.res_templating_data resources)
    (templated.res_contact_db resources)
    template_input_builder st1 = (st2, Ok messages) ->
  let run := templated.send_to_all w platform_name sender_data recipients_data content0
               templating_data db_username template_input_builder st in
  run.2 = Ok tt /\
  attempts (trace run.1) = attempts (trace st) ++ messages /\
  Forall (fun m => same_platform (sender m) (recipient m) = true) messages /\
  length (List.filter is_transport (trace run.1))
  = length (List.filter is_transport (trace st)) + length messages.
Proof.
  intros Hr Hm run.
  destruct (templated_build_resources_base w _ _ _ _ _ _ _ _ _ Hr)
    as (data & st0 & Hb & _).
  apply build_resources_aligned in Hb as (Hsame & _ & _).
  assert (Forall (fun m => same_platform (sender m) (recipient m) = true) messages)
    as Hms.
  { assert ((templated.build_messages w
               (basic.res_platform (templated.res_basic resources))
               (basic.res_sender (templated.res_basic resources))
               (basic.res_recipients (templated.res_basic resources))
               (basic.res_content (templated.res_basic resources))
               (templated.res_templating_data resources)
               (templated.res_contact_db resources)
               template_input_builder st1).2 = Ok messages) as Hv by (by rewrite Hm).
    apply templated_result_verdicts in Hv.
    pose proof (verdicts_sublist _ _ _ _ _ _ _ Hv) as Hsub.
    assert (Forall (fun m => sender m = basic.res_sender (templated.res_basic resources))
                   (basic.build_messages
                      (basic.res_sender (templated.res_basic resources))
                      (basic.res_recipients (templated.res_basic resources))
                      (basic.res_content (templated.res_basic resources)))) as Hall.
    { unfold basic.build_messages. apply Forall_forall. intros m Hin.
      apply list_elem_of_In, in_map_iff in Hin. by destruct Hin as (r & <- & _). }
    pose proof (verdicts_sender _ _ _ _ _ (basic.res_sender (templated.res_basic resources))
                  _ _ Hv Hall) as Hsnd.
    destruct (plain_messages_shape (basic.res_sender (templated.res_basic resources))
                (basic.res_recipients (templated.res_basic resources))
                (basic.res_content (templated.res_basic resources))) as (_ & Hmap).
    rewrite Hmap in Hsub.
    rewrite Forall_forall in Hsame. rewrite Forall_forall in Hsnd.
    apply Forall_forall. intros m Hin.
    rewrite (Hsnd m Hin). apply Hsame.
    apply (elem_of_sublist (map recipient messages)); [|exact Hsub].
    apply list_elem_of_In, in_map. by apply list_elem_of_In. }
  assert (List.filter is_transport (trace st2) = List.filter is_transport (trace st)
          /\ attempts (trace st2) = attempts (trace st)) as (Ht & Ha).
  { pose proof (emits_only_filter is_transport
                  (templated.build_resources w platform_name sender_data recipients_data
                     content0 templating_data db_username) st) as Ht1.
    pose proof (attempts_unchanged
                  (templated.build_resources w platform_name sender_data recipients_data
                     content0 templating_data db_username) st) as Ha1.
    rewrite Hr in Ht1, Ha1. simpl in Ht1, Ha1.
    match type of Hm with
    | ?build st1 = _ =>
        pose proof (emits_only_filter is_transport build st1) as Ht2;
        pose proof (attempts_unchanged build st1) as Ha2
    end.
    rewrite Hm in Ht2, Ha2. simpl in Ht2, Ha2.
    rewrite Ht2, Ht1, Ha2, Ha1; try done;
      first [by apply templated_build_resources_emits
            | by apply templated_build_messages_emits]. }
  assert (run = (mkState (trace st2 ++ dispatch_events w (trace st2) messages)
                         (heap st2) (next_id st2), Ok tt)) as ->.
  { unfold run, templated.send_to_all, templated._send_to_all, bind.
    rewrite Hr, Hm. apply dispatch_trace. }
  cbn [fst snd trace].
  split; [done|]. split; [|split; [done|]].
  - rewrite attempts_app, Ha. f_equal.
    clear. generalize (trace st2) as tr.
    induction messages as [|m ms IH]; intros tr; cbn [dispatch_events]; [done|].
    rewrite attempts_app, IH. unfold send_events.
    rewrite attempts_app. simpl.
    destruct (transport_call m) as [t|] eqn:E; [|done].
    apply transport_call_is_transport in E. by destruct t.
  - by rewrite List.filter_app, length_app, dispatch_events_transport, Ht.
Qed.

Lemma templated_broadcast_reaches_every_built_message_witness :
  let w := table_world demo_tables [] in
  let built := templated.build_resources w "email" demo_sender
                 [RBare "zz@x.com"; RBare "b@x.com"] "Hi {0}" tt "dbuser" initial in
  let s := EmailClientUser 1 "me@x.com" (FStr "secret") in
  let resources :=
    templated.mkResources
      (basic.mkResources (Email 0) s [EmailUser "zz@x.com"; EmailUser "b@x.com"] "Hi {0}")
      tt (contact_db.mkContactDB (table_cursor demo_tables)) in
  let messages := [mkMessage s (EmailUser "b@x.com") "Hi Bob"] in
  let filled := templated.build_messages w (Email 0) s
                  [EmailUser "zz@x.com"; EmailUser "b@x.com"] "Hi {0}" tt
                  (contact_db.mkContactDB (table_cursor demo_tables)) names_of built.1 in
  let run := templated.send_to_all w "email" demo_sender
               [RBare "zz@x.com"; RBare "b@x.com"] "Hi {0}" tt "dbuser" names_of
               initial in
  built = (built.1, Ok resources) /\
  filled = (filled.1, Ok messages) /\
  run.2 = Ok tt /\
  attempts (trace run.1) = attempts (trace initial) ++ messages /\
  length (List.filter is_transport (trace run.1)) = 1.
Proof.
  intros w built s resources messages filled run.
  assert (built = (built.1, Ok resources)) as H1 by (vm_compute; reflexivity).
  assert (filled = (filled.1, Ok messages)) as H2 by (vm_compute; reflexivity).
  split; [exact H1|]. split; [exact H2|].
  destruct (templated_broadcast_reaches_every_built_message w "email" demo_sender
              [RBare "zz@x.com"; RBare "b@x.com"] "Hi {0}" tt "dbuser" names_of
              initial built.1 filled.1 resources messages H1 H2) as (Ha & Hb & _ & Hc).
  split; [exact Ha|]. split; [exact Hb | exact Hc].
Defined.
